(** * RAG chatbot: the four backend scripts, embedded and verified

    The repository holds four near-duplicate terminal chatbots that differ in
    the vector store they talk to:

    - [InMemory]         -- [src/index.js]             ([RAGChatbot], LangChain MemoryVectorStore)
    - [Remote Pinecone]  -- [src/pinecone-chatbot.js]  ([PineconeRAGChatbot])
    - [Remote Chroma]    -- [src/unnamed/part_000]     ([ChromaRAGChatbot])
    - [Remote LanceDB]   -- [src/unnamed/part_001]     ([LanceDBRAGChatbot])

    Every method of the four classes is translated once, with a [match] on the
    backend wherever the scripts differ.  The chatbot object, the remote store
    and a log of API calls form the state; exceptions are explicit outcomes;
    everything outside the process (OpenAI, the vector store service, the
    file system, LangChain's text splitter) is a field of a [World] that the
    caller supplies afresh for every interaction. *)

From Stdlib Require Import ZArith Ascii.
From stdpp Require Import gmap strings list pretty.

(** ** JavaScript primitives used by the scripts *)

Module JS.

(** [x || d] where [x] is a string or [undefined]: the empty string is
    falsy as well. *)
Definition or_default (x : option string) (d : string) : string :=
  match x with
  | Some s => if String.eqb s "" then d else s
  | None => d
  end.

(** [!x] for a string or [undefined]. *)
Definition falsy (x : option string) : bool :=
  match x with
  | Some s => String.eqb s ""
  | None => true
  end.

Definition is_upper (c : ascii) : bool :=
  let n := Ascii.nat_of_ascii c in (65 <=? n) && (n <=? 90).

Definition lower_char (c : ascii) : ascii :=
  if is_upper c then Ascii.ascii_of_nat (Ascii.nat_of_ascii c + 32) else c.

(** [s.toLowerCase()].  Strings are byte strings (UTF-8); only the ASCII
    letters are mapped.  The scripts compare the result with the ASCII
    words exit, quit, rebuild and status only, and no string with a
    character outside ASCII lower-cases to one of those words. *)
Fixpoint toLowerCase (s : string) : string :=
  match s with
  | EmptyString => EmptyString
  | String c s' => String (lower_char c) (toLowerCase s')
  end.

(** The white space that [trim()] removes, as UTF-8 bytes: the six ASCII
    characters (tab, line feed, vertical tab, form feed, carriage return,
    space) are [Ascii.is_space]; U+00A0 takes two bytes; U+1680, U+2000 to
    U+200A, U+2028, U+2029, U+202F, U+205F, U+3000 and U+FEFF take three. *)
Definition is_space2 (a b : ascii) : bool :=
  (Ascii.nat_of_ascii a =? 194) && (Ascii.nat_of_ascii b =? 160).

Definition is_space3 (a b c : ascii) : bool :=
  let x := Ascii.nat_of_ascii a in
  let y := Ascii.nat_of_ascii b in
  let z := Ascii.nat_of_ascii c in
  ((x =? 225) && (y =? 154) && (z =? 128))
  || ((x =? 226) && (y =? 128)
      && (((128 <=? z) && (z <=? 138)) || (z =? 168) || (z =? 169) || (z =? 175)))
  || ((x =? 226) && (y =? 129) && (z =? 159))
  || ((x =? 227) && (y =? 128) && (z =? 128))
  || ((x =? 239) && (y =? 187) && (z =? 191)).

(** Drop the leading white space; [backwards] when the string is read from
    its end, the bytes of a character then coming last byte first. *)
Fixpoint strip (backwards : bool) (s : string) : string :=
  match s with
  | EmptyString => EmptyString
  | String a s1 =>
      if Ascii.is_space a then strip backwards s1
      else
        match s1 with
        | EmptyString => s
        | String b s2 =>
            if (if backwards then is_space2 b a else is_space2 a b)
            then strip backwards s2
            else
              match s2 with
              | EmptyString => s
              | String c s3 =>
                  if (if backwards then is_space3 c b a else is_space3 a b c)
                  then strip backwards s3
                  else s
              end
        end
  end.

Definition trimStart (s : string) : string := strip false s.

Definition trimEnd (s : string) : string :=
  String.rev (strip true (String.rev s)).

(** [s.trim()] *)
Definition trim (s : string) : string := trimEnd (trimStart s).

(** [a.slice(start)]: a negative [start] counts from the end, and both
    directions are clamped to the array. *)
Definition slice {A : Type} (l : list A) (start : Z) : list A :=
  let len := Z.of_nat (length l) in
  let k := if (start <? 0)%Z then Z.max (len + start) 0 else Z.min start len in
  drop (Z.to_nat k) l.

(** [a.slice(from, to)] for indices that are already non-negative. *)
Definition slice_range {A : Type} (l : list A) (from to : nat) : list A :=
  take (to - from) (drop from l).

(** [a.join(sep)] on an array of strings. *)
Fixpoint join (sep : string) (l : list string) : string :=
  match l with
  | [] => ""
  | [x] => x
  | x :: rest => x +:+ sep +:+ join sep rest
  end.

(** [a.map((x, index) => f x index)], the index counted from [i]. *)
Fixpoint mapi_from {A B : Type} (f : A -> nat -> B) (i : nat) (l : list A) : list B :=
  match l with
  | [] => []
  | x :: rest => f x i :: mapi_from f (S i) rest
  end.

Definition mapi {A B : Type} (f : A -> nat -> B) (l : list A) : list B :=
  mapi_from f 0 l.

(** [hay.includes(needle)], used to state what a rendered text contains. *)
Fixpoint includes (hay needle : string) : bool :=
  String.prefix needle hay ||
  match hay with
  | EmptyString => false
  | String _ hay' => includes hay' needle
  end.

End JS.

(** [needle] occurs in [hay] as a contiguous piece. *)
Definition Contains (hay needle : string) : Prop :=
  exists before after, hay = before +:+ needle +:+ after.

(** Two strings are the same up to the case of their ASCII letters. *)
Inductive same_ignoring_case : string -> string -> Prop :=
| sic_nil : same_ignoring_case "" ""
| sic_cons c d s t :
    JS.lower_char c = JS.lower_char d ->
    same_ignoring_case s t ->
    same_ignoring_case (String c s) (String d t).

(** ** Data model *)

(** The three scripts that talk to a vector store service. *)
Inductive StoreKind := Pinecone | Chroma | LanceDB.

(** The four scripts.  Only the three [Remote] ones have the rebuild and
    status commands; [src/index.js] has neither. *)
Inductive Backend := InMemory | Remote (k : StoreKind).

Inductive Role := system | user | assistant.

(** An entry of [this.chatHistory], and of the [messages] array sent to the
    completion API. *)
Record Msg := { role : Role; content : string }.

(** A LangChain [Document]: [pageContent], [metadata.doc_type] and
    [metadata.source]. *)
Record Document := {
  pageContent : string;
  doc_type : string;
  source : string
}.

(** The embedding vectors are carried around and never inspected. *)
Definition Embedding : Type := list Z.

(** A stored record and, equally, a search hit.  Pinecone keeps the text and
    the two labels under [metadata]; Chroma returns them in parallel arrays
    ([documents], [metadatas]), which are kept here as one row per hit;
    LanceDB stores them as columns. *)
Record Row := {
  row_id : string;
  row_vector : Embedding;
  row_text : string;
  row_doc_type : string;
  row_source : string
}.

(** One sub-directory of [knowledge-base/]: its name and what the
    [DirectoryLoader] yields for it ([None]: the loader throws).  The
    documents carry their path relative to [knowledge-base] as [source]. *)
Record Folder := {
  folder_name : string;
  folder_docs : option (list Document)
}.

(** A streamed completion: the [delta.content] of each chunk ([None] when
    the chunk has none) and whether the stream breaks after them. *)
Record Stream := {
  deltas : list (option string);
  broken : bool
}.

(** Calls on the vector store service, to say which of them succeed. *)
Inductive RemoteOp :=
| OpConnect        (* heartbeat / connect *)
| OpList           (* listIndexes / listCollections / tableNames *)
| OpCreate         (* createIndex (and the wait until it is ready) / createCollection / createTable *)
| OpOpen           (* getCollection / openTable *)
| OpCount          (* describeIndexStats / count / countRows *)
| OpDelete         (* deleteAll / deleteCollection / dropTable *)
| OpWrite (first : nat). (* upsert / add of the batch that starts at chunk [first] *)

(** Everything outside the process, as seen during one interaction. *)
Record World := {
  (** [knowledge-base/]: [None] when the directory does not exist *)
  w_kb : option (list Folder);
  (** the calls on the file system go through: [glob('knowledge-base/*')]
      lists the directory and, where a script writes its example folder into
      a missing directory, [mkdirSync] and [writeFileSync] succeed *)
  w_glob_ok : bool;
  (** LangChain's [RecursiveCharacterTextSplitter] with [chunkSize: 1000],
      [chunkOverlap: 200] *)
  w_split : list Document -> list Document;
  (** [openai.embeddings.create] for a text: [None] when the call throws *)
  w_embed : string -> option Embedding;
  (** does this call on the store service succeed *)
  w_remote_ok : RemoteOp -> bool;
  (** the answer of Pinecone's [describeIndexStats] has a field
      [totalVectorCount], the one the script reads.  The client the script
      is written against ([new Pinecone({ apiKey })], [createIndex] with a
      [spec]) names the count [totalRecordCount] instead. *)
  w_totalVectorCount : bool;
  (** the nearest-neighbour query of the store service over the stored rows:
      [None] when the call throws *)
  w_search : list Row -> Embedding -> nat -> option (list Row);
  (** [openai.chat.completions.create] with [stream: true]: [None] when the
      call throws *)
  w_complete : string -> list Msg -> option Stream
}.

(** The calls on the OpenAI API and the store query, in the order made. *)
Inductive Call :=
| CallEmbed (text : string)
| CallSearch (limit : nat)
| CallComplete (model : string) (messages : list Msg).

(** The fields of the chatbot object. *)
Record Chatbot := {
  (** [this.pinecone] / [this.chromaClient] / [this.db] is set *)
  client : bool;
  (** [this.index] / [this.collection] / [this.table] / [this.vectorstore] is set *)
  handle : bool;
  (** [this.openai]: the key the client was built with *)
  openai : option string;
  chatHistory : list Msg;
  isInitialized : bool;
  documentCount : nat
}.

(** The chatbot, the rows of the store it points at ([None]: no index,
    collection or table of the configured name exists) and the call log. *)
Record State := {
  bot : Chatbot;
  store : option (list Row);
  calls : list Call
}.

(** The object that [new ...RAGChatbot()] builds. *)
Definition new_Chatbot : Chatbot :=
  {| client := false; handle := false; openai := None; chatHistory := [];
     isInitialized := false; documentCount := 0 |}.

(** ** Exceptions and state *)

Inductive Outcome (A : Type) : Type :=
| Returned (a : A)
| Thrown (message : string).
Arguments Returned {A} a.
Arguments Thrown {A} message.

Definition M (A : Type) : Type := State -> Outcome A * State.

Definition ret {A : Type} (a : A) : M A := fun s => (Returned a, s).

Definition throw {A : Type} (message : string) : M A := fun s => (Thrown message, s).

Definition bind {A B : Type} (m : M A) (k : A -> M B) : M B :=
  fun s =>
    match m s with
    | (Returned a, s') => k a s'
    | (Thrown e, s') => (Thrown e, s')
    end.

(** [try { m } catch (error) { h error }]: what [m] did to the state before
    it threw stays done. *)
Definition try_catch {A : Type} (m : M A) (h : string -> M A) : M A :=
  fun s =>
    match m s with
    | (Returned a, s') => (Returned a, s')
    | (Thrown e, s') => h e s'
    end.

Definition get_bot : M Chatbot := fun s => (Returned (bot s), s).

Definition get_store : M (option (list Row)) := fun s => (Returned (store s), s).

Definition set_bot (f : Chatbot -> Chatbot) : M unit :=
  fun s => (Returned tt, {| bot := f (bot s); store := store s; calls := calls s |}).

Definition set_store (r : option (list Row)) : M unit :=
  fun s => (Returned tt, {| bot := bot s; store := r; calls := calls s |}).

Definition log (c : Call) : M unit :=
  fun s => (Returned tt, {| bot := bot s; store := store s; calls := calls s ++ [c] |}).

Declare Scope js_scope.
Delimit Scope js_scope with js.
Notation "'let*' x := m 'in' k" := (bind m (fun x => k))
  (at level 10, x name, m at level 100, k at level 200) : js_scope.
Notation "m ;; k" := (bind m (fun _ => k))
  (at level 100, k at level 200, right associativity) : js_scope.
Open Scope js_scope.

(** Field updates of the chatbot object. *)
Definition with_client (v : bool) (c : Chatbot) : Chatbot :=
  {| client := v; handle := handle c; openai := openai c; chatHistory := chatHistory c;
     isInitialized := isInitialized c; documentCount := documentCount c |}.

Definition with_handle (v : bool) (c : Chatbot) : Chatbot :=
  {| client := client c; handle := v; openai := openai c; chatHistory := chatHistory c;
     isInitialized := isInitialized c; documentCount := documentCount c |}.

Definition with_openai (v : option string) (c : Chatbot) : Chatbot :=
  {| client := client c; handle := handle c; openai := v; chatHistory := chatHistory c;
     isInitialized := isInitialized c; documentCount := documentCount c |}.

Definition with_chatHistory (v : list Msg) (c : Chatbot) : Chatbot :=
  {| client := client c; handle := handle c; openai := openai c; chatHistory := v;
     isInitialized := isInitialized c; documentCount := documentCount c |}.

Definition with_isInitialized (v : bool) (c : Chatbot) : Chatbot :=
  {| client := client c; handle := handle c; openai := openai c; chatHistory := chatHistory c;
     isInitialized := v; documentCount := documentCount c |}.

Definition with_documentCount (v : nat) (c : Chatbot) : Chatbot :=
  {| client := client c; handle := handle c; openai := openai c; chatHistory := chatHistory c;
     isInitialized := isInitialized c; documentCount := v |}.

(** ** Configuration *)

Definition LF : string := String "010"%char "".

Definition MODEL (b : Backend) : string :=
  match b with
  | Remote Pinecone => "gpt-4o"
  | _ => "gpt-4o-mini"
  end.

Definition CHROMA_URL : string := "https://chroma-with-credentials-8y7a.onrender.com".

(** The key that [src/pinecone-chatbot.js] and the LanceDB script write out
    after [process.env.OPENAI_API_KEY ||].  Its characters are left out here;
    the scripts only ever test it for being empty or the placeholder. *)
Definition HARDCODED_OPENAI_KEY : string := "sk-proj-(key written out in the source)".

(** Likewise the key after [process.env.LANCEDB_API_KEY ||], which
    [lancedb.connect] is given without any test. *)
Definition HARDCODED_LANCEDB_KEY : string := "sk_(key written out in the source)".

(** [process.env] *)
Abbreviation Env := (gmap string string).

(** The module-level constant [OPENAI_API_KEY] of each script.  The Chroma
    script reads the variable [OPENAI_API_KEYY]. *)
Definition OPENAI_API_KEY (b : Backend) (env : Env) : option string :=
  match b with
  | InMemory => env !! "OPENAI_API_KEY"
  | Remote Pinecone => Some (JS.or_default (env !! "OPENAI_API_KEY") HARDCODED_OPENAI_KEY)
  | Remote Chroma => env !! "OPENAI_API_KEYY"
  | Remote LanceDB => Some (JS.or_default (env !! "OPENAI_API_KEY") HARDCODED_OPENAI_KEY)
  end.

Definition PINECONE_API_KEY (env : Env) : string :=
  JS.or_default (env !! "PINECONE_API_KEY") "your-pinecone-api-key".

Definition LANCEDB_API_KEY (env : Env) : string :=
  JS.or_default (env !! "LANCEDB_API_KEY") HARDCODED_LANCEDB_KEY.

Definition apology : string :=
  "Sorry, I encountered an error processing your question. Please try again.".

(** ** Embedding and retrieval *)

(** [getEmbedding(text)] of the three remote scripts; its [catch] logs and
    rethrows. *)
Definition getEmbedding (w : World) (text : string) : M Embedding :=
  let* c := get_bot in
  match openai c with
  | None => throw "Cannot read properties of null (reading 'embeddings')"
  | Some _ =>
      log (CallEmbed text);;
      match w_embed w text with
      | Some v => ret v
      | None => throw "embedding request failed"
      end
  end.

(** The embedding call that LangChain's [OpenAIEmbeddings] makes for
    [src/index.js]; it has its own client. *)
Definition embedQuery (w : World) (text : string) : M Embedding :=
  log (CallEmbed text);;
  match w_embed w text with
  | Some v => ret v
  | None => throw "embedding request failed"
  end.

(** [index.query({vector, topK: limit})], [collection.query({nResults: limit})],
    [table.search(v).limit(limit).toArray()] and the retriever of the memory
    store.  Pinecone's [matches || []] and Chroma's [documents[0]] guard turn
    an absent field into an empty result; here the service then answers with
    the empty list. *)
Definition store_query (w : World) (v : Embedding) (limit : nat) : M (list Row) :=
  log (CallSearch limit);;
  let* st := get_store in
  match st with
  | None => throw "store not found"
  | Some rows =>
      match w_search w rows v limit with
      | Some hits => ret hits
      | None => throw "query failed"
      end
  end.

Definition retrieveRelevantDocuments (b : Backend) (w : World) (query : string) (limit : nat)
  : M (list Row) :=
  let* c := get_bot in
  match b with
  | InMemory =>
      if handle c then
        let* v := embedQuery w query in
        store_query w v limit
      else throw "Cannot read properties of null (reading 'asRetriever')"
  | Remote _ =>
      if negb (handle c) then ret []
      else
        try_catch
          (let* queryEmbedding := getEmbedding w query in
           store_query w queryEmbedding limit)
          (fun _ => ret [])
  end.

(** ** Prompt assembly *)

Definition role_label (r : Role) : string :=
  match r with
  | user => "Human"
  | _ => "Assistant"
  end.

Definition formatChatHistory (h : list Msg) : string :=
  JS.join LF (map (fun msg => role_label (role msg) +:+ ": " +:+ content msg) h).

(** The string each retrieved document is turned into.  [src/index.js] has no
    source in it. *)
Definition formatDocument (b : Backend) (doc : Row) (index : nat) : string :=
  match b with
  | InMemory =>
      "Document " +:+ pretty (index + 1) +:+ " (" +:+ row_doc_type doc +:+ "):" +:+ LF
        +:+ row_text doc
  | Remote _ =>
      "Document " +:+ pretty (index + 1) +:+ " (" +:+ row_doc_type doc +:+ ") - Source: "
        +:+ row_source doc +:+ ":" +:+ LF +:+ row_text doc
  end.

Definition formatContext (b : Backend) (relevantDocs : list Row) : string :=
  JS.join (LF +:+ LF) (JS.mapi (formatDocument b) relevantDocs).

Definition historyContext (h : list Msg) : string :=
  if 0 <? length h
  then "Previous conversation:" +:+ LF +:+ formatChatHistory h +:+ LF +:+ LF
  else "".

Definition instructions : string :=
  "You are a helpful AI assistant that answers questions based on the provided context documents. Use the information from the documents to provide accurate and helpful responses. If the information isn't available in the context, say so clearly.".

Definition systemPrompt (h : list Msg) (context : string) : string :=
  instructions +:+ LF +:+ LF +:+ historyContext h +:+ "Context Documents:" +:+ LF
    +:+ context +:+ LF +:+ LF
    +:+ "Please answer the following question based on the context provided above.".

(** The [messages] array of a turn. *)
Definition messages_for (b : Backend) (h : list Msg) (relevantDocs : list Row) (message : string)
  : list Msg :=
  [ {| role := system; content := systemPrompt h (formatContext b relevantDocs) |};
    {| role := user; content := message |} ].

(** ** The completion stream *)

Definition completions_create (w : World) (model : string) (messages : list Msg) : M Stream :=
  let* c := get_bot in
  match openai c with
  | None => throw "Cannot read properties of null (reading 'chat')"
  | Some _ =>
      log (CallComplete model messages);;
      match w_complete w model messages with
      | Some stream => ret stream
      | None => throw "completion request failed"
      end
  end.

(** One round of [for await (const chunk of stream)]. *)
Definition add_delta (fullResponse : string) (delta : option string) : string :=
  let content := default "" delta in
  if String.eqb content "" then fullResponse else fullResponse +:+ content.

Definition read_stream (stream : Stream) : M string :=
  let fullResponse := foldl add_delta "" (deltas stream) in
  if broken stream then throw "stream interrupted" else ret fullResponse.

(** ** The conversation history *)

Definition push_history (m : Msg) : M unit :=
  set_bot (fun c => with_chatHistory (chatHistory c ++ [m]) c).

(** [if (this.chatHistory.length > 20) this.chatHistory = this.chatHistory.slice(-20)] *)
Definition cap_history : M unit :=
  set_bot (fun c =>
    if 20 <? length (chatHistory c)
    then with_chatHistory (JS.slice (chatHistory c) (-20)) c
    else c).

(** ** Calls on the store service *)

(** A call made through a reference that is still [null] is a [TypeError]. *)
Definition through (ref : bool) (m : M unit) : M unit :=
  if ref then m else throw "Cannot read properties of null".

Definition remote_call (w : World) (op : RemoteOp) : M unit :=
  if w_remote_ok w op then ret tt else throw "request to the vector store failed".

(** [describeIndexStats().totalVectorCount || 0], [collection.count()],
    [table.countRows()].  The Pinecone script reads the number of vectors
    from the field [totalVectorCount] of the answer; when the answer has no
    such field, [|| 0] makes the count 0 whatever the index holds. *)
Definition remote_count (k : StoreKind) (w : World) : M nat :=
  remote_call w OpCount;;
  let* st := get_store in
  match st with
  | Some rows =>
      match k with
      | Pinecone => ret (if w_totalVectorCount w then length rows else 0)
      | _ => ret (length rows)
      end
  | None => throw "store not found"
  end.

(** The name is taken: [listIndexes] / [listCollections] / [tableNames]
    inside the [try] of [checkIndexExists], [checkCollectionExists],
    [checkTableExists]; the [catch] answers [false]. *)
Definition checkExists (w : World) : M bool :=
  try_catch
    (let* c := get_bot in
     through (client c) (remote_call w OpList);;
     let* st := get_store in
     ret (bool_decide (is_Some st)))
    (fun _ => ret false).

(** [createIndex()] (Pinecone, with its wait until the service reports the
    index ready, which is part of the one [OpCreate] call here) and
    [createCollection()] (Chroma): both set the handle. *)
Definition createEmpty (w : World) : M unit :=
  let* c := get_bot in
  through (client c)
    (remote_call w OpCreate;;
     let* st := get_store in
     match st with
     | Some _ => throw "already exists"
     | None => set_store (Some []);; set_bot (with_handle true)
     end).

(** [index.upsert(vectors)]: a vector replaces the stored one of its id. *)
Definition upsert1 (rows : list Row) (r : Row) : list Row :=
  if existsb (fun x => String.eqb (row_id x) (row_id r)) rows
  then map (fun x => if String.eqb (row_id x) (row_id r) then r else x) rows
  else rows ++ [r].

(** [collection.add({ids, ...})]: a record whose id is already stored is not
    added again. *)
Definition add1 (rows : list Row) (r : Row) : list Row :=
  if existsb (fun x => String.eqb (row_id x) (row_id r)) rows
  then rows
  else rows ++ [r].

Definition write_batch (k : StoreKind) (w : World) (first : nat) (vectors : list Row) : M unit :=
  let* c := get_bot in
  through (handle c)
    (remote_call w (OpWrite first);;
     let* st := get_store in
     match st with
     | None => throw "store not found"
     | Some rows =>
         set_store (Some (foldl (match k with Pinecone => upsert1 | _ => add1 end) rows vectors))
     end).

(** [db.createTable(TABLE_NAME, data)] *)
Definition createTable (w : World) (data : list Row) : M unit :=
  let* c := get_bot in
  through (client c)
    (remote_call w OpCreate;;
     let* st := get_store in
     match st with
     | Some _ => throw "already exists"
     | None => set_store (Some data)
     end).

(** ** Building the knowledge base *)

Definition tag (docType : string) (doc : Document) : Document :=
  {| pageContent := pageContent doc; doc_type := docType; source := source doc |}.

(** The [for (const folder of folders)] loop of the remote scripts: a folder
    whose loader throws is logged and skipped. *)
Fixpoint load_folders (folders : list Folder) : list Document :=
  match folders with
  | [] => []
  | folder :: rest =>
      match folder_docs folder with
      | Some folderDocs => map (tag (folder_name folder)) folderDocs ++ load_folders rest
      | None => load_folders rest
      end
  end.

(** The same loop in [src/index.js], where a loader that throws ends the
    whole load. *)
Fixpoint load_folders_strict (folders : list Folder) : M (list Document) :=
  match folders with
  | [] => ret []
  | folder :: rest =>
      match folder_docs folder with
      | Some folderDocs =>
          let* documents := load_folders_strict rest in
          ret (map (tag (folder_name folder)) folderDocs ++ documents)
      | None => throw "loader failed"
      end
  end.

(** The text [createExampleKnowledgeBase()] writes to
    [knowledge-base/example/example.md], and the folder [example] as a
    listing finds it once the file is there. *)
Definition exampleContent : string :=
  "# Example Document" +:+ LF
    +:+ LF
    +:+ "This is an example document for the RAG chatbot." +:+ LF
    +:+ LF
    +:+ "## Features" +:+ LF
    +:+ "- Supports markdown files" +:+ LF
    +:+ "- Can handle multiple document types" +:+ LF
    +:+ "- Provides contextual answers" +:+ LF
    +:+ LF
    +:+ "## Usage" +:+ LF
    +:+ "Place your documents in the knowledge-base directory, organized by folders." +:+ LF.

Definition example_folder : Folder :=
  {| folder_name := "example";
     folder_docs := Some [ {| pageContent := exampleContent; doc_type := "";
                              source := "example/example.md" |} ] |}.

(** [createExampleKnowledgeBase()] of the remote scripts: [mkdirSync] and
    [writeFileSync], which throw when the file system refuses.  What is
    written is on disk, outside the chatbot and the store service: it shows
    in the directory that later interactions find, see [kb_after]. *)
Definition createExampleKnowledgeBase (w : World) : M unit :=
  if w_glob_ok w then ret tt
  else throw "EACCES: permission denied, mkdir 'knowledge-base/example'".

(** The directory [knowledge-base/] once [loadDocuments()] of a remote
    script has returned in [w]: as it was, or holding the example folder
    when it was missing. *)
Definition kb_after (w : World) : option (list Folder) :=
  match w_kb w with
  | None => Some [example_folder]
  | Some folders => Some folders
  end.

(** [loadDocuments()].  When the directory is missing the remote scripts
    write the example folder and return no documents; an exception of
    [createExampleKnowledgeBase] is inside the [try] and is thrown on. *)
Definition loadDocuments (b : Backend) (w : World) : M (list Document) :=
  match b with
  | InMemory =>
      if w_glob_ok w then load_folders_strict (default [] (w_kb w))
      else throw "glob failed"
  | Remote _ =>
      match w_kb w with
      | None => createExampleKnowledgeBase w;; ret []
      | Some folders =>
          if negb (w_glob_ok w) then throw "glob failed"
          else if length folders =? 0 then ret []
          else ret (load_folders folders)
      end
  end.

(** [createTextChunks(documents)] of the remote scripts: nothing to split
    for no documents, and LangChain's splitter otherwise. *)
Definition createTextChunks (w : World) (documents : list Document) : list Document :=
  if length documents =? 0 then [] else w_split w documents.

(** [`doc_${globalIndex}`] for Pinecone and Chroma, the number [i] itself in
    the LanceDB rows. *)
Definition chunk_id (k : StoreKind) (globalIndex : nat) : string :=
  match k with
  | LanceDB => pretty globalIndex
  | _ => "doc_" +:+ pretty globalIndex
  end.

(** The inner loop that embeds chunk after chunk and builds the rows, the
    first chunk having the index [i]. *)
Fixpoint embed_rows (embed : string -> M Embedding) (mk_id : nat -> string) (i : nat)
    (chunks : list Document) : M (list Row) :=
  match chunks with
  | [] => ret []
  | chunk :: rest =>
      let* embedding := embed (pageContent chunk) in
      let* rows := embed_rows embed mk_id (S i) rest in
      ret ({| row_id := mk_id i; row_vector := embedding; row_text := pageContent chunk;
              row_doc_type := doc_type chunk; row_source := source chunk |} :: rows)
  end.

Definition batchSize : nat := 100.

(** The values [i] takes in [for (let i = 0; i < n; i += batchSize)]. *)
Definition batch_starts (n : nat) : list nat :=
  map (fun j => j * batchSize) (seq 0 ((n + batchSize - 1) / batchSize)).

Fixpoint for_each {A : Type} (l : list A) (body : A -> M unit) : M unit :=
  match l with
  | [] => ret tt
  | x :: rest => body x;; for_each rest body
  end.

(** The body of the batch loop of the Pinecone and Chroma scripts: embed the
    chunks [i] to [i + batchSize] and write them to the store. *)
Definition store_batch (k : StoreKind) (w : World) (chunks : list Document) (i : nat) : M unit :=
  let batch := JS.slice_range chunks i (i + batchSize) in
  let* vectors := embed_rows (getEmbedding w) (chunk_id k) i batch in
  match k with
  | Pinecone => if 0 <? length vectors then write_batch k w i vectors else ret tt
  | _ => write_batch k w i vectors
  end.

(** [createVectorStore(chunks)] of the remote scripts. *)
Definition createVectorStore (k : StoreKind) (w : World) (chunks : list Document) : M unit :=
  if length chunks =? 0 then ret tt
  else
    match k with
    | LanceDB =>
        let* data := embed_rows (getEmbedding w) (chunk_id LanceDB) 0 chunks in
        createTable w data;;
        set_bot (with_handle true);;
        set_bot (with_documentCount (length data))
    | _ =>
        for_each (batch_starts (length chunks)) (store_batch k w chunks);;
        set_bot (with_documentCount (length chunks))
    end.

(** [new OpenAIEmbeddings({ openAIApiKey })] of LangChain, which throws
    when it is given no key or an empty one. *)
Definition new_OpenAIEmbeddings (apiKey : option string) : M unit :=
  if JS.falsy apiKey then throw "OpenAI or Azure OpenAI API key not found" else ret tt.

(** [createVectorStore(documents)] of [src/index.js]: split, build the
    embeddings client, embed, and keep the result in a new
    [MemoryVectorStore]. *)
Definition createVectorStore_memory (env : Env) (w : World) (documents : list Document)
  : M unit :=
  let chunks := w_split w documents in
  new_OpenAIEmbeddings (OPENAI_API_KEY InMemory env);;
  let* rows := embed_rows (embedQuery w) (fun _ => "") 0 chunks in
  set_store (Some rows);;
  set_bot (with_handle true).

Definition createKnowledgeBase (k : StoreKind) (w : World) : M unit :=
  let* documents := loadDocuments (Remote k) w in
  let chunks := createTextChunks w documents in
  createVectorStore k w chunks.

(** [index.deleteAll()], [chromaClient.deleteCollection()], [db.dropTable()] *)
Definition remote_delete (k : StoreKind) (w : World) : M unit :=
  let* c := get_bot in
  through (match k with Pinecone => handle c | _ => client c end)
    (remote_call w OpDelete;;
     let* st := get_store in
     match st with
     | None => throw "store not found"
     | Some _ => set_store (match k with Pinecone => Some [] | _ => None end)
     end).

Definition rebuildKnowledgeBase (k : StoreKind) (w : World) : M unit :=
  match k with
  | Pinecone =>
      remote_delete Pinecone w;;
      createKnowledgeBase Pinecone w
  | Chroma =>
      try_catch (remote_delete Chroma w) (fun _ => ret tt);;
      createEmpty w;;
      createKnowledgeBase Chroma w
  | LanceDB =>
      try_catch (remote_delete LanceDB w) (fun _ => ret tt);;
      createKnowledgeBase LanceDB w
  end.

(** ** Status report *)

Definition connected (v : bool) : string :=
  if v then "✅ Connected" else "❌ Not connected".

Definition available (v : bool) : string :=
  if v then "✅ Available" else "❌ Not available".

(** The lines every report ends with. *)
Definition status_tail (b : Backend) (c : Chatbot) : string :=
  "- Chat History: " +:+ pretty (length (chatHistory c)) +:+ " messages" +:+ LF
    +:+ "- Model: " +:+ MODEL b.

Definition getStatus (k : StoreKind) (w : World) : M string :=
  let* c := get_bot in
  match k with
  | Pinecone =>
      let* indexStats :=
        (if handle c
         then try_catch (let* n := remote_count Pinecone w in ret (pretty n +:+ " vectors"))
                        (fun _ => ret "Error fetching stats")
         else ret "Not available") in
      ret ("📊 System Status:" +:+ LF
           +:+ "- Pinecone: " +:+ connected (client c) +:+ LF
           +:+ "- Index: " +:+ available (handle c) +:+ LF
           +:+ "- Documents: " +:+ indexStats +:+ LF
           +:+ status_tail (Remote Pinecone) c)
  | Chroma =>
      let* collectionInfo :=
        (if handle c
         then try_catch (let* n := remote_count Chroma w in ret (pretty n +:+ " documents"))
                        (fun _ => ret "Error fetching count")
         else ret "Not available") in
      ret ("📊 System Status:" +:+ LF
           +:+ "- ChromaDB: " +:+ connected (client c) +:+ " (" +:+ CHROMA_URL +:+ ")" +:+ LF
           +:+ "- Collection: " +:+ available (handle c) +:+ LF
           +:+ "- Documents: " +:+ collectionInfo +:+ LF
           +:+ status_tail (Remote Chroma) c)
  | LanceDB =>
      ret ("📊 System Status:" +:+ LF
           +:+ "- LanceDB: " +:+ connected (client c) +:+ LF
           +:+ "- Table: " +:+ available (handle c) +:+ LF
           +:+ "- Documents: " +:+ pretty (documentCount c) +:+ " chunks" +:+ LF
           +:+ status_tail (Remote LanceDB) c)
  end.

(** ** A chat turn *)

(** The part of [chat(message)] that answers a question: from
    [retrieveRelevantDocuments] to [return fullResponse]. *)
Definition chat_question (b : Backend) (w : World) (message : string) : M string :=
  let* relevantDocs := retrieveRelevantDocuments b w message 4 in
  let* c := get_bot in
  let messages := messages_for b (chatHistory c) relevantDocs message in
  push_history {| role := user; content := message |};;
  let* stream := completions_create w (MODEL b) messages in
  let* fullResponse := read_stream stream in
  push_history {| role := assistant; content := fullResponse |};;
  cap_history;;
  ret fullResponse.

Definition chat (b : Backend) (w : World) (message : string) : M string :=
  try_catch
    match b with
    | InMemory => chat_question InMemory w message
    | Remote k =>
        if String.eqb (JS.toLowerCase message) "rebuild" then
          rebuildKnowledgeBase k w;;
          ret "Knowledge base rebuilt successfully!"
        else if String.eqb (JS.toLowerCase message) "status" then
          getStatus k w
        else chat_question (Remote k) w message
    end
    (fun _ => ret apology).

(** ** The terminal loop *)

Inductive Prompt := Closed | Asking.

(** [askQuestion] and the callback of [rl.question], run over the lines that
    arrive; each line comes with the world as it is when the line is
    handled.  [Asking]: the prompt is up and no line is left. *)
Fixpoint askQuestion (b : Backend) (inputs : list (World * string)) : M Prompt :=
  match inputs with
  | [] => ret Asking
  | (w, input) :: rest =>
      let message := JS.trim input in
      if String.eqb (JS.toLowerCase message) "exit" || String.eqb (JS.toLowerCase message) "quit"
      then ret Closed
      else if String.eqb message "" then askQuestion b rest
      else chat b w message;; askQuestion b rest
  end.

Definition startTerminalInterface (b : Backend) (inputs : list (World * string)) : M Prompt :=
  let* c := get_bot in
  match b with
  | InMemory => askQuestion b inputs
  | Remote _ =>
      if negb (isInitialized c)
      then throw "Chatbot not initialized. Call initialize() first."
      else askQuestion b inputs
  end.

(** ** Start-up *)

(** [new OpenAI({ apiKey })]: the SDK refuses a key that is [undefined]. *)
Definition new_OpenAI (apiKey : option string) : M unit :=
  match apiKey with
  | None => throw "The OPENAI_API_KEY environment variable is missing or empty"
  | Some key => set_bot (with_openai (Some key))
  end.

Definition is_placeholder (apiKey : option string) (placeholder : string) : bool :=
  match apiKey with
  | Some key => String.eqb key placeholder
  | None => false
  end.

(** The guard on [OPENAI_API_KEY] at the head of [initialize()]. *)
Definition check_openai_key (k : StoreKind) (env : Env) : M unit :=
  let key := OPENAI_API_KEY (Remote k) env in
  match k with
  | LanceDB =>
      if JS.falsy key
      then throw "OPENAI_API_KEY environment variable is required!" else ret tt
  | _ =>
      if JS.falsy key || is_placeholder key "your-openai-api-key"
      then throw "OPENAI_API_KEY environment variable is required!" else ret tt
  end.

(** [initializePinecone()], [initializeChroma()], [initializeLanceDB()] *)
Definition connect (k : StoreKind) (env : Env) (w : World) : M unit :=
  match k with
  | Pinecone =>
      if JS.falsy (Some (PINECONE_API_KEY env))
         || String.eqb (PINECONE_API_KEY env) "your-pinecone-api-key"
      then throw "PINECONE_API_KEY environment variable is required!"
      else set_bot (with_client true)
  | Chroma =>
      set_bot (with_client true);;
      remote_call w OpConnect
  | LanceDB =>
      remote_call w OpConnect;;
      set_bot (with_client true)
  end.

(** [loadExistingIndex()], [loadExistingCollection()], [loadExistingTable()] *)
Definition loadExisting (k : StoreKind) (w : World) : M unit :=
  match k with
  | Pinecone => ret tt
  | _ =>
      remote_call w OpOpen;;
      let* st := get_store in
      if bool_decide (is_Some st) then ret tt else throw "store not found"
  end;;
  set_bot (with_handle true);;
  let* n := remote_count k w in
  set_bot (with_documentCount n).

Definition initialize (b : Backend) (env : Env) (w : World) : M unit :=
  match b with
  | InMemory =>
      new_OpenAI (OPENAI_API_KEY InMemory env);;
      let* documents := loadDocuments InMemory w in
      createVectorStore_memory env w documents
  | Remote k =>
      check_openai_key k env;;
      new_OpenAI (OPENAI_API_KEY (Remote k) env);;
      connect k env w;;
      let* exists_ := checkExists w in
      match k with
      | LanceDB =>
          if negb exists_ then createKnowledgeBase LanceDB w else loadExisting LanceDB w
      | _ =>
          (if negb exists_ then createEmpty w else loadExisting k w);;
          let* n := remote_count k w in
          set_bot (with_documentCount n);;
          if n =? 0 then createKnowledgeBase k w else ret tt
      end;;
      set_bot (with_isInitialized true)
  end.

Inductive Process := Exited (code : nat) | Prompting.

(** The code at module level that can throw; it runs before [main()] is
    called.  The Chroma script builds its [embedder] there:
    [OpenAIEmbeddingFunction] of [@chroma-core/openai] has no option
    [openai_api_key], the one the script passes, so it looks for its key in
    the variable [OPENAI_API_KEY] and throws when there is none.  The other
    scripts build their clients inside [initialize]. *)
Definition load_module (b : Backend) (env : Env) : M unit :=
  match b with
  | Remote Chroma =>
      if JS.falsy (env !! "OPENAI_API_KEY")
      then throw "OpenAI API key is required"
      else ret tt
  | _ => ret tt
  end.

(** A script from its first line to its prompt: the module-level code, then
    [main()].  An exception that escapes [initialize] or
    [startTerminalInterface] is caught in [main()] and answered with
    [process.exit(1)]; one thrown at module level is uncaught, and one that
    escaped the callback of [rl.question] would be an unhandled rejection,
    which end the process with code 1 as well.  Closing the prompt lets the
    process end with code 0.  The result says where the process is once the
    lines given are handled; what ends a process that is at its prompt is
    told by [run]. *)
Definition main (b : Backend) (env : Env) (w : World) (inputs : list (World * string))
    (s : State) : Process * State :=
  match (load_module b env;; initialize b env w;; startTerminalInterface b inputs) s with
  | (Returned Closed, s') => (Exited 0, s')
  | (Returned Asking, s') => (Prompting, s')
  | (Thrown _, s') => (Exited 1, s')
  end.



(** The state a script starts in, given what the store service holds. *)
Definition boot (st : option (list Row)) : State :=
  {| bot := new_Chatbot; store := st; calls := [] |}.

(** ** Vocabulary for the statements *)

(** The last [n] entries of a list, in their order. *)
Definition most_recent {A : Type} (n : nat) (l : list A) : list A :=
  drop (length l - n) l.

Definition user_turn (message : string) : Msg := {| role := user; content := message |}.

Definition assistant_turn (response : string) : Msg := {| role := assistant; content := response |}.

(** A sequence of chat turns that all complete: the questions are answered
    one after the other, and the exchanged messages are collected.  A turn
    that throws ends the sequence with that exception. *)
Fixpoint complete_turns (b : Backend) (turns : list (World * string)) : M (list Msg) :=
  match turns with
  | [] => ret []
  | (w, message) :: rest =>
      let* response := chat_question b w message in
      let* exchanged := complete_turns b rest in
      ret (user_turn message :: assistant_turn response :: exchanged)
  end.

Definition set_history (h : list Msg) (s : State) : State :=
  {| bot := with_chatHistory h (bot s); store := store s; calls := calls s |}.

Definition add_call (c : Call) (s : State) : State :=
  {| bot := bot s; store := store s; calls := calls s ++ [c] |}.

(** What [cap_history] leaves of a history. *)
Definition capped (h : list Msg) : list Msg :=
  if 20 <? length h then JS.slice h (-20) else h.

Definition is_completion (c : Call) : bool :=
  match c with
  | CallComplete _ _ => true
  | _ => false
  end.

Definition is_embedding (c : Call) : bool :=
  match c with
  | CallEmbed _ => true
  | _ => false
  end.

(** The number of completion requests, and of embedding requests, made so far. *)
Definition completions (s : State) : nat := length (List.filter is_completion (calls s)).

Definition embeddings (s : State) : nat := length (List.filter is_embedding (calls s)).

(** The computation leaves the conversation history as it found it,
    whether it returns or throws. *)
Definition keeps_history {A : Type} (m : M A) : Prop :=
  forall s, chatHistory (bot (m s).2) = chatHistory (bot s).

(** The message takes the question path of [chat]: always in
    [src/index.js], and unless it is one of the two commands elsewhere. *)
Definition asks (b : Backend) (message : string) : bool :=
  match b with
  | InMemory => true
  | Remote _ =>
      negb (String.eqb (JS.toLowerCase message) "rebuild")
      && negb (String.eqb (JS.toLowerCase message) "status")
  end.

(** The line is handed to [chat]: it is not blank and does not close the
    prompt. *)
Definition reaches_chat (line : string) : bool :=
  negb (String.eqb (JS.toLowerCase (JS.trim line)) "exit"
        || String.eqb (JS.toLowerCase (JS.trim line)) "quit")
  && negb (String.eqb (JS.trim line) "").

(** The turn on [message] makes one embedding request, and that request
    fails. *)
Definition embedding_fails_in_turn (b : Backend) (w : World) (message : string) (s : State)
  : Prop :=
  w_embed w message = None /\ embeddings (chat b w message s).2 = S (embeddings s).

(** Each retrieved document appears in the prompt of backend [b] in a piece
    that has its text, its category and its source. *)
Definition labels_category_and_source (b : Backend) : Prop :=
  forall (h : list Msg) (docs : list Row) (j : nat) (doc : Row),
    docs !! j = Some doc ->
    exists piece,
      Contains (systemPrompt h (formatContext b docs)) piece
      /\ Contains piece (row_text doc)
      /\ Contains piece (row_doc_type doc)
      /\ Contains piece (row_source doc).

(** What a status report has to show of the state it is made in. *)
Definition is_status_report (b : Backend) (s : State) (report : string) : Prop :=
  Contains report (connected (client (bot s)))
  /\ Contains report (available (handle (bot s)))
  /\ Contains report "- Documents: "
  /\ Contains report
       ("- Chat History: " +:+ pretty (length (chatHistory (bot s))) +:+ " messages")
  /\ Contains report ("- Model: " +:+ MODEL b).




(** [count()]: the number of records the store holds; none when there is no
    index, collection or table. *)
Definition count (s : State) : nat :=
  match store s with
  | Some rows => length rows
  | None => 0
  end.

(** The store a build starts from: an empty index or collection, or no
    table. *)
Definition empty_store (k : StoreKind) : option (list Row) :=
  match k with
  | LanceDB => None
  | _ => Some []
  end.

(** Every service answers: the store service serves every call, the
    embedding API embeds every text, and the file system does what the
    script asks of it (the directory can be listed, or the example written
    when it is missing). *)
Definition healthy (w : World) : Prop :=
  (forall op, w_remote_ok w op = true)
  /\ (forall text, is_Some (w_embed w text))
  /\ w_glob_ok w = true.

(** The chatbot has started and its index, collection or table exists,
    whatever it holds. *)
Definition started (s : State) : Prop :=
  client (bot s) = true /\ handle (bot s) = true
  /\ is_Some (openai (bot s)) /\ is_Some (store s).

(** What the store service promises of a query: at most [limit] hits, all
    of them stored rows. *)
Definition answers_within_limit (w : World) : Prop :=
  forall rows v limit hits,
    w_search w rows v limit = Some hits ->
    length hits <= limit /\ (forall hit, In hit hits -> In hit rows).

(** The completion request for these messages fails: the call throws, or
    the stream breaks off. *)
Definition completion_fails (w : World) (model : string) (messages : list Msg) : Prop :=
  match w_complete w model messages with
  | None => True
  | Some stream => broken stream = true
  end.

(** ** A small knowledge base to run the scripts on *)

Module Sample.

Definition sky_row : Row :=
  {| row_id := "doc_0"; row_vector := [1; 0]%Z; row_text := "The sky is blue.";
     row_doc_type := "facts"; row_source := "facts/sky.md" |}.

Definition sky_folder : Folder :=
  {| folder_name := "facts";
     folder_docs := Some [ {| pageContent := "The sky is blue."; doc_type := "";
                              source := "facts/sky.md" |} ] |}.

(** Every service answers; the model says Blue. *)
Definition sky_world : World :=
  {| w_kb := Some [sky_folder];
     w_glob_ok := true;
     w_split := fun documents => documents;
     w_embed := fun _ => Some [1; 0]%Z;
     w_remote_ok := fun _ => true;
     w_totalVectorCount := false;
     w_search := fun rows _ limit => Some (take limit rows);
     w_complete := fun _ _ => Some {| deltas := [Some "Blue"; None; Some "."]; broken := false |} |}.

(** The same, with a completion API that is down. *)
Definition no_completion : World :=
  {| w_kb := w_kb sky_world; w_glob_ok := true; w_split := w_split sky_world;
     w_embed := w_embed sky_world; w_remote_ok := w_remote_ok sky_world;
     w_totalVectorCount := false;
     w_search := w_search sky_world;
     w_complete := fun _ _ => None |}.

(** The same, with an embedding API that is down. *)
Definition no_embedding : World :=
  {| w_kb := w_kb sky_world; w_glob_ok := true; w_split := w_split sky_world;
     w_embed := fun _ => None; w_remote_ok := w_remote_ok sky_world;
     w_totalVectorCount := false;
     w_search := w_search sky_world;
     w_complete := w_complete sky_world |}.

(** A chatbot that has started, with the given history. *)
Definition ready (h : list Msg) : State :=
  {| bot := {| client := true; handle := true; openai := Some "sk-test";
               chatHistory := h; isInitialized := true; documentCount := 1 |};
     store := Some [sky_row];
     calls := [] |}.

Definition question : string := "What color is the sky?".

(** An environment with both keys set. *)
Definition full_env : Env :=
  {[ "OPENAI_API_KEY" := "sk-test"; "OPENAI_API_KEYY" := "sk-test";
     "PINECONE_API_KEY" := "pc-test" ]}.

(** A store left over from an older knowledge base. *)
Definition populated : State :=
  {| bot := {| client := true; handle := true; openai := Some "sk-test";
               chatHistory := []; isInitialized := true; documentCount := 3 |};
     store := Some [ {| row_id := "doc_0"; row_vector := [0; 1]%Z; row_text := "Grass is green.";
                        row_doc_type := "facts"; row_source := "facts/grass.md" |};
                     {| row_id := "doc_1"; row_vector := [0; 2]%Z; row_text := "Snow is white.";
                        row_doc_type := "facts"; row_source := "facts/snow.md" |};
                     {| row_id := "doc_2"; row_vector := [0; 3]%Z; row_text := "Coal is black.";
                        row_doc_type := "facts"; row_source := "facts/coal.md" |} ];
     calls := [] |}.

(** An unanswered question is in the history; twelve questions follow. *)
Definition interrupted : State := ready [user_turn "Is anyone there?"].

Definition twelve_turns : list (World * string) := replicate 12 (sky_world, question).

(** Only the Pinecone key is set. *)
Definition pinecone_only : Env := {[ "PINECONE_API_KEY" := "pc-test" ]}.

(** Ten answered questions, then one while the completion API is down. *)
Definition eleven_lines : list (World * string) :=
  replicate 10 (sky_world, question) ++ [(no_completion, "And at night?")].

End Sample.

(** ** The stand-alone example at the end of [src/pinecone-chatbot.js]

    The class [RAGSystem] keeps a Chroma collection and uses the two clients
    built at module scope.  Of the chatbot object only the handle
    ([this.collection]) is used; the store is the collection. *)

Module RAGSystem.

(** An element of the [documents] array given to [addDocuments].  The
    metadata object is stored and never read again; it is kept as one
    string. *)
Record Entry := {
  doc_id : option string;
  doc_content : string;
  doc_metadata : option string
}.

(** The services as the example sees them: those of the chatbots, the
    clock read for the [i]-th document, and the completion API without
    streaming ([choices[0].message.content], [None] when the call throws). *)
Record Services := {
  base : World;
  now : nat -> nat;
  reply : string -> list Msg -> nat -> option string
}.

(** What [generateResponse] returns; the distances of the hits are left
    out. *)
Record Response := {
  answer : string;
  sources : list string
}.

(** [getOrCreateCollection]: an existing collection keeps its records. *)
Definition initializeCollection (v : Services) : M unit :=
  remote_call (base v) OpCreate;;
  let* st := get_store in
  set_store (Some (default [] st));;
  set_bot (with_handle true).

(** [if (!this.collection) await this.initializeCollection()] *)
Definition ensure_collection (v : Services) : M unit :=
  let* c := get_bot in
  if handle c then ret tt else initializeCollection v.

Definition generateEmbedding (v : Services) (text : string) : M Embedding :=
  embedQuery (base v) text.

(** [doc.id || `doc_${Date.now()}_${i}`] *)
Definition entry_id (v : Services) (doc : Entry) (i : nat) : string :=
  JS.or_default (doc_id doc) ("doc_" +:+ pretty (now v i) +:+ "_" +:+ pretty i).

(** The loop of [addDocuments] that fills the four parallel arrays, kept
    here as one row per document. *)
Fixpoint embed_entries (v : Services) (i : nat) (documents : list Entry) : M (list Row) :=
  match documents with
  | [] => ret []
  | doc :: rest =>
      let* embedding := generateEmbedding v (doc_content doc) in
      let* rows := embed_entries v (S i) rest in
      ret ({| row_id := entry_id v doc i; row_vector := embedding; row_text := doc_content doc;
              row_doc_type := ""; row_source := default "" (doc_metadata doc) |} :: rows)
  end.

Definition addDocuments (v : Services) (documents : list Entry) : M unit :=
  ensure_collection v;;
  let* rows := embed_entries v 0 documents in
  write_batch Chroma (base v) 0 rows.

Definition searchSimilar (v : Services) (query : string) (nResults : nat) : M (list Row) :=
  ensure_collection v;;
  let* queryEmbedding := generateEmbedding v query in
  store_query (base v) queryEmbedding nResults.

(** The template of [generateResponse]. *)
Definition prompt_for (query : string) (hits : list Row) : string :=
  "Context information is below:" +:+ LF
    +:+ JS.join (LF +:+ LF) (map row_text hits) +:+ LF +:+ LF
    +:+ "Given the context information above, please answer the following question:" +:+ LF
    +:+ query +:+ LF +:+ LF
    +:+ "If the answer cannot be found in the context, please say so.".

Definition messages_for (query : string) (hits : list Row) : list Msg :=
  [ {| role := system;
       content := "You are a helpful assistant that answers questions based on the provided context." |};
    {| role := user; content := prompt_for query hits |} ].

Definition generateResponse (v : Services) (query : string) (maxTokens : nat) : M Response :=
  let* hits := searchSimilar v query 5 in
  log (CallComplete "gpt-4" (messages_for query hits));;
  match reply v "gpt-4" (messages_for query hits) maxTokens with
  | Some text => ret {| answer := text; sources := map row_text hits |}
  | None => throw "completion request failed"
  end.

(** The three documents of the usage example. *)
Definition documents : list Entry :=
  [ {| doc_id := Some "doc1";
       doc_content := "Artificial Intelligence is a field of computer science that aims to create intelligent machines.";
       doc_metadata := Some "AI textbook" |};
    {| doc_id := Some "doc2";
       doc_content := "Machine Learning is a subset of AI that focuses on algorithms that can learn from data.";
       doc_metadata := Some "ML guide" |};
    {| doc_id := Some "doc3";
       doc_content := "Neural networks are computing systems inspired by biological neural networks.";
       doc_metadata := Some "Deep Learning book" |} ].

(** [main()] of the example: whatever is thrown is logged and dropped. *)
Definition main (v : Services) : M unit :=
  try_catch
    (addDocuments v documents;;
     let* result := generateResponse v "What is machine learning?" 1000 in
     ret tt)
    (fun _ => ret tt).

End RAGSystem.

(** ** More vocabulary *)

(** The line closes the prompt: it reads exit or quit once trimmed. *)
Definition closes (line : string) : bool :=
  String.eqb (JS.toLowerCase (JS.trim line)) "exit"
  || String.eqb (JS.toLowerCase (JS.trim line)) "quit".

(** What a stored row shows of the chunk it was made from, and what the
    chunk with index [i] is to be stored as. *)
Definition row_content (r : Row) : string * string * string * string :=
  (row_id r, row_text r, row_doc_type r, row_source r).

Definition chunk_content (mk_id : nat -> string) (chunk : Document) (i : nat)
  : string * string * string * string :=
  (mk_id i, pageContent chunk, doc_type chunk, source chunk).

(** The chunks, numbered from [i] on, as they are to be stored. *)
Definition contents (mk_id : nat -> string) (i : nat) (chunks : list Document)
  : list (string * string * string * string) :=
  JS.mapi_from (chunk_content mk_id) i chunks.

(** The rows are the chunks in their order, each under the identifier of
    its position and with the embedding of its text. *)
Definition holds (mk_id : nat -> string) (w : World) (rows : list Row)
    (chunks : list Document) : Prop :=
  row_content <$> rows = contents mk_id 0 chunks
  /\ Forall (fun r => w_embed w (row_text r) = Some (row_vector r)) rows.

(** The texts a stream carries, missing ones counting as empty. *)
Definition stream_text (stream : Stream) : string :=
  JS.join "" (map (default "") (deltas stream)).

(** ** More cases to run *)

Module Cases.

(** No [knowledge-base] directory; every service answers. *)
Definition bare_world : World :=
  {| w_kb := None; w_glob_ok := true; w_split := fun documents => documents;
     w_embed := fun _ => Some [1; 0]%Z; w_remote_ok := fun _ => true;
     w_totalVectorCount := false;
     w_search := fun rows _ limit => Some (take limit rows);
     w_complete := fun _ _ => Some {| deltas := [Some "Blue"; None; Some "."]; broken := false |} |}.

(** Two folders, the first of which cannot be loaded. *)
Definition torn_world : World :=
  {| w_kb := Some [ {| folder_name := "broken"; folder_docs := None |}; Sample.sky_folder ];
     w_glob_ok := true; w_split := fun documents => documents;
     w_embed := fun _ => Some [1; 0]%Z; w_remote_ok := fun _ => true;
     w_totalVectorCount := false;
     w_search := fun rows _ limit => Some (take limit rows);
     w_complete := fun _ _ => Some {| deltas := [Some "Blue"]; broken := false |} |}.

(** A started chatbot whose index or collection holds nothing. *)
Definition emptied : State :=
  {| bot := bot (Sample.ready []); store := Some []; calls := [] |}.

(** A LanceDB chatbot that is connected and has no table. *)
Definition untabled : State :=
  {| bot := with_handle false (bot (Sample.ready [])); store := None; calls := [] |}.


(** The embedding API refuses the text of the second chunk. *)
Definition second_fails : World :=
  {| w_kb := Some [ {| folder_name := "facts";
                       folder_docs := Some [ {| pageContent := "one"; doc_type := ""; source := "facts/1.md" |};
                                             {| pageContent := "two"; doc_type := ""; source := "facts/2.md" |} ] |} ];
     w_glob_ok := true; w_split := fun documents => documents;
     w_embed := fun text => if String.eqb text "two" then None else Some [1; 0]%Z;
     w_remote_ok := fun _ => true;
     w_totalVectorCount := false;
     w_search := fun rows _ limit => Some (take limit rows);
     w_complete := fun _ _ => None |}.

(** The store service cannot list what it holds. *)
Definition no_listing : World :=
  {| w_kb := w_kb Sample.sky_world; w_glob_ok := true; w_split := w_split Sample.sky_world;
     w_embed := w_embed Sample.sky_world;
     w_remote_ok := fun op => match op with OpList => false | _ => true end;
     w_totalVectorCount := false;
     w_search := w_search Sample.sky_world; w_complete := w_complete Sample.sky_world |}.

(** The services of the stand-alone example, all answering. *)
Definition example_services : RAGSystem.Services :=
  {| RAGSystem.base := Sample.sky_world;
     RAGSystem.now := fun _ => 1700;
     RAGSystem.reply := fun _ _ _ => Some "A subset of AI." |}.

(** The same with a completion API that is down. *)
Definition mute_services : RAGSystem.Services :=
  {| RAGSystem.base := Sample.sky_world;
     RAGSystem.now := fun _ => 1700;
     RAGSystem.reply := fun _ _ _ => None |}.

End Cases.

(** * Proofs *)

(** ** Strings *)

Lemma str_app_cons (x : ascii) (a b : string) : String x a +:+ b = String x (a +:+ b).
Proof. reflexivity. Qed.

Lemma str_app_assoc (a b c : string) : (a +:+ b) +:+ c = a +:+ (b +:+ c).
Proof. induction a as [|x a IH]; [done|]. by rewrite !str_app_cons, IH. Qed.

Lemma str_app_nil_r (a : string) : a +:+ "" = a.
Proof. induction a as [|x a IH]; [done|]. by rewrite str_app_cons, IH. Qed.

Lemma Contains_refl (s : string) : Contains s s.
Proof. exists "", "". simpl. by rewrite str_app_nil_r. Qed.

Lemma Contains_app_r (pre s needle : string) :
  Contains s needle -> Contains (pre +:+ s) needle.
Proof.
  intros (x & y & ->). exists (pre +:+ x), y. by rewrite str_app_assoc.
Qed.

Lemma Contains_app_l (s post needle : string) :
  Contains s needle -> Contains (s +:+ post) needle.
Proof.
  intros (x & y & ->). exists x, (y +:+ post). by rewrite !str_app_assoc.
Qed.

Lemma Contains_trans (a b c : string) :
  Contains a b -> Contains b c -> Contains a c.
Proof.
  intros (x & y & ->) (u & v & ->). exists (x +:+ u), (v +:+ y).
  by rewrite !str_app_assoc.
Qed.

Lemma Contains_head (s post : string) : Contains (s +:+ post) s.
Proof. apply Contains_app_l, Contains_refl. Qed.

Lemma prefix_spec (needle hay : string) :
  String.prefix needle hay = true <-> exists post, hay = needle +:+ post.
Proof.
  revert hay. induction needle as [|c needle IH]; intros hay.
  - destruct hay; simpl; split; eauto.
  - destruct hay as [|d hay]; simpl.
    + split; [done | intros (post & Hp); discriminate].
    + destruct (Ascii.ascii_dec c d) as [->|Hne].
      * rewrite IH. split; intros (post & Hp); exists post.
        -- by rewrite str_app_cons, <- Hp.
        -- rewrite str_app_cons in Hp. congruence.
      * split; [done | intros (post & Hp)]. rewrite str_app_cons in Hp. congruence.
Qed.

Lemma includes_nil (needle : string) :
  JS.includes "" needle = String.prefix needle "" || false.
Proof. reflexivity. Qed.

Lemma includes_cons (c : ascii) (hay needle : string) :
  JS.includes (String c hay) needle = String.prefix needle (String c hay) || JS.includes hay needle.
Proof. reflexivity. Qed.

Lemma includes_spec (hay needle : string) :
  JS.includes hay needle = true <-> Contains hay needle.
Proof.
  induction hay as [|c hay IH].
  - rewrite includes_nil, orb_false_r, prefix_spec. split.
    + intros (post & ->). by exists "", post.
    + intros ([|x pre] & post & Hp).
      * by exists post.
      * rewrite str_app_cons in Hp. discriminate.
  - rewrite includes_cons, orb_true_iff, prefix_spec, IH. split.
    + intros [(post & ->) | (pre & post & ->)].
      * by exists "", post.
      * by exists (String c pre), post.
    + intros ([|x pre] & post & Hp).
      * left. by exists post.
      * right. rewrite str_app_cons in Hp. injection Hp as -> ->. by exists pre, post.
Qed.

Lemma same_ignoring_case_lower (s t : string) :
  same_ignoring_case s t <-> JS.toLowerCase s = JS.toLowerCase t.
Proof.
  split.
  - induction 1 as [|c d s t Hc _ IH]; simpl; [done|]. by rewrite Hc, IH.
  - revert t. induction s as [|c s IH]; intros [|d t] Heq; simpl in Heq; try discriminate.
    + constructor.
    + injection Heq as Hc Hs. constructor; auto.
Qed.

(** ** Lists: the window over the history *)

Lemma capped_most_recent (h : list Msg) : capped h = most_recent 20 h.
Proof.
  unfold capped, most_recent, JS.slice.
  destruct (20 <? length h) eqn:Hlen.
  - apply Nat.ltb_lt in Hlen. simpl. f_equal. lia.
  - apply Nat.ltb_ge in Hlen. by replace (length h - 20) with 0 by lia.
Qed.

Lemma length_most_recent {A : Type} (n : nat) (l : list A) :
  length (most_recent n l) = Nat.min n (length l).
Proof. unfold most_recent. rewrite length_drop. lia. Qed.

Lemma most_recent_all {A : Type} (n : nat) (l : list A) :
  length l <= n -> most_recent n l = l.
Proof. intros Hle. unfold most_recent. by replace (length l - n) with 0 by lia. Qed.

Lemma most_recent_app {A : Type} (n : nat) (x y : list A) :
  most_recent n (most_recent n x ++ y) = most_recent n (x ++ y).
Proof.
  destruct (decide (length x <= n)) as [Hle|Hgt].
  - by rewrite (most_recent_all n x).
  - unfold most_recent at 1 3.
    rewrite !length_app, length_most_recent.
    unfold most_recent.
    replace (length x + length y - n) with ((length x - n) + (length y + 0)) by lia.
    rewrite <- drop_drop. rewrite (drop_app_le x y) by lia.
    f_equal. lia.
Qed.

(** ** Running the computations *)

Lemma keeps_ret {A : Type} (a : A) : keeps_history (ret a).
Proof. by intros s. Qed.

Lemma keeps_throw {A : Type} (e : string) : keeps_history (@throw A e).
Proof. by intros s. Qed.

Lemma keeps_bind {A B : Type} (m : M A) (k : A -> M B) :
  keeps_history m -> (forall a, keeps_history (k a)) -> keeps_history (bind m k).
Proof.
  intros Hm Hk s. unfold bind. specialize (Hm s).
  destruct (m s) as [[a|e] s1]; simpl in *; [|done].
  by rewrite (Hk a s1).
Qed.

Lemma keeps_try_catch {A : Type} (m : M A) (h : string -> M A) :
  keeps_history m -> (forall e, keeps_history (h e)) -> keeps_history (try_catch m h).
Proof.
  intros Hm Hh s. unfold try_catch. specialize (Hm s).
  destruct (m s) as [[a|e] s1]; simpl in *; [done|].
  by rewrite (Hh e s1).
Qed.

Lemma keeps_get_bot : keeps_history get_bot.
Proof. by intros s. Qed.

Lemma keeps_get_store : keeps_history get_store.
Proof. by intros s. Qed.

Lemma keeps_set_store (r : option (list Row)) : keeps_history (set_store r).
Proof. by intros s. Qed.

Lemma keeps_log (c : Call) : keeps_history (log c).
Proof. by intros s. Qed.

Lemma keeps_set_bot (f : Chatbot -> Chatbot) :
  (forall c, chatHistory (f c) = chatHistory c) -> keeps_history (set_bot f).
Proof. intros Hf s. apply Hf. Qed.

Lemma keeps_if {A : Type} (c : bool) (m1 m2 : M A) :
  keeps_history m1 -> keeps_history m2 -> keeps_history (if c then m1 else m2).
Proof. by destruct c. Qed.

Create HintDb frame.
#[local] Hint Resolve keeps_ret keeps_throw keeps_get_bot keeps_get_store keeps_set_store
  keeps_log keeps_if : frame.
#[local] Hint Extern 1 (keeps_history (bind _ _)) => apply keeps_bind; [|intros ?] : frame.
#[local] Hint Extern 1 (keeps_history (try_catch _ _)) =>
  apply keeps_try_catch; [|intros ?] : frame.
#[local] Hint Extern 1 (keeps_history (set_bot _)) => apply keeps_set_bot; by intros [] : frame.
#[local] Hint Extern 2 (keeps_history (match ?x with _ => _ end)) => destruct x : frame.

Ltac frame := solve [auto 30 with frame].

Lemma keeps_through (ref : bool) (m : M unit) : keeps_history m -> keeps_history (through ref m).
Proof. intros Hm. unfold through. frame. Qed.

Lemma keeps_remote_call (w : World) (op : RemoteOp) : keeps_history (remote_call w op).
Proof. unfold remote_call. frame. Qed.

#[local] Hint Resolve keeps_through keeps_remote_call : frame.

Lemma keeps_getEmbedding (w : World) (text : string) : keeps_history (getEmbedding w text).
Proof. unfold getEmbedding. frame. Qed.

Lemma keeps_embedQuery (w : World) (text : string) : keeps_history (embedQuery w text).
Proof. unfold embedQuery. frame. Qed.

Lemma keeps_store_query (w : World) (v : Embedding) (limit : nat) :
  keeps_history (store_query w v limit).
Proof. unfold store_query. frame. Qed.

#[local] Hint Resolve keeps_getEmbedding keeps_embedQuery keeps_store_query : frame.

Lemma keeps_retrieve (b : Backend) (w : World) (query : string) (limit : nat) :
  keeps_history (retrieveRelevantDocuments b w query limit).
Proof. unfold retrieveRelevantDocuments. frame. Qed.

(** One round of unfolding the plumbing of [M]. *)
Ltac step :=
  cbv beta iota zeta delta
    [bind ret throw try_catch get_bot get_store set_bot set_store log through remote_call];
  simpl.

(** The question path, spelled out state by state. *)
Lemma chat_question_unfold (b : Backend) (w : World) (message : string) (s : State) :
  chat_question b w message s =
    match retrieveRelevantDocuments b w message 4 s with
    | (Thrown e, s1) => (Thrown e, s1)
    | (Returned hits, s1) =>
        let h := chatHistory (bot s1) in
        let messages := messages_for b h hits message in
        let s2 := set_history (h ++ [user_turn message]) s1 in
        match openai (bot s1) with
        | None => (Thrown "Cannot read properties of null (reading 'chat')", s2)
        | Some _ =>
            let s3 := add_call (CallComplete (MODEL b) messages) s2 in
            match w_complete w (MODEL b) messages with
            | None => (Thrown "completion request failed", s3)
            | Some stream =>
                if broken stream then (Thrown "stream interrupted", s3)
                else
                  let fullResponse := foldl add_delta "" (deltas stream) in
                  (Returned fullResponse,
                   set_history
                     (capped (h ++ [user_turn message; assistant_turn fullResponse])) s3)
            end
        end
    end.
Proof.
  unfold chat_question. step.
  destruct (retrieveRelevantDocuments b w message 4 s) as [[found|err] s0]; [|done].
  destruct s0 as [[cl hd okey h0 ini cnt] st cs].
  unfold push_history, completions_create. step.
  destruct okey as [key|]; [|done].
  destruct (w_complete w (MODEL b) _) as [stream|]; [|done].
  unfold read_stream. step. destruct (broken stream); [done|].
  unfold cap_history, capped, set_history, add_call. step.
  rewrite <- !app_assoc. simpl.
  by destruct (20 <? _).
Qed.

(** A completed turn appends the question and the answer and keeps the
    last 20 entries. *)
Lemma chat_question_returned (b : Backend) (w : World) (message response : string)
    (s s' : State) :
  chat_question b w message s = (Returned response, s') ->
  chatHistory (bot s') =
    most_recent 20 (chatHistory (bot s) ++ [user_turn message; assistant_turn response]).
Proof.
  rewrite chat_question_unfold.
  pose proof (keeps_retrieve b w message 4 s) as Hkeep.
  destruct (retrieveRelevantDocuments b w message 4 s) as [[hits|e] s1]; [|done].
  simpl in Hkeep. cbv zeta.
  destruct (openai (bot s1)); [|done].
  destruct (w_complete w (MODEL b) _) as [stream|]; [|done].
  destruct (broken stream); [done|].
  intros [= <- <-]. simpl. by rewrite capped_most_recent, Hkeep.
Qed.

Lemma complete_turns_history (b : Backend) (turns : list (World * string)) :
  forall (s s' : State) (exchanged : list Msg),
    complete_turns b turns s = (Returned exchanged, s') ->
    turns <> [] \/ length (chatHistory (bot s)) <= 20 ->
    chatHistory (bot s') = most_recent 20 (chatHistory (bot s) ++ exchanged).
Proof.
  induction turns as [|[w message] rest IH]; intros s s' exchanged Hrun Hstart.
  - injection Hrun as <- <-. destruct Hstart as [?|Hle]; [done|].
    by rewrite app_nil_r, most_recent_all.
  - simpl in Hrun. unfold bind at 1 in Hrun.
    destruct (chat_question b w message s) as [[response|e] s1] eqn:Hturn; [|done].
    apply chat_question_returned in Hturn.
    unfold bind at 1 in Hrun.
    destruct (complete_turns b rest s1) as [[more|e] s2] eqn:Hrest; [|done].
    injection Hrun as <- <-.
    rewrite (IH _ _ _ Hrest), Hturn.
    + rewrite most_recent_app. by rewrite <- app_assoc.
    + right. rewrite Hturn, length_most_recent. lia.
Qed.

Lemma complete_turns_prefix (b : Backend) (first rest : list (World * string)) :
  forall (s s' : State) (exchanged : list Msg),
    complete_turns b (first ++ rest) s = (Returned exchanged, s') ->
    exists exchanged1 s1, complete_turns b first s = (Returned exchanged1, s1).
Proof.
  induction first as [|[w message] first IH]; intros s s' exchanged Hrun.
  - by eexists _, _.
  - simpl in *. unfold bind at 1 in Hrun. unfold bind at 1.
    destruct (chat_question b w message s) as [[response|e] s1]; [|done].
    unfold bind at 1 in Hrun. unfold bind at 1.
    destruct (complete_turns b (first ++ rest) s1) as [[more|e] s2] eqn:Hrest; [|done].
    destruct (IH _ _ _ Hrest) as (exchanged1 & s3 & ->). by eexists _, _.
Qed.

(** C1.  Whatever the history was, after any non-empty sequence of chat
    turns that complete, the history is the last 20 entries of the old history
    followed by the exchanged messages, in their order: it never holds more
    than 20 entries, and it holds exactly 20 as soon as that many exist (so
    25 entries leave the last 20).  The same holds after each turn on the
    way. *)
Theorem history_keeps_most_recent_20 (b : Backend) (turns : list (World * string))
    (s s' : State) (exchanged : list Msg) :
  turns <> [] ->
  complete_turns b turns s = (Returned exchanged, s') ->
  let all := chatHistory (bot s) ++ exchanged in
  chatHistory (bot s') = drop (length all - 20) all
  /\ length (chatHistory (bot s')) <= 20
  /\ (20 <= length all -> length (chatHistory (bot s')) = 20)
  /\ (length all = 25 -> chatHistory (bot s') = drop 5 all)
  /\ (forall n, 0 < n <= length turns ->
      exists so_far s_n,
        complete_turns b (take n turns) s = (Returned so_far, s_n)
        /\ chatHistory (bot s_n)
           = drop (length (chatHistory (bot s) ++ so_far) - 20) (chatHistory (bot s) ++ so_far)
        /\ length (chatHistory (bot s_n)) <= 20).
Proof.
  intros Hne Hrun all.
  assert (chatHistory (bot s') = most_recent 20 all) as Hwin.
  { apply (complete_turns_history b turns); auto. }
  split; [exact Hwin|].
  rewrite Hwin, length_most_recent.
  split; [lia|]. split; [lia|]. split.
  - intros H25. unfold most_recent. by rewrite H25.
  - intros n Hn.
    rewrite <- (take_drop n turns) in Hrun.
    destruct (complete_turns_prefix _ _ _ _ _ _ Hrun) as (so_far & s_n & Hprefix).
    exists so_far, s_n. split; [exact Hprefix|].
    assert (chatHistory (bot s_n) = most_recent 20 (chatHistory (bot s) ++ so_far)) as Hn_win.
    { apply (complete_turns_history b (take n turns)); [done|].
      left. intros Hnil. apply (f_equal length) in Hnil.
      rewrite length_take in Hnil. simpl in Hnil. lia. }
    split; [exact Hn_win|]. rewrite Hn_win, length_most_recent. lia.
Qed.

(** ** Commands leave the history alone *)

Lemma keeps_remote_count (k : StoreKind) (w : World) : keeps_history (remote_count k w).
Proof. unfold remote_count. destruct k; frame. Qed.

Lemma keeps_createEmpty (w : World) : keeps_history (createEmpty w).
Proof. unfold createEmpty. frame. Qed.

Lemma keeps_write_batch (k : StoreKind) (w : World) (first : nat) (vectors : list Row) :
  keeps_history (write_batch k w first vectors).
Proof. unfold write_batch. frame. Qed.

Lemma keeps_createTable (w : World) (data : list Row) : keeps_history (createTable w data).
Proof. unfold createTable. frame. Qed.

Lemma keeps_remote_delete (k : StoreKind) (w : World) : keeps_history (remote_delete k w).
Proof. unfold remote_delete. frame. Qed.

Lemma keeps_loadDocuments (k : StoreKind) (w : World) : keeps_history (loadDocuments (Remote k) w).
Proof. unfold loadDocuments, createExampleKnowledgeBase. frame. Qed.

Lemma keeps_embed_rows (embed : string -> M Embedding) (mk_id : nat -> string)
    (chunks : list Document) :
  (forall text, keeps_history (embed text)) ->
  forall i, keeps_history (embed_rows embed mk_id i chunks).
Proof.
  intros Hembed. induction chunks as [|chunk rest IH]; intros i; simpl; [frame|].
  apply keeps_bind; [apply Hembed|intros e].
  apply keeps_bind; [apply IH|intros rows]. frame.
Qed.

Lemma keeps_for_each {A : Type} (l : list A) (body : A -> M unit) :
  (forall x, keeps_history (body x)) -> keeps_history (for_each l body).
Proof.
  intros Hbody. induction l as [|x rest IH]; simpl; [frame|].
  apply keeps_bind; [apply Hbody | intros _; apply IH].
Qed.

#[local] Hint Resolve keeps_remote_count keeps_createEmpty keeps_write_batch
  keeps_createTable keeps_remote_delete keeps_loadDocuments : frame.

Lemma keeps_createVectorStore (k : StoreKind) (w : World) (chunks : list Document) :
  keeps_history (createVectorStore k w chunks).
Proof.
  unfold createVectorStore.
  destruct (length chunks =? 0); [frame|].
  assert (forall kk i l, keeps_history (embed_rows (getEmbedding w) (chunk_id kk) i l)) as Hrows.
  { intros kk i l. apply keeps_embed_rows. intros text. frame. }
  destruct k.
  - apply keeps_bind; [|intros _; frame].
    apply keeps_for_each. intros i. unfold store_batch.
    apply keeps_bind; [apply Hrows|intros vs]. frame.
  - apply keeps_bind; [|intros _; frame].
    apply keeps_for_each. intros i. unfold store_batch.
    apply keeps_bind; [apply Hrows|intros vs]. frame.
  - apply keeps_bind; [apply Hrows|intros data]. frame.
Qed.

Lemma keeps_createKnowledgeBase (k : StoreKind) (w : World) :
  keeps_history (createKnowledgeBase k w).
Proof.
  unfold createKnowledgeBase.
  apply keeps_bind; [frame|intros documents]. apply keeps_createVectorStore.
Qed.

#[local] Hint Resolve keeps_createKnowledgeBase : frame.

Lemma keeps_rebuildKnowledgeBase (k : StoreKind) (w : World) :
  keeps_history (rebuildKnowledgeBase k w).
Proof. unfold rebuildKnowledgeBase. destruct k; frame. Qed.

Lemma keeps_getStatus (k : StoreKind) (w : World) : keeps_history (getStatus k w).
Proof.
  unfold getStatus. apply keeps_bind; [frame|intros c].
  destruct k; [| |frame]; (apply keeps_bind; [|intros info; frame]);
    destruct (handle c); frame.
Qed.

(** C10.  In the three scripts that have them, the status and the rebuild
    command, in any letter case and whether or not the rebuild succeeds, leave
    the conversation history as it was; so does a line that closes the prompt
    and an empty line.  A line that changes the history is therefore a
    question. *)
Theorem commands_keep_history (k : StoreKind) (w : World) (s : State) :
  (forall message,
     same_ignoring_case message "status" \/ same_ignoring_case message "rebuild" ->
     chatHistory (bot (chat (Remote k) w message s).2) = chatHistory (bot s))
  /\ (forall line,
        chatHistory (bot (askQuestion (Remote k) [(w, line)] s).2) <> chatHistory (bot s) ->
        JS.trim line <> ""
        /\ ~ same_ignoring_case (JS.trim line) "exit"
        /\ ~ same_ignoring_case (JS.trim line) "quit"
        /\ ~ same_ignoring_case (JS.trim line) "status"
        /\ ~ same_ignoring_case (JS.trim line) "rebuild").
Proof.
  assert (forall message,
     same_ignoring_case message "status" \/ same_ignoring_case message "rebuild" ->
     chatHistory (bot (chat (Remote k) w message s).2) = chatHistory (bot s)) as Hcmd.
  { intros message Hm.
    assert (keeps_history (chat (Remote k) w message)) as Hkeep; [|apply Hkeep].
    unfold chat. apply keeps_try_catch; [|intros e; frame].
    destruct Hm as [Hm|Hm]; apply same_ignoring_case_lower in Hm;
      simpl in Hm; rewrite Hm; simpl.
    - apply keeps_getStatus.
    - apply keeps_bind; [apply keeps_rebuildKnowledgeBase|intros _; frame]. }
  split; [exact Hcmd|].
  intros line Hchanged.
  set (message := JS.trim line) in *.
  assert (forall word, JS.toLowerCase word = word ->
            same_ignoring_case message word -> JS.toLowerCase message = word) as Hlow.
  { intros word Hw Hsame. apply same_ignoring_case_lower in Hsame. congruence. }
  simpl in Hchanged. fold message in Hchanged.
  repeat split.
  - intros Hempty. rewrite Hempty in Hchanged. by apply Hchanged.
  - intros Hsame. apply (Hlow "exit") in Hsame; [|done].
    rewrite Hsame in Hchanged. by apply Hchanged.
  - intros Hsame. apply (Hlow "quit") in Hsame; [|done].
    rewrite Hsame in Hchanged. by apply Hchanged.
  - intros Hsame. apply Hchanged.
    pose proof (Hcmd message (or_introl Hsame)) as Hkeep.
    apply (Hlow "status") in Hsame; [|done].
    destruct (_ || _); [done|]. destruct (String.eqb message ""); [done|].
    unfold bind. destruct (chat (Remote k) w message s) as [[r|e] s1]; exact Hkeep.
  - intros Hsame. apply Hchanged.
    pose proof (Hcmd message (or_intror Hsame)) as Hkeep.
    destruct (_ || _); [done|]. destruct (String.eqb message ""); [done|].
    unfold bind. destruct (chat (Remote k) w message s) as [[r|e] s1]; exact Hkeep.
Qed.

(** ** Retrieval, case by case *)

Lemma retrieve_remote_unfold (k : StoreKind) (w : World) (query : string) (limit : nat)
    (s : State) :
  retrieveRelevantDocuments (Remote k) w query limit s =
    if negb (handle (bot s)) then (Returned [], s)
    else
      match openai (bot s) with
      | None => (Returned [], s)
      | Some _ =>
          match w_embed w query with
          | None => (Returned [], add_call (CallEmbed query) s)
          | Some v =>
              let s2 := add_call (CallSearch limit) (add_call (CallEmbed query) s) in
              match store s with
              | None => (Returned [], s2)
              | Some rows =>
                  match w_search w rows v limit with
                  | Some hits => (Returned hits, s2)
                  | None => (Returned [], s2)
                  end
              end
          end
      end.
Proof.
  unfold retrieveRelevantDocuments. step.
  destruct s as [[cl hd okey h ini cnt] st cs]; simpl.
  destruct hd; [|done]. simpl.
  unfold getEmbedding, store_query, add_call. step.
  destruct okey as [key|]; [|done]. step.
  destruct (w_embed w query) as [v|]; [|done]. step.
  destruct st as [rows|]; [|done].
  by destruct (w_search w rows v limit).
Qed.

Lemma retrieve_memory_unfold (w : World) (query : string) (limit : nat) (s : State) :
  retrieveRelevantDocuments InMemory w query limit s =
    if handle (bot s) then
      match w_embed w query with
      | None => (Thrown "embedding request failed", add_call (CallEmbed query) s)
      | Some v =>
          let s2 := add_call (CallSearch limit) (add_call (CallEmbed query) s) in
          match store s with
          | None => (Thrown "store not found", s2)
          | Some rows =>
              match w_search w rows v limit with
              | Some hits => (Returned hits, s2)
              | None => (Thrown "query failed", s2)
              end
          end
      end
    else (Thrown "Cannot read properties of null (reading 'asRetriever')", s).
Proof.
  unfold retrieveRelevantDocuments. step.
  destruct s as [[cl hd okey h ini cnt] st cs]; simpl.
  destruct hd; [|done].
  unfold embedQuery, store_query, add_call. step.
  destruct (w_embed w query) as [v|]; [|done]. step.
  destruct st as [rows|]; [|done].
  by destruct (w_search w rows v limit).
Qed.

(** Retrieval touches nothing but the call log, and never asks for a
    completion. *)
Lemma retrieve_frame (b : Backend) (w : World) (query : string) (limit : nat) (s : State) :
  let s1 := (retrieveRelevantDocuments b w query limit s).2 in
  bot s1 = bot s /\ store s1 = store s /\ completions s1 = completions s.
Proof.
  destruct b as [|k]; [rewrite retrieve_memory_unfold | rewrite retrieve_remote_unfold];
    unfold completions, add_call; simpl;
    repeat (match goal with |- context [match ?x with _ => _ end] => destruct x end; simpl);
    rewrite ?List.filter_app, ?app_nil_r; auto.
Qed.

Lemma sky_world_within_limit : answers_within_limit Sample.sky_world.
Proof.
  intros rows v limit hits [= <-]. split.
  - rewrite length_take. lia.
  - intros hit Hin. apply list_elem_of_In. apply list_elem_of_In in Hin.
    revert Hin. apply subseteq_take.
Qed.





(** [src/index.js] has neither the guard nor the [try]: without a store its
    retrieval throws, and so it does when the embedding request fails. *)
Lemma memory_retrieval_throws (w : World) (query : string) (limit : nat) (s : State) :
  handle (bot s) = false \/ w_embed w query = None ->
  exists e s', retrieveRelevantDocuments InMemory w query limit s = (Thrown e, s').
Proof.
  intros Hcase. rewrite retrieve_memory_unfold.
  destruct (handle (bot s)); [|by eexists _, _].
  destruct Hcase as [?| ->]; [done|]. by eexists _, _.
Qed.

(** ** Turns that abort *)

Lemma chat_asks (b : Backend) (w : World) (message : string) :
  asks b message = true ->
  chat b w message = try_catch (chat_question b w message) (fun _ => ret apology).
Proof.
  destruct b as [|k]; [done|]. unfold asks, chat. intros Hq.
  apply andb_true_iff in Hq as [Hr Hs].
  apply negb_true_iff in Hr, Hs. by rewrite Hr, Hs.
Qed.

Lemma askQuestion_reaches_chat (b : Backend) (w : World) (line : string)
    (rest : list (World * string)) :
  reaches_chat line = true ->
  askQuestion b ((w, line) :: rest) = (chat b w (JS.trim line);; askQuestion b rest).
Proof.
  unfold reaches_chat. intros Hr. apply andb_true_iff in Hr as [Hx He].
  apply negb_true_iff in Hx, He. simpl. by rewrite Hx, He.
Qed.

(** A turn that throws once retrieval has returned has pushed the question
    and nothing else. *)
Lemma chat_question_thrown (b : Backend) (w : World) (message e : string)
    (s s1 s' : State) (hits : list Row) :
  retrieveRelevantDocuments b w message 4 s = (Returned hits, s1) ->
  chat_question b w message s = (Thrown e, s') ->
  chatHistory (bot s') = chatHistory (bot s) ++ [user_turn message].
Proof.
  intros Hret. rewrite chat_question_unfold, Hret. cbv zeta.
  destruct (retrieve_frame b w message 4 s) as (Hbot & _). rewrite Hret in Hbot.
  simpl in Hbot. rewrite Hbot.
  destruct (openai (bot s)); [|by intros [= _ <-]].
  destruct (w_complete w (MODEL b) _) as [stream|]; [|by intros [= _ <-]].
  destruct (broken stream); [by intros [= _ <-]|done].
Qed.

(** C9.  When a turn throws after retrieval has returned, [chat] answers with
    the apology and the history is the old one followed by the question alone:
    no assistant entry, no apology, no cut to 20.  A history of 20 or more
    entries is thus left with more than 20; the Pinecone script run on ten
    answered questions and one aborted one ends with 21 entries. *)
Theorem aborted_turn_leaves_question (b : Backend) (w : World) (message e : string)
    (s s1 s' : State) (hits : list Row) :
  asks b message = true ->
  retrieveRelevantDocuments b w message 4 s = (Returned hits, s1) ->
  chat_question b w message s = (Thrown e, s') ->
  chat b w message s = (Returned apology, s')
  /\ chatHistory (bot s') = chatHistory (bot s) ++ [user_turn message]
  /\ (20 <= length (chatHistory (bot s)) -> 20 < length (chatHistory (bot s')))
  /\ (exists final,
        main (Remote Pinecone) Sample.full_env Sample.sky_world Sample.eleven_lines (boot None)
          = (Prompting, final)
        /\ length (chatHistory (bot final)) = 21).
Proof.
  intros Hasks Hret Hthrown.
  pose proof (chat_question_thrown _ _ _ _ _ _ _ _ Hret Hthrown) as Hhist.
  repeat split.
  - rewrite chat_asks by done. unfold try_catch. by rewrite Hthrown.
  - exact Hhist.
  - rewrite Hhist, length_app. simpl. lia.
  - eexists. split; [vm_compute; reflexivity|]. reflexivity.
Qed.

Lemma aborted_turn_leaves_question_witness :
  let s := Sample.ready [] in
  let out := chat (Remote Chroma) Sample.no_completion Sample.question s in
  out.1 = Returned apology
  /\ chatHistory (bot out.2) = [user_turn Sample.question].
Proof.
  intros s out.
  destruct (aborted_turn_leaves_question (Remote Chroma) Sample.no_completion Sample.question
              "completion request failed" s
              (retrieveRelevantDocuments (Remote Chroma) Sample.no_completion Sample.question 4 s).2
              (chat_question (Remote Chroma) Sample.no_completion Sample.question s).2
              [Sample.sky_row])
    as (Hchat & Hhist & _).
  - reflexivity.
  - vm_compute. reflexivity.
  - vm_compute. reflexivity.
  - split.
    + unfold out. by rewrite Hchat.
    + unfold out. rewrite Hchat. exact Hhist.
Defined.

(** The call log of a turn that gets to the completion request. *)
Lemma chat_question_completions (b : Backend) (w : World) (message key : string)
    (s s1 : State) (hits : list Row) :
  retrieveRelevantDocuments b w message 4 s = (Returned hits, s1) ->
  openai (bot s) = Some key ->
  completions (chat_question b w message s).2 = S (completions s)
  /\ In (CallComplete (MODEL b) (messages_for b (chatHistory (bot s)) hits message))
        (calls (chat_question b w message s).2).
Proof.
  intros Hret Hkey. rewrite chat_question_unfold, Hret. cbv zeta.
  destruct (retrieve_frame b w message 4 s) as (Hbot & _ & Hcount).
  rewrite Hret in Hbot, Hcount. simpl in Hbot, Hcount. rewrite Hbot, Hkey.
  destruct (w_complete w (MODEL b) _) as [stream|]; [destruct (broken stream)|];
    simpl; (split; [|apply in_or_app; right; by left]);
    unfold completions in *; simpl; rewrite List.filter_app, length_app; simpl; lia.
Qed.

(** C7, as the code has it.  In a question turn of any of the four scripts:
    when the completion request fails (the call throws or the stream breaks),
    [chat] catches the error and returns the apology, exactly one completion
    request has been made, and the prompt goes on to the next line.  When the
    embedding request of the retrieval fails, the three scripts with a store
    service catch it inside the retrieval, which returns no documents after
    that one request, and the turn goes on to the completion request with an
    empty context; only [src/index.js] answers it with the apology. *)
Theorem failed_call_is_contained (b : Backend) (w : World) (message key : string) (s : State) :
  asks b message = true ->
  openai (bot s) = Some key ->
  (forall hits s1,
     retrieveRelevantDocuments b w message 4 s = (Returned hits, s1) ->
     completion_fails w (MODEL b) (messages_for b (chatHistory (bot s)) hits message) ->
     exists s',
       chat b w message s = (Returned apology, s')
       /\ completions s' = S (completions s)
       /\ forall line rest,
            JS.trim line = message -> reaches_chat line = true ->
            askQuestion b ((w, line) :: rest) s = askQuestion b rest s')
  /\ (forall k,
        b = Remote k -> handle (bot s) = true -> w_embed w message = None ->
        retrieveRelevantDocuments b w message 4 s
          = (Returned [], add_call (CallEmbed message) s)
        /\ In (CallComplete (MODEL b) (messages_for b (chatHistory (bot s)) [] message))
              (calls (chat b w message s).2)
        /\ embeddings (chat b w message s).2 = S (embeddings s))
  /\ (b = InMemory -> handle (bot s) = true -> w_embed w message = None ->
      chat b w message s = (Returned apology, add_call (CallEmbed message) s)).
Proof.
  intros Hasks Hkey. split; [|split].
  - intros hits s1 Hret Hfail.
    destruct (chat_question_completions b w message key s s1 hits Hret Hkey) as [Hcount _].
    assert (exists e s', chat_question b w message s = (Thrown e, s')) as (e & s' & Hthrown).
    { rewrite chat_question_unfold, Hret. cbv zeta.
      destruct (retrieve_frame b w message 4 s) as (Hbot & _).
      rewrite Hret in Hbot. simpl in Hbot. rewrite Hbot, Hkey.
      unfold completion_fails in Hfail.
      destruct (w_complete w (MODEL b) _) as [stream|]; [|by eexists _, _].
      rewrite Hfail. by eexists _, _. }
    rewrite Hthrown in Hcount. simpl in Hcount.
    assert (chat b w message s = (Returned apology, s')) as Hchat.
    { rewrite chat_asks by done. unfold try_catch. by rewrite Hthrown. }
    exists s'. repeat split; [done..|].
    intros line rest Hline Hreach.
    rewrite askQuestion_reaches_chat by done. rewrite Hline.
    unfold bind. by rewrite Hchat.
  - intros k -> Hhandle Hembed.
    assert (retrieveRelevantDocuments (Remote k) w message 4 s
              = (Returned [], add_call (CallEmbed message) s)) as Hret.
    { by rewrite retrieve_remote_unfold, Hhandle, Hkey, Hembed. }
    split; [exact Hret|].
    destruct (chat_question_completions (Remote k) w message key s _ [] Hret Hkey)
      as [_ Hin].
    assert ((chat (Remote k) w message s).2 = (chat_question (Remote k) w message s).2
            /\ embeddings (chat_question (Remote k) w message s).2 = S (embeddings s))
      as [Hsame Hemb].
    { rewrite chat_asks by done. unfold try_catch.
      rewrite chat_question_unfold, Hret. cbv zeta. simpl. rewrite Hkey.
      assert (embeddings (add_call (CallEmbed message) s) = S (embeddings s)) as Hone.
      { unfold embeddings, add_call. simpl. rewrite List.filter_app, length_app. simpl. lia. }
      destruct (w_complete w _ _) as [stream|]; [destruct (broken stream)|]; simpl;
        (split; [done|]); unfold embeddings in *; simpl in *;
        rewrite ?List.filter_app, ?length_app in *; simpl in *; lia. }
    rewrite Hsame. by split.
  - intros -> Hhandle Hembed.
    rewrite chat_asks by done. unfold try_catch.
    rewrite chat_question_unfold, retrieve_memory_unfold, Hhandle, Hembed. done.
Qed.

Lemma failed_call_is_contained_witness :
  asks (Remote Pinecone) Sample.question = true
  /\ openai (bot (Sample.ready [])) = Some "sk-test"
  /\ exists s',
       chat (Remote Pinecone) Sample.no_completion Sample.question (Sample.ready [])
         = (Returned apology, s')
       /\ completions s' = 1.
Proof.
  split; [reflexivity|]. split; [reflexivity|].
  destruct (failed_call_is_contained (Remote Pinecone) Sample.no_completion Sample.question
              "sk-test" (Sample.ready []) eq_refl eq_refl) as (Hcompletion & _).
  destruct (Hcompletion [Sample.sky_row]
              (retrieveRelevantDocuments (Remote Pinecone) Sample.no_completion
                 Sample.question 4 (Sample.ready [])).2)
    as (s' & Hchat & Hcount & _).
  - vm_compute. reflexivity.
  - vm_compute. exact I.
  - exists s'. by split.
Defined.

(** C7 as the spec words it fails: with Pinecone, a question whose embedding
    request fails is answered by the model, not by the apology. *)
Lemma embedding_failure_is_not_apologised :
  ~ (forall (b : Backend) (w : World) (message : string) (s : State),
       asks b message = true ->
       embedding_fails_in_turn b w message s ->
       (chat b w message s).1 = Returned apology).
Proof.
  intros Hclaim.
  specialize (Hclaim (Remote Pinecone) Sample.no_embedding Sample.question (Sample.ready [])
                eq_refl).
  assert (embedding_fails_in_turn (Remote Pinecone) Sample.no_embedding Sample.question
            (Sample.ready [])) as Hfails.
  { split; vm_compute; reflexivity. }
  apply Hclaim in Hfails. vm_compute in Hfails. discriminate Hfails.
Qed.

(** ** The assembled prompt *)

Lemma Contains_join (sep : string) (l : list string) (x : string) :
  In x l -> Contains (JS.join sep l) x.
Proof.
  induction l as [|y [|z rest] IH]; intros Hin.
  - destruct Hin.
  - destruct Hin as [->|[]]. apply Contains_refl.
  - change (JS.join sep (y :: z :: rest)) with (y +:+ sep +:+ JS.join sep (z :: rest)).
    destruct Hin as [->|Hin].
    + apply Contains_head.
    + apply Contains_app_r, Contains_app_r, IH, Hin.
Qed.

Lemma mapi_from_lookup {A B : Type} (f : A -> nat -> B) (l : list A) :
  forall (i j : nat) (x : A), l !! j = Some x -> In (f x (i + j)) (JS.mapi_from f i l).
Proof.
  induction l as [|y rest IH]; intros i j x Hj; [done|].
  destruct j as [|j]; simpl in *.
  - injection Hj as ->. left. f_equal. lia.
  - right. replace (i + S j) with (S i + j) by lia. by apply IH.
Qed.

(** Every retrieved document is in the prompt in its formatted form. *)
Lemma prompt_contains_document (b : Backend) (h : list Msg) (docs : list Row) (j : nat)
    (doc : Row) :
  docs !! j = Some doc ->
  Contains (systemPrompt h (formatContext b docs)) (formatDocument b doc j).
Proof.
  intros Hj. unfold systemPrompt, formatContext.
  do 6 apply Contains_app_r. apply Contains_app_l.
  apply Contains_join. apply (mapi_from_lookup (formatDocument b) docs 0 j doc Hj).
Qed.

Lemma prompt_contains_history_line (b : Backend) (h : list Msg) (context : string) (m : Msg) :
  In m h ->
  Contains (systemPrompt h context) (role_label (role m) +:+ ": " +:+ content m).
Proof.
  intros Hin. unfold systemPrompt, historyContext.
  destruct h as [|m0 h']; [destruct Hin|].
  change (0 <? length (m0 :: h')) with true. cbv iota.
  do 3 apply Contains_app_r. apply Contains_app_l.
  do 2 apply Contains_app_r. apply Contains_app_l.
  apply Contains_join. apply in_map_iff. by exists m.
Qed.

(** C6, as the code has it.  The messages of a turn are the system prompt
    and the literal question.  The system prompt holds every retrieved
    document in its formatted form, text included: numbered, labelled with its
    category and, in the three scripts with a store service, with its source;
    [src/index.js] labels it with the category only.  When the history is not
    empty the prompt has the prior turns, one labelled line each, before the
    documents.  The prompt tells the model to say so when the context lacks
    the information.  These are the messages the completion request of the
    turn is made with. *)
Theorem prompt_is_grounded (b : Backend) (h : list Msg) (docs : list Row) (message : string) :
  let prompt := systemPrompt h (formatContext b docs) in
  messages_for b h docs message
    = [ {| role := system; content := prompt |}; {| role := user; content := message |} ]
  /\ (forall j doc,
        docs !! j = Some doc ->
        Contains prompt (formatDocument b doc j)
        /\ Contains prompt (row_text doc)
        /\ formatDocument b doc j =
             match b with
             | Remote _ =>
                 "Document " +:+ pretty (j + 1) +:+ " (" +:+ row_doc_type doc
                   +:+ ") - Source: " +:+ row_source doc +:+ ":" +:+ LF +:+ row_text doc
             | InMemory =>
                 "Document " +:+ pretty (j + 1) +:+ " (" +:+ row_doc_type doc +:+ "):"
                   +:+ LF +:+ row_text doc
             end)
  /\ (h <> [] ->
      (exists rest,
         prompt = instructions +:+ LF +:+ LF +:+ "Previous conversation:" +:+ LF
                    +:+ formatChatHistory h +:+ LF +:+ LF +:+ "Context Documents:" +:+ rest)
      /\ forall m, In m h -> Contains prompt (role_label (role m) +:+ ": " +:+ content m))
  /\ Contains prompt "If the information isn't available in the context, say so clearly."
  /\ (forall w s s1 key,
        retrieveRelevantDocuments b w message 4 s = (Returned docs, s1) ->
        openai (bot s) = Some key ->
        h = chatHistory (bot s) ->
        In (CallComplete (MODEL b) (messages_for b h docs message))
           (calls (chat_question b w message s).2)).
Proof.
  intros prompt. split; [reflexivity|]. split; [|split; [|split]].
  - intros j doc Hj.
    assert (Contains prompt (formatDocument b doc j)) as Hdoc
      by (apply prompt_contains_document, Hj).
    split; [exact Hdoc|]. split; [|by destruct b].
    apply (Contains_trans _ _ _ Hdoc).
    destruct b; unfold formatDocument.
    + do 6 apply Contains_app_r. apply Contains_refl.
    + do 8 apply Contains_app_r. apply Contains_refl.
  - intros Hne. split.
    + unfold prompt, systemPrompt, historyContext.
      destruct h as [|m0 h']; [done|].
      change (0 <? length (m0 :: h')) with true. cbv iota.
      eexists. rewrite !str_app_assoc. reflexivity.
    + intros m Hin. by apply prompt_contains_history_line.
  - unfold prompt, systemPrompt. apply Contains_app_l.
    apply includes_spec. vm_compute. reflexivity.
  - intros w s s1 key Hret Hkey ->.
    by destruct (chat_question_completions b w message key s s1 docs Hret Hkey).
Qed.

Lemma prompt_is_grounded_witness :
  Contains (systemPrompt [] (formatContext (Remote Chroma) [Sample.sky_row]))
    "Document 1 (facts) - Source: facts/sky.md:
The sky is blue.".
Proof.
  destruct (prompt_is_grounded (Remote Chroma) [] [Sample.sky_row] Sample.question)
    as (_ & Hdocs & _).
  destruct (Hdocs 0 Sample.sky_row) as (Hdoc & _).
  - reflexivity.
  - exact Hdoc.
Defined.

(** C6 as the spec words it fails: the prompt of [src/index.js] does not
    have the source of a retrieved document. *)
Lemma memory_prompt_has_no_source : ~ labels_category_and_source InMemory.
Proof.
  intros Hclaim.
  destruct (Hclaim [] [Sample.sky_row] 0 Sample.sky_row eq_refl)
    as (piece & Hpiece & _ & _ & Hsource).
  pose proof (Contains_trans _ _ _ Hpiece Hsource) as Hin.
  apply includes_spec in Hin. vm_compute in Hin. discriminate Hin.
Qed.

(** ** The lines of the prompt *)

Ltac find_piece :=
  solve [repeat first [apply Contains_refl | apply Contains_head | apply Contains_app_r]].

Ltac through_to H :=
  solve [repeat first [exact H | apply Contains_app_r]].

Lemma status_tail_contents (b : Backend) (c : Chatbot) :
  Contains (status_tail b c)
    ("- Chat History: " +:+ pretty (length (chatHistory c)) +:+ " messages")
  /\ Contains (status_tail b c) ("- Model: " +:+ MODEL b).
Proof.
  unfold status_tail. split; [|find_piece].
  exists "", (LF +:+ "- Model: " +:+ MODEL b). by rewrite !str_app_assoc.
Qed.

Lemma getStatus_report (k : StoreKind) (w : World) (s : State) :
  exists report,
    getStatus k w s = (Returned report, s) /\ is_status_report (Remote k) s report.
Proof.
  destruct (status_tail_contents (Remote k) (bot s)) as [Hhist Hmodel].
  unfold getStatus, remote_count, is_status_report. step.
  destruct k.
  - assert (exists info, forall (tail : string -> M string),
              (let* indexStats :=
                 (if handle (bot s)
                  then try_catch (let* n := remote_count Pinecone w in ret (pretty n +:+ " vectors"))
                                 (fun _ => ret "Error fetching stats")
                  else ret "Not available") in tail indexStats) s = tail info s)
      as [info Hinfo].
    { unfold remote_count. step. destruct (handle (bot s)); [|by eexists].
      destruct (w_remote_ok w OpCount); [|by eexists].
      destruct (store s); by eexists. }
    eexists. split.
    + unfold remote_count in Hinfo. revert Hinfo. step. intros Hinfo.
      rewrite Hinfo. reflexivity.
    + repeat split; first [find_piece | through_to Hhist].
  - assert (exists info, forall (tail : string -> M string),
              (let* collectionInfo :=
                 (if handle (bot s)
                  then try_catch (let* n := remote_count Chroma w in ret (pretty n +:+ " documents"))
                                 (fun _ => ret "Error fetching count")
                  else ret "Not available") in tail collectionInfo) s = tail info s)
      as [info Hinfo].
    { unfold remote_count. step. destruct (handle (bot s)); [|by eexists].
      destruct (w_remote_ok w OpCount); [|by eexists].
      destruct (store s); by eexists. }
    eexists. split.
    + unfold remote_count in Hinfo. revert Hinfo. step. intros Hinfo.
      rewrite Hinfo. reflexivity.
    + repeat split; first [find_piece | through_to Hhist].
  - eexists. split; [reflexivity|].
    repeat split; first [find_piece | through_to Hhist].
Qed.



(** ** Building and rebuilding the store *)

Lemma chunk_id_inj (k : StoreKind) : Inj (=) (=) (chunk_id k).
Proof.
  intros i j Hij. destruct k; simpl in Hij.
  - by apply (inj pretty), (inj (String.app "doc_")).
  - by apply (inj pretty), (inj (String.app "doc_")).
  - by apply (inj pretty).
Qed.

Lemma loadDocuments_pure (k : StoreKind) (w : World) (s : State) :
  (loadDocuments (Remote k) w s).2 = s.
Proof.
  unfold loadDocuments, createExampleKnowledgeBase.
  destruct (w_kb w) as [folders|]; [|by destruct (w_glob_ok w)].
  destruct (negb (w_glob_ok w)); [done|]. by destruct (length folders =? 0).
Qed.

Lemma loadDocuments_anywhere (k : StoreKind) (w : World) (s s1 t : State)
    (out : Outcome (list Document)) :
  loadDocuments (Remote k) w s = (out, s1) -> loadDocuments (Remote k) w t = (out, t).
Proof.
  unfold loadDocuments, createExampleKnowledgeBase.
  destruct (w_kb w) as [folders|]; [|by destruct (w_glob_ok w); intros [= <- _]].
  destruct (negb (w_glob_ok w)); [by intros [= <- _]|].
  by destruct (length folders =? 0); intros [= <- _].
Qed.

Lemma loadDocuments_same (k k0 : StoreKind) (w w0 : World) (s s0 s1 s2 : State)
    (d d0 : list Document) :
  w_kb w = w_kb w0 ->
  loadDocuments (Remote k) w s = (Returned d, s1) ->
  loadDocuments (Remote k0) w0 s0 = (Returned d0, s2) ->
  d = d0.
Proof.
  unfold loadDocuments, createExampleKnowledgeBase. intros <-.
  destruct (w_kb w) as [folders|].
  - destruct (negb (w_glob_ok w)); [done|]. destruct (negb (w_glob_ok w0)); [done|].
    destruct (length folders =? 0); unfold ret; congruence.
  - destruct (w_glob_ok w), (w_glob_ok w0); step; congruence.
Qed.

(** The rows that the embedding loop returns are numbered from [i] on, and
    the loop leaves the chatbot and the store alone. *)
Lemma embed_rows_returned (w : World) (mk_id : nat -> string) (chunks : list Document) :
  forall (i : nat) (s s' : State) (rows : list Row),
    embed_rows (getEmbedding w) mk_id i chunks s = (Returned rows, s') ->
    bot s' = bot s /\ store s' = store s
    /\ row_id <$> rows = mk_id <$> seq i (length chunks).
Proof.
  induction chunks as [|chunk rest IH]; intros i s s' rows Hrun.
  - by injection Hrun as <- <-.
  - simpl in Hrun. unfold bind at 1 in Hrun.
    destruct (getEmbedding w (pageContent chunk) s) as [[e|err] s1] eqn:Hembed; [|done].
    assert (bot s1 = bot s /\ store s1 = store s) as [Hb Hs].
    { revert Hembed. unfold getEmbedding. step.
      destruct (openai (bot s)); [|done]. step.
      destruct (w_embed w (pageContent chunk)); [|done]. by intros [= _ <-]. }
    unfold bind at 1 in Hrun.
    destruct (embed_rows (getEmbedding w) mk_id (S i) rest s1) as [[more|err] s2] eqn:Hrest;
      [|done].
    injection Hrun as <- <-.
    destruct (IH _ _ _ _ Hrest) as (Hb2 & Hs2 & Hids).
    repeat split; [congruence..|].
    change (seq i (length (chunk :: rest))) with (i :: seq (S i) (length rest)).
    by rewrite !fmap_cons, Hids.
Qed.

Lemma write_fresh (op : list Row -> Row -> list Row) (vectors : list Row) :
  (forall rows r,
     row_id r ∉ row_id <$> rows -> op rows r = rows ++ [r]) ->
  forall rows0,
    NoDup (row_id <$> (rows0 ++ vectors)) ->
    foldl op rows0 vectors = rows0 ++ vectors.
Proof.
  intros Hop. induction vectors as [|v rest IH]; intros rows0 Hnd; simpl.
  - by rewrite app_nil_r.
  - rewrite fmap_app, fmap_cons in Hnd.
    apply NoDup_app in Hnd as (Hnd0 & Hdisj & Hndv).
    rewrite Hop.
    + rewrite IH; [by rewrite <- app_assoc|].
      rewrite <- app_assoc. simpl. rewrite fmap_app, fmap_cons.
      apply NoDup_app. done.
    + intros Hin. apply (Hdisj _ Hin). by left.
Qed.

Lemma existsb_id_fresh (rows : list Row) (r : Row) :
  row_id r ∉ row_id <$> rows ->
  existsb (fun x => String.eqb (row_id x) (row_id r)) rows = false.
Proof.
  intros Hfresh. apply not_true_is_false. intros Hex.
  apply existsb_exists in Hex as (x & Hin & Heq).
  apply String.eqb_eq in Heq. apply Hfresh. rewrite <- Heq.
  apply list_elem_of_fmap. exists x. split; [done|]. by apply list_elem_of_In.
Qed.

Lemma upsert1_fresh (rows : list Row) (r : Row) :
  row_id r ∉ row_id <$> rows -> upsert1 rows r = rows ++ [r].
Proof. intros Hfresh. unfold upsert1. by rewrite existsb_id_fresh. Qed.

Lemma add1_fresh (rows : list Row) (r : Row) :
  row_id r ∉ row_id <$> rows -> add1 rows r = rows ++ [r].
Proof. intros Hfresh. unfold add1. by rewrite existsb_id_fresh. Qed.

Lemma write_batch_returned (k : StoreKind) (w : World) (i : nat) (vectors : list Row)
    (s s' : State) :
  write_batch k w i vectors s = (Returned tt, s') ->
  exists rows,
    store s = Some rows
    /\ store s' = Some (foldl (match k with Pinecone => upsert1 | _ => add1 end) rows vectors).
Proof.
  unfold write_batch. step. destruct (handle (bot s)); [|done]. step.
  destruct (w_remote_ok w (OpWrite i)); [|done]. step.
  destruct (store s) as [rows|]; [|done].
  intros [= <-]. by exists rows.
Qed.

Lemma ids_fresh_append (k : StoreKind) (rows vectors : list Row) (i len : nat) :
  row_id <$> rows = chunk_id k <$> seq 0 i ->
  row_id <$> vectors = chunk_id k <$> seq i len ->
  foldl (match k with Pinecone => upsert1 | _ => add1 end) rows vectors = rows ++ vectors
  /\ row_id <$> (rows ++ vectors) = chunk_id k <$> seq 0 (i + len).
Proof.
  intros Hrows Hvec.
  assert (row_id <$> (rows ++ vectors) = chunk_id k <$> seq 0 (i + len)) as Hall.
  { by rewrite fmap_app, Hrows, Hvec, <- fmap_app, <- seq_app. }
  split; [|exact Hall].
  apply write_fresh.
  - intros rs r. destruct k; auto using upsert1_fresh, add1_fresh.
  - rewrite Hall. apply NoDup_fmap_2; [apply chunk_id_inj | apply NoDup_seq].
Qed.

(** One round of the batch loop of the Pinecone and Chroma scripts: the
    store that held the first [min i n] chunks holds the first
    [min (i + 100) n] afterwards. *)
Lemma batch_round (k : StoreKind) (w : World) (chunks : list Document) (i : nat)
    (s s' : State) (rows : list Row) :
  store_batch k w chunks i s = (Returned tt, s') ->
  store s = Some rows ->
  row_id <$> rows = chunk_id k <$> seq 0 (Nat.min i (length chunks)) ->
  exists rows',
    store s' = Some rows'
    /\ row_id <$> rows' = chunk_id k <$> seq 0 (Nat.min (i + batchSize) (length chunks)).
Proof.
  unfold store_batch. cbv zeta. unfold bind at 1. intros Hrun Hstore Hids.
  set (batch := JS.slice_range chunks i (i + batchSize)) in *.
  assert (length batch = Nat.min batchSize (length chunks - i)) as Hlen.
  { unfold batch, JS.slice_range. rewrite length_take, length_drop. lia. }
  unfold batchSize in *.
  destruct (embed_rows (getEmbedding w) (chunk_id k) i batch s) as [[vectors|err] s1] eqn:Hemb;
    [|done].
  destruct (embed_rows_returned _ _ _ _ _ _ _ Hemb) as (_ & Hs1 & Hvec).
  assert (length vectors = length batch) as Hvlen.
  { apply (f_equal length) in Hvec. by rewrite !length_fmap, length_seq in Hvec. }
  assert (length chunks <= i -> vectors = []) as Hnone.
  { intros Hle. apply length_zero_iff_nil. lia. }
  assert (forall s2,
            write_batch k w i vectors s1 = (Returned tt, s2) ->
            exists rows',
              store s2 = Some rows'
              /\ row_id <$> rows' = chunk_id k <$> seq 0 (Nat.min (i + 100) (length chunks)))
    as Hwrite.
  { intros s2 Hw. apply write_batch_returned in Hw as (rows0 & Hst0 & Hst2).
    rewrite Hs1, Hstore in Hst0. injection Hst0 as <-.
    destruct (decide (length chunks <= i)) as [Hle|Hgt].
    - rewrite (Hnone Hle) in Hst2. simpl in Hst2. exists rows. split; [done|].
      rewrite Hids. f_equal. f_equal. lia.
    - replace (Nat.min i (length chunks)) with i in Hids by lia.
      destruct (ids_fresh_append k rows vectors i (length batch) Hids Hvec) as [Hfold Hall].
      exists (rows ++ vectors). split; [by rewrite Hst2, Hfold|].
      rewrite Hall. f_equal. f_equal. lia. }
  destruct k; [|by apply Hwrite|by apply Hwrite].
  destruct (0 <? length vectors) eqn:Hpos; [by apply Hwrite|].
  apply Nat.ltb_ge in Hpos. injection Hrun as <-.
  exists rows. split; [congruence|]. rewrite Hids. f_equal. f_equal. lia.
Qed.

Lemma batch_loop (k : StoreKind) (w : World) (chunks : list Document) (c : nat) :
  forall (a : nat) (s s' : State) (rows : list Row),
    for_each (map (fun j => j * batchSize) (seq a c)) (store_batch k w chunks) s
      = (Returned tt, s') ->
    store s = Some rows ->
    row_id <$> rows = chunk_id k <$> seq 0 (Nat.min (a * batchSize) (length chunks)) ->
    exists rows',
      store s' = Some rows'
      /\ row_id <$> rows'
         = chunk_id k <$> seq 0 (Nat.min ((a + c) * batchSize) (length chunks)).
Proof.
  induction c as [|c IH]; intros a s s' rows Hrun Hstore Hids.
  - injection Hrun as <-. exists rows. split; [done|].
    by replace (a + 0) with a by lia.
  - change (seq a (S c)) with (a :: seq (S a) c) in Hrun.
    rewrite map_cons in Hrun.
    change (for_each (?x :: ?l) ?body) with (body x;; for_each l body) in Hrun.
    unfold bind at 1 in Hrun.
    match type of Hrun with
    | (let (_, _) := ?m s in _) = _ => destruct (m s) as [[[]|err] s1] eqn:Hround; [|done]
    end.
    destruct (batch_round k w chunks (a * batchSize) s s1 rows Hround Hstore Hids)
      as (rows1 & Hstore1 & Hids1).
    replace (a * batchSize + batchSize) with (S a * batchSize) in Hids1 by lia.
    destruct (IH (S a) s1 s' rows1 Hrun Hstore1 Hids1) as (rows' & Hstore' & Hids').
    exists rows'. split; [done|].
    by replace (a + S c) with (S a + c) by lia.
Qed.

(** What a build that returns leaves in the store: nothing new for no
    chunks, and otherwise one record per chunk, on top of an empty index or
    collection, or in a newly made table. *)
Lemma createVectorStore_returned (k : StoreKind) (w : World) (chunks : list Document)
    (s s' : State) :
  createVectorStore k w chunks s = (Returned tt, s') ->
  (chunks = [] /\ s' = s)
  \/ (chunks <> []
      /\ match k with
         | LanceDB => store s = None /\ count s' = length chunks
         | _ => store s = Some [] -> count s' = length chunks
         end).
Proof.
  unfold createVectorStore.
  destruct chunks as [|chunk rest]; [intros [= <-]; by left|].
  set (chunks := chunk :: rest). change (length chunks =? 0) with false. cbv iota.
  intros Hrun. right. split; [done|].
  assert (forall m (s1 s2 : State) n,
            (m;; set_bot (with_documentCount n)) s1 = (Returned tt, s2) ->
            exists s3, m s1 = (Returned tt, s3) /\ store s2 = store s3) as Hlast.
  { intros m s1 s2 n. unfold bind, set_bot.
    destruct (m s1) as [[[]|err] s3]; [|done]. intros [= <-]. by exists s3. }
  destruct k.
  - intros Hempty. apply Hlast in Hrun as (s3 & Hloop & Hstore).
    destruct (batch_loop Pinecone w chunks _ 0 s s3 [] Hloop Hempty eq_refl)
      as (rows & Hrows & Hids).
    unfold count. rewrite Hstore, Hrows.
    apply (f_equal length) in Hids. rewrite !length_fmap, length_seq in Hids.
    rewrite Hids. unfold batchSize.
    pose proof (Nat.div_mod_eq (length chunks + 100 - 1) 100).
    pose proof (Nat.mod_upper_bound (length chunks + 100 - 1) 100). lia.
  - intros Hempty. apply Hlast in Hrun as (s3 & Hloop & Hstore).
    destruct (batch_loop Chroma w chunks _ 0 s s3 [] Hloop Hempty eq_refl)
      as (rows & Hrows & Hids).
    unfold count. rewrite Hstore, Hrows.
    apply (f_equal length) in Hids. rewrite !length_fmap, length_seq in Hids.
    rewrite Hids. unfold batchSize.
    pose proof (Nat.div_mod_eq (length chunks + 100 - 1) 100).
    pose proof (Nat.mod_upper_bound (length chunks + 100 - 1) 100). lia.
  - revert Hrun. unfold bind at 1.
    destruct (embed_rows (getEmbedding w) (chunk_id LanceDB) 0 chunks s)
      as [[data|err] s1] eqn:Hemb; [|done].
    destruct (embed_rows_returned _ _ _ _ _ _ _ Hemb) as (Hb1 & Hs1 & Hids).
    apply (f_equal length) in Hids. rewrite !length_fmap, length_seq in Hids.
    unfold createTable. step.
    destruct (client (bot s1)); [|done]. step.
    destruct (w_remote_ok w OpCreate); [|done]. step.
    rewrite Hs1. destruct (store s) as [old|]; [done|].
    intros [= <-]. split; [done|]. unfold count. simpl. exact Hids.
Qed.

Lemma createKnowledgeBase_count (k : StoreKind) (w : World) (s s' : State) :
  createKnowledgeBase k w s = (Returned tt, s') ->
  store s = empty_store k ->
  exists documents,
    loadDocuments (Remote k) w s = (Returned documents, s)
    /\ count s' = length (createTextChunks w documents).
Proof.
  unfold createKnowledgeBase, bind. intros Hrun Hempty.
  pose proof (loadDocuments_pure k w s) as Hpure.
  destruct (loadDocuments (Remote k) w s) as [[documents|err] s1]; [|done].
  simpl in Hpure. subst s1. exists documents. split; [done|].
  apply createVectorStore_returned in Hrun as [[-> ->]|[_ Hbuilt]].
  - unfold count. rewrite Hempty. by destruct k.
  - destruct k; simpl in Hempty; [by apply Hbuilt..|]. by destruct Hbuilt.
Qed.

(** A rebuild that returns has run the build on an empty store, provided
    the LanceDB script got its table dropped. *)
Lemma rebuild_returned (k : StoreKind) (w : World) (s s' : State) :
  rebuildKnowledgeBase k w s = (Returned tt, s') ->
  (k = LanceDB -> client (bot s) = true /\ w_remote_ok w OpDelete = true) ->
  exists s1, store s1 = empty_store k /\ createKnowledgeBase k w s1 = (Returned tt, s').
Proof.
  intros Hrun Hdrop. destruct k.
  - revert Hrun. unfold rebuildKnowledgeBase, remote_delete. step.
    destruct (handle (bot s)); [|done]. step.
    destruct (w_remote_ok w OpDelete); [|done]. step.
    destruct (store s); [|done]. intros Hrun. eexists. split; [|exact Hrun]. done.
  - revert Hrun. unfold rebuildKnowledgeBase, bind at 1.
    destruct (try_catch (remote_delete Chroma w) _ s) as [[[]|err] s0]; [|done].
    unfold createEmpty. step.
    destruct (client (bot s0)); [|done]. step.
    destruct (w_remote_ok w OpCreate); [|done]. step.
    destruct (store s0); [done|]. intros Hrun. eexists. split; [|exact Hrun]. done.
  - destruct (Hdrop eq_refl) as [Hc Hok].
    revert Hrun. unfold rebuildKnowledgeBase, remote_delete. step.
    rewrite Hc. step. rewrite Hok. step.
    destruct (store s) eqn:Hst; intros Hrun; (eexists; split; [|exact Hrun]); done.
Qed.

Ltac branch :=
  match goal with
  | |- context [if ?c then _ else _] => destruct c eqn:?
  end; step; try done.

Ltac built :=
  match goal with
  | |- (let (_, _) := createKnowledgeBase ?k ?w ?s1 in _) = _ -> _ =>
      let Hbuild := fresh "Hbuild" in
      destruct (createKnowledgeBase k w s1) as [[[]|?] ?s2] eqn:Hbuild; [|done];
      intros [= <-]; eexists s1, _; split; [|split; [exact Hbuild|]]; done
  end.

(** The first start against a service that holds nothing under the
    configured name runs the build on an empty store. *)
Lemma initialize_fresh (k : StoreKind) (env : Env) (w : World) (fresh : State) :
  initialize (Remote k) env w (boot None) = (Returned tt, fresh) ->
  exists s1 s2,
    store s1 = empty_store k
    /\ createKnowledgeBase k w s1 = (Returned tt, s2)
    /\ store fresh = store s2.
Proof.
  unfold initialize. destruct k.
  - unfold check_openai_key, new_OpenAI, connect, checkExists, createEmpty, remote_count. step.
    repeat branch; built.
  - unfold check_openai_key, new_OpenAI, connect, checkExists, createEmpty, remote_count. step.
    destruct (env !! "OPENAI_API_KEYY") as [key|]; [|done]. step.
    repeat branch; built.
  - unfold check_openai_key, new_OpenAI, connect, checkExists, createEmpty, remote_count. step.
    repeat branch; built.
Qed.

(** *** The build goes through when every service answers *)

Lemma embed_rows_succeeds (w : World) (mk_id : nat -> string) (chunks : list Document) :
  healthy w ->
  forall (i : nat) (s : State),
    is_Some (openai (bot s)) ->
    exists rows s', embed_rows (getEmbedding w) mk_id i chunks s = (Returned rows, s').
Proof.
  intros (_ & Hembed & _). induction chunks as [|chunk rest IH]; intros i s Hkey.
  - by eexists _, _.
  - simpl. unfold bind at 1.
    assert (exists v s1, getEmbedding w (pageContent chunk) s = (Returned v, s1)
                         /\ bot s1 = bot s) as (v & s1 & -> & Hbot).
    { unfold getEmbedding. step. destruct Hkey as [key ->]. step.
      destruct (Hembed (pageContent chunk)) as [v ->]. by eexists _, _. }
    unfold bind at 1.
    destruct (IH (S i) s1) as (rows & s2 & ->); [by rewrite Hbot|].
    by eexists _, _.
Qed.

Lemma write_batch_succeeds (k : StoreKind) (w : World) (i : nat) (vectors : list Row)
    (s : State) :
  healthy w -> handle (bot s) = true -> is_Some (store s) ->
  exists s',
    write_batch k w i vectors s = (Returned tt, s')
    /\ bot s' = bot s /\ is_Some (store s').
Proof.
  intros (Hok & _) Hhandle [rows Hrows]. unfold write_batch. step.
  rewrite Hhandle. step. rewrite Hok. step. rewrite Hrows.
  by eexists.
Qed.

Lemma batch_loop_succeeds (k : StoreKind) (w : World) (chunks : list Document)
    (starts : list nat) :
  healthy w ->
  forall s : State,
    handle (bot s) = true -> is_Some (openai (bot s)) -> is_Some (store s) ->
    exists s',
      for_each starts (store_batch k w chunks) s = (Returned tt, s')
      /\ bot s' = bot s.
Proof.
  intros Hw. induction starts as [|i rest IH]; intros s Hhandle Hkey Hstore.
  - by eexists.
  - change (for_each (?x :: ?l) ?body) with (body x;; for_each l body).
    unfold bind at 1. unfold store_batch at 1. cbv zeta. unfold bind at 1.
    destruct (embed_rows_succeeds w (chunk_id k) (JS.slice_range chunks i (i + batchSize))
                Hw i s Hkey) as (vectors & s1 & Hemb).
    rewrite Hemb.
    destruct (embed_rows_returned _ _ _ _ _ _ _ Hemb) as (Hb1 & Hs1 & _).
    assert (exists s2,
              match k with
              | Pinecone => if 0 <? length vectors then write_batch k w i vectors else ret tt
              | _ => write_batch k w i vectors
              end s1 = (Returned tt, s2)
              /\ bot s2 = bot s1 /\ is_Some (store s2)) as (s2 & -> & Hb2 & Hs2).
    { assert (handle (bot s1) = true) as Hh1 by (by rewrite Hb1).
      assert (is_Some (store s1)) as Hst1 by (by rewrite Hs1).
      destruct k; [destruct (0 <? length vectors)|..];
        first [by apply write_batch_succeeds | by eexists]. }
    destruct (IH s2) as (s' & -> & Hb'); [congruence..|done|].
    exists s'. split; [done|]. congruence.
Qed.

Lemma createVectorStore_succeeds (k : StoreKind) (w : World) (chunks : list Document)
    (s : State) :
  healthy w ->
  client (bot s) = true -> handle (bot s) = true -> is_Some (openai (bot s)) ->
  store s = empty_store k ->
  exists s', createVectorStore k w chunks s = (Returned tt, s').
Proof.
  intros Hw Hclient Hhandle Hkey Hstore. unfold createVectorStore.
  destruct (length chunks =? 0); [by eexists|].
  assert (is_Some (store s) \/ k = LanceDB) as Hsome.
  { rewrite Hstore. destruct k; simpl; eauto. }
  destruct k.
  - destruct Hsome as [Hsome|?]; [|done].
    destruct (batch_loop_succeeds Pinecone w chunks (batch_starts (length chunks)) Hw s
                Hhandle Hkey Hsome) as (s1 & Hloop & _).
    unfold bind at 1. rewrite Hloop. by eexists.
  - destruct Hsome as [Hsome|?]; [|done].
    destruct (batch_loop_succeeds Chroma w chunks (batch_starts (length chunks)) Hw s
                Hhandle Hkey Hsome) as (s1 & Hloop & _).
    unfold bind at 1. rewrite Hloop. by eexists.
  - destruct (embed_rows_succeeds w (chunk_id LanceDB) chunks Hw 0 s Hkey)
      as (data & s1 & Hemb).
    destruct (embed_rows_returned _ _ _ _ _ _ _ Hemb) as (Hb1 & Hs1 & _).
    unfold bind at 1. rewrite Hemb. unfold createTable. step.
    rewrite Hb1, Hclient. step. destruct Hw as (Hok & _). rewrite Hok. step.
    rewrite Hs1, Hstore. by eexists.
Qed.

Lemma createKnowledgeBase_succeeds (k : StoreKind) (w : World) (s : State) :
  healthy w ->
  client (bot s) = true -> handle (bot s) = true -> is_Some (openai (bot s)) ->
  store s = empty_store k ->
  exists s', createKnowledgeBase k w s = (Returned tt, s').
Proof.
  intros Hw Hclient Hhandle Hkey Hstore. unfold createKnowledgeBase, bind.
  assert (exists documents, loadDocuments (Remote k) w s = (Returned documents, s))
    as (documents & ->).
  { unfold loadDocuments, createExampleKnowledgeBase. destruct Hw as (_ & _ & ->).
    destruct (w_kb w) as [folders|]; [|by eexists]. simpl.
    destruct (length folders =? 0); by eexists. }
  by apply createVectorStore_succeeds.
Qed.

Lemma rebuild_succeeds (k : StoreKind) (w : World) (s : State) :
  healthy w -> started s ->
  exists s', rebuildKnowledgeBase k w s = (Returned tt, s').
Proof.
  intros Hw (Hclient & Hhandle & Hkey & [rows Hrows]).
  pose proof Hw as (Hok & _). destruct s as [c st cs]. simpl in *. subst st.
  destruct k; unfold rebuildKnowledgeBase, remote_delete, createEmpty; step;
    rewrite ?Hclient, ?Hhandle; step; rewrite !Hok; step;
    rewrite ?Hclient; step; rewrite ?Hok; step;
    by apply createKnowledgeBase_succeeds.
Qed.

(** C8.  On a chatbot that has started and whose store exists, whatever it
    holds, and with every service answering, the rebuild command (in any
    letter case) reports success and leaves one record per chunk of the
    documents in the store.  The first start of the script against a service
    that holds nothing under the configured name, with the same
    knowledge-base directory and the same splitter, leaves the same number of
    records. *)
Theorem rebuild_count_is_fresh_count (k : StoreKind) (env : Env) (w w0 : World)
    (message : string) (s fresh : State) :
  healthy w ->
  started s ->
  same_ignoring_case message "rebuild" ->
  w_kb w = w_kb w0 ->
  w_split w = w_split w0 ->
  initialize (Remote k) env w0 (boot None) = (Returned tt, fresh) ->
  exists s' documents,
    chat (Remote k) w message s = (Returned "Knowledge base rebuilt successfully!", s')
    /\ loadDocuments (Remote k) w s = (Returned documents, s)
    /\ count s' = length (createTextChunks w documents)
    /\ count s' = count fresh.
Proof.
  intros Hw Hstarted Hcmd Hkb Hsplit Hfresh.
  apply same_ignoring_case_lower in Hcmd. simpl in Hcmd.
  destruct (rebuild_succeeds k w s Hw Hstarted) as (s' & Hrebuild).
  assert (k = LanceDB -> client (bot s) = true /\ w_remote_ok w OpDelete = true) as Hdrop.
  { intros _. destruct Hstarted as (Hclient & _). destruct Hw as (Hok & _). by split. }
  destruct (rebuild_returned k w s s' Hrebuild Hdrop) as (s1 & Hs1 & Hbuild).
  destruct (createKnowledgeBase_count k w s1 s' Hbuild Hs1) as (d & Hload & Hcount).
  destruct (initialize_fresh k env w0 fresh Hfresh) as (t1 & t2 & Ht1 & Hbuild0 & Hstore).
  destruct (createKnowledgeBase_count k w0 t1 t2 Hbuild0 Ht1) as (d0 & Hload0 & Hcount0).
  pose proof (loadDocuments_same k k w w0 s1 t1 s1 t1 d d0 Hkb Hload Hload0) as <-.
  assert (createTextChunks w d = createTextChunks w0 d) as Hchunks.
  { unfold createTextChunks. by rewrite Hsplit. }
  exists s', d. split; [|split; [|split]].
  - unfold chat, try_catch, bind. rewrite Hcmd. simpl. by rewrite Hrebuild.
  - by apply (loadDocuments_anywhere k w s1 s1).
  - exact Hcount.
  - unfold count at 2. rewrite Hstore. fold (count t2). congruence.
Qed.

Lemma sky_world_healthy : healthy Sample.sky_world.
Proof. repeat split; intros; by eexists. Qed.

Lemma rebuild_count_is_fresh_count_witness :
  let fresh := (initialize (Remote Pinecone) Sample.full_env Sample.sky_world (boot None)).2 in
  count Sample.populated = 3
  /\ exists s',
       chat (Remote Pinecone) Sample.sky_world "Rebuild" Sample.populated
         = (Returned "Knowledge base rebuilt successfully!", s')
       /\ count s' = 1
       /\ count s' = count fresh.
Proof.
  intros fresh. split; [reflexivity|].
  destruct (rebuild_count_is_fresh_count Pinecone Sample.full_env Sample.sky_world
              Sample.sky_world "Rebuild" Sample.populated fresh)
    as (s' & documents & Hchat & _ & _ & Hcount).
  - exact sky_world_healthy.
  - repeat split; by eexists.
  - apply same_ignoring_case_lower. reflexivity.
  - reflexivity.
  - reflexivity.
  - vm_compute. reflexivity.
  - exists s'. split; [exact Hchat|]. split; [|exact Hcount].
    rewrite Hcount. vm_compute. reflexivity.
Defined.

Lemma history_keeps_most_recent_20_witness :
  let out := complete_turns (Remote Pinecone) Sample.twelve_turns Sample.interrupted in
  exists exchanged,
    out.1 = Returned exchanged
    /\ length (chatHistory (bot Sample.interrupted) ++ exchanged) = 25
    /\ chatHistory (bot out.2) = drop 5 (chatHistory (bot Sample.interrupted) ++ exchanged)
    /\ length (chatHistory (bot out.2)) = 20.
Proof.
  intros out.
  set (exchanged := match out.1 with Returned l => l | Thrown _ => [] end).
  destruct (history_keeps_most_recent_20 (Remote Pinecone) Sample.twelve_turns
              Sample.interrupted out.2 exchanged) as (_ & _ & Hfull & Hlast & _).
  - discriminate.
  - vm_compute. reflexivity.
  - exists exchanged. split; [vm_compute; reflexivity|].
    split; [vm_compute; reflexivity|].
    split; [apply Hlast; vm_compute; reflexivity|].
    apply Hfull. vm_compute. lia.
Defined.

Lemma commands_keep_history_witness :
  let s := Sample.ready [user_turn Sample.question; assistant_turn "Blue."] in
  chatHistory (bot (chat (Remote Chroma) Sample.sky_world "ReBuild" s).2) = chatHistory (bot s).
Proof.
  intros s.
  destruct (commands_keep_history Chroma Sample.sky_world s) as [Hcmd _].
  apply Hcmd. right. apply same_ignoring_case_lower. reflexivity.
Defined.

(** ** Credentials at start-up *)

(** The Pinecone key has the placeholder as its fallback, so that a missing
    key stops the start-up; the same holds for the key of the Chroma script
    and of [src/index.js], which have no fallback. *)
Lemma store_key_is_required (env : Env) (w : World) (inputs : list (World * string))
    (s : State) :
  JS.falsy (env !! "PINECONE_API_KEY") = true
  \/ env !! "PINECONE_API_KEY" = Some "your-pinecone-api-key" ->
  (main (Remote Pinecone) env w inputs s).1 = Exited 1.
Proof.
  intros Hkey.
  assert (PINECONE_API_KEY env = "your-pinecone-api-key") as Hplace.
  { unfold PINECONE_API_KEY, JS.or_default.
    destruct Hkey as [Hf| ->]; [|done].
    destruct (env !! "PINECONE_API_KEY") as [v|]; [|done]. simpl in Hf. by rewrite Hf. }
  unfold main, initialize, check_openai_key, new_OpenAI, connect. step.
  rewrite Hplace. simpl. by repeat branch.
Qed.

Lemma chroma_key_is_required (env : Env) (w : World) (inputs : list (World * string))
    (s : State) :
  JS.falsy (env !! "OPENAI_API_KEYY") = true
  \/ env !! "OPENAI_API_KEYY" = Some "your-openai-api-key" ->
  (main (Remote Chroma) env w inputs s).1 = Exited 1.
Proof.
  intros Hkey. unfold main, load_module, initialize, check_openai_key. step.
  destruct (JS.falsy (env !! "OPENAI_API_KEY")); step; [done|].
  destruct Hkey as [Hf| ->]; [by rewrite Hf|].
  by rewrite orb_true_r.
Qed.

Lemma memory_key_is_required (env : Env) (w : World) (inputs : list (World * string))
    (s : State) :
  env !! "OPENAI_API_KEY" = None ->
  (main InMemory env w inputs s).1 = Exited 1.
Proof. intros Hkey. unfold main, initialize, new_OpenAI. step. by rewrite Hkey. Qed.

(** The guard on the OpenAI key of the Pinecone and LanceDB scripts never
    fires for a missing key: the key written out in the source is used. *)
Lemma openai_guard_is_dead (k : StoreKind) (env : Env) (s : State) :
  k <> Chroma ->
  JS.falsy (env !! "OPENAI_API_KEY") = true ->
  OPENAI_API_KEY (Remote k) env = Some HARDCODED_OPENAI_KEY
  /\ check_openai_key k env s = (Returned tt, s).
Proof.
  intros Hk Hf.
  assert (JS.or_default (env !! "OPENAI_API_KEY") HARDCODED_OPENAI_KEY = HARDCODED_OPENAI_KEY)
    as Hkey.
  { unfold JS.or_default. destruct (env !! "OPENAI_API_KEY"); [|done].
    simpl in Hf. by rewrite Hf. }
  destruct k; [|done|]; unfold check_openai_key, OPENAI_API_KEY; by rewrite Hkey.
Qed.

(** C3 at the failing input.  With no [OPENAI_API_KEY] in the environment
    the Pinecone script (given its Pinecone key) and the LanceDB script (given
    nothing at all, so that its store key is the written-out one as well)
    start, build their OpenAI client with the key written out in the source,
    and run until the user leaves: exit code 0. *)
Theorem missing_openai_key_falls_back :
  Sample.pinecone_only !! "OPENAI_API_KEY" = None
  /\ LANCEDB_API_KEY ∅ = HARDCODED_LANCEDB_KEY
  /\ (exists s,
        main (Remote Pinecone) Sample.pinecone_only Sample.sky_world
          [(Sample.sky_world, "exit")] (boot None) = (Exited 0, s)
        /\ openai (bot s) = Some HARDCODED_OPENAI_KEY)
  /\ (exists s,
        main (Remote LanceDB) ∅ Sample.sky_world
          [(Sample.sky_world, "exit")] (boot None) = (Exited 0, s)
        /\ openai (bot s) = Some HARDCODED_OPENAI_KEY).
Proof.
  split; [reflexivity|]. split; [reflexivity|].
  split; (eexists; split; [vm_compute; reflexivity|reflexivity]).
Qed.

(** * Further properties of the scripts *)

(** ** The prompt and the process *)

Lemma bind_returned {A B : Type} (m : M A) (k : A -> M B) (s s' : State) (b : B) :
  bind m k s = (Returned b, s') ->
  exists a s1, m s = (Returned a, s1) /\ k a s1 = (Returned b, s').
Proof.
  unfold bind. destruct (m s) as [[a|e] s1]; [|done]. intros Hk. by exists a, s1.
Qed.

Lemma bind_thrown {A B : Type} (m : M A) (k : A -> M B) (s s' : State) (e : string) :
  bind m k s = (Thrown e, s') ->
  m s = (Thrown e, s') \/ exists a s1, m s = (Returned a, s1) /\ k a s1 = (Thrown e, s').
Proof.
  unfold bind. destruct (m s) as [[a|e0] s1]; [|intros [= <- <-]; by left].
  intros Hk. right. by exists a, s1.
Qed.

Lemma chat_returns (b : Backend) (w : World) (message : string) (s : State) :
  exists response s', chat b w message s = (Returned response, s').
Proof.
  unfold chat, try_catch.
  match goal with
  | |- context [let (_, _) := ?m s in _] => destruct (m s) as [[response|e] s1]
  end; by eexists _, _.
Qed.

Lemma askQuestion_step (b : Backend) (w : World) (line : string)
    (rest : list (World * string)) (s : State) :
  askQuestion b ((w, line) :: rest) s =
    if closes line then (Returned Closed, s)
    else if String.eqb (JS.trim line) "" then askQuestion b rest s
    else askQuestion b rest (chat b w (JS.trim line) s).2.
Proof.
  unfold closes. simpl.
  destruct (_ || _); [done|]. destruct (String.eqb (JS.trim line) ""); [done|].
  unfold bind. by destruct (chat_returns b w (JS.trim line) s) as (r & s1 & ->).
Qed.

Lemma askQuestion_returns (b : Backend) (inputs : list (World * string)) :
  forall s,
    exists p s',
      askQuestion b inputs s = (Returned p, s')
      /\ (p = Closed <-> existsb closes (map snd inputs) = true).
Proof.
  induction inputs as [|[w line] rest IH]; intros s.
  - exists Asking, s. split; [done|]. by split.
  - rewrite askQuestion_step. simpl.
    destruct (closes line) eqn:Hc.
    + exists Closed, s. by split.
    + simpl. destruct (String.eqb (JS.trim line) ""); apply IH.
Qed.

(** X1.  The prompt never crashes: whatever the lines and whatever the
    services do, [askQuestion] returns.  It ends closed exactly when one of the
    lines reads exit or quit once trimmed, and the lines after that one are
    never looked at. *)
Theorem prompt_never_crashes (b : Backend) (inputs : list (World * string)) (s : State) :
  (exists p s',
     askQuestion b inputs s = (Returned p, s')
     /\ (p = Closed <-> existsb closes (map snd inputs) = true))
  /\ (forall before w line after,
        inputs = before ++ (w, line) :: after ->
        closes line = true ->
        askQuestion b inputs s = askQuestion b (before ++ [(w, line)]) s).
Proof.
  split; [apply askQuestion_returns|].
  intros before w line after -> Hc. revert s.
  induction before as [|[w0 line0] before IH]; intros s.
  - simpl app. by rewrite !askQuestion_step, Hc.
  - simpl app. rewrite !askQuestion_step.
    destruct (closes line0); [done|].
    destruct (String.eqb (JS.trim line0) ""); apply IH.
Qed.

Lemma prompt_never_crashes_witness :
  askQuestion (Remote Chroma)
    [(Sample.no_completion, "hello"); (Sample.sky_world, " QUIT "); (Sample.sky_world, "status")]
    (Sample.ready [])
  = askQuestion (Remote Chroma)
      [(Sample.no_completion, "hello"); (Sample.sky_world, " QUIT ")] (Sample.ready []).
Proof.
  destruct (prompt_never_crashes (Remote Chroma)
              [(Sample.no_completion, "hello"); (Sample.sky_world, " QUIT ");
               (Sample.sky_world, "status")] (Sample.ready [])) as [_ Hcut].
  apply (Hcut [(Sample.no_completion, "hello")] Sample.sky_world " QUIT "
              [(Sample.sky_world, "status")]).
  - reflexivity.
  - reflexivity.
Defined.

Lemma initialize_marks (k : StoreKind) (env : Env) (w : World) (s s1 : State) :
  initialize (Remote k) env w s = (Returned tt, s1) -> isInitialized (bot s1) = true.
Proof.
  unfold initialize. intros Hrun.
  apply bind_returned in Hrun as (_ & s2 & _ & Hrun).
  apply bind_returned in Hrun as (_ & s3 & _ & Hrun).
  apply bind_returned in Hrun as (_ & s4 & _ & Hrun).
  apply bind_returned in Hrun as (found & s5 & _ & Hrun).
  apply bind_returned in Hrun as (_ & s6 & _ & Hrun).
  by injection Hrun as <-.
Qed.

Lemma load_module_cases (b : Backend) (env : Env) (s : State) :
  (b = Remote Chroma /\ JS.falsy (env !! "OPENAI_API_KEY") = true
   /\ load_module b env s = (Thrown "OpenAI API key is required", s))
  \/ (~ (b = Remote Chroma /\ JS.falsy (env !! "OPENAI_API_KEY") = true)
      /\ load_module b env s = (Returned tt, s)).
Proof.
  destruct b as [|[]]; simpl; try (right; split; [by intros [? _]|done]).
  destruct (JS.falsy (env !! "OPENAI_API_KEY")); [by left|].
  right. split; [by intros [_ ?]|done].
Qed.

Lemma main_after_load (b : Backend) (env : Env) (w : World) (inputs : list (World * string))
    (s : State) :
  load_module b env s = (Returned tt, s) ->
  main b env w inputs s
  = match initialize b env w s with
    | (Thrown _, s1) => (Exited 1, s1)
    | (Returned _, s1) =>
        if existsb closes (map snd inputs)
        then (Exited 0, (askQuestion b inputs s1).2)
        else (Prompting, (askQuestion b inputs s1).2)
    end.
Proof.
  intros Hload. unfold main. unfold bind at 1. rewrite Hload. unfold bind.
  destruct (initialize b env w s) as [[[]|e] s1] eqn:Hinit; [|done].
  assert (startTerminalInterface b inputs s1 = askQuestion b inputs s1) as ->.
  { unfold startTerminalInterface. step. destruct b as [|k]; [done|].
    by rewrite (initialize_marks k env w s s1 Hinit). }
  destruct (askQuestion_returns b inputs s1) as (p & s' & Hask & Hp).
  rewrite Hask. simpl.
  destruct (existsb closes (map snd inputs)).
  - by rewrite (proj2 Hp eq_refl).
  - destruct p; [|done]. discriminate (proj1 Hp eq_refl).
Qed.



(** ** What a completed turn leaves behind *)

Lemma join_empty_cons (x : string) (l : list string) :
  JS.join "" (x :: l) = x +:+ JS.join "" l.
Proof. destruct l as [|y l]; [symmetry; apply str_app_nil_r|done]. Qed.

Lemma foldl_add_delta (ds : list (option string)) :
  forall acc, foldl add_delta acc ds = acc +:+ JS.join "" (map (default "") ds).
Proof.
  induction ds as [|d ds IH]; intros acc.
  - symmetry. apply str_app_nil_r.
  - change (foldl add_delta acc (d :: ds)) with (foldl add_delta (add_delta acc d) ds).
    rewrite IH, map_cons, join_empty_cons. unfold add_delta.
    destruct (String.eqb_spec (default "" d) "") as [->|_]; [done|].
    by rewrite str_app_assoc.
Qed.

Lemma most_recent_snoc2 {A : Type} (h : list A) (x y : A) :
  most_recent 20 (h ++ [x; y]) = most_recent 18 h ++ [x; y].
Proof.
  unfold most_recent. rewrite length_app. simpl.
  rewrite drop_app_le by lia. f_equal. f_equal. lia.
Qed.

(** X3.  A turn that completes returns the whole streamed text: the texts
    of the chunks in their order, a chunk without content adding nothing.
    The history is then at most 18 of its old entries followed by the
    question and that answer. *)
Theorem completed_turn_records_exchange (b : Backend) (w : World) (message response : string)
    (s s' : State) :
  chat_question b w message s = (Returned response, s') ->
  (exists hits stream,
     w_complete w (MODEL b) (messages_for b (chatHistory (bot s)) hits message) = Some stream
     /\ broken stream = false
     /\ response = stream_text stream)
  /\ chatHistory (bot s')
     = drop (length (chatHistory (bot s)) - 18) (chatHistory (bot s))
         ++ [user_turn message; assistant_turn response].
Proof.
  intros Hrun. split.
  - revert Hrun. rewrite chat_question_unfold.
    destruct (retrieve_frame b w message 4 s) as (Hbot & _).
    destruct (retrieveRelevantDocuments b w message 4 s) as [[hits|e] s1]; [|done].
    simpl in Hbot. cbv zeta. rewrite Hbot.
    destruct (openai (bot s)); [|done].
    destruct (w_complete w (MODEL b) _) as [stream|] eqn:Hstream; [|done].
    destruct (broken stream) eqn:Hbroken; [done|].
    intros [= <- _]. exists hits, stream. repeat split; [done..|].
    by rewrite foldl_add_delta.
  - rewrite (chat_question_returned _ _ _ _ _ _ Hrun). apply most_recent_snoc2.
Qed.

Lemma completed_turn_records_exchange_witness :
  chatHistory (bot (chat_question InMemory Sample.sky_world Sample.question (Sample.ready [])).2)
  = [user_turn Sample.question; assistant_turn "Blue."].
Proof.
  destruct (completed_turn_records_exchange InMemory Sample.sky_world Sample.question "Blue."
              (Sample.ready [])
              (chat_question InMemory Sample.sky_world Sample.question (Sample.ready [])).2)
    as [_ Hhist].
  - vm_compute. reflexivity.
  - exact Hhist.
Defined.

Lemma completed_turn_ends_history (b : Backend) (w : World)
    (message response : string) (s s' : State) :
  chat_question b w message s = (Returned response, s') ->
  exists older,
    chatHistory (bot s') = older ++ [user_turn message; assistant_turn response].
Proof.
  intros Hrun. eexists.
  rewrite (chat_question_returned _ _ _ _ _ _ Hrun). apply most_recent_snoc2.
Qed.

Lemma Contains_join_last2 (sep a b : string) (l : list string) :
  Contains (JS.join sep (l ++ [a; b])) (a +:+ sep +:+ b).
Proof.
  induction l as [|x l IH].
  - apply Contains_refl.
  - change ((x :: l) ++ [a; b]) with (x :: (l ++ [a; b])).
    destruct (l ++ [a; b]) as [|y rest] eqn:Hl.
    + by destruct l.
    + change (JS.join sep (x :: y :: rest)) with (x +:+ sep +:+ JS.join sep (y :: rest)).
      by do 2 apply Contains_app_r.
Qed.

(** X4.  The conversation carries over: after a completed turn, the system
    prompt of the next turn, whatever its question and its documents, has the
    question and the answer of that turn as two labelled lines, one after the
    other, under the heading of the previous conversation. *)
Theorem next_prompt_recalls_exchange (b : Backend) (w : World) (message response : string)
    (s s' : State) (docs : list Row) :
  chat_question b w message s = (Returned response, s') ->
  Contains (systemPrompt (chatHistory (bot s')) (formatContext b docs))
    ("Previous conversation:" +:+ LF)
  /\ Contains (systemPrompt (chatHistory (bot s')) (formatContext b docs))
       ("Human: " +:+ message +:+ LF +:+ "Assistant: " +:+ response).
Proof.
  intros Hrun.
  destruct (completed_turn_ends_history b w message response s s' Hrun) as [older ->].
  unfold systemPrompt, historyContext.
  assert ((0 <? length (older ++ [user_turn message; assistant_turn response])) = true) as ->.
  { apply Nat.ltb_lt. rewrite length_app. simpl. lia. }
  split.
  - do 3 apply Contains_app_r. apply Contains_app_l.
    exists "", (formatChatHistory (older ++ [user_turn message; assistant_turn response])
                  +:+ LF +:+ LF).
    by rewrite !str_app_assoc.
  - do 3 apply Contains_app_r. apply Contains_app_l.
    do 2 apply Contains_app_r. apply Contains_app_l.
    unfold formatChatHistory. rewrite map_app.
    pose proof (Contains_join_last2 LF ("Human: " +:+ message) ("Assistant: " +:+ response)
                  (map (fun msg => role_label (role msg) +:+ ": " +:+ content msg) older))
      as Hlast.
    by rewrite !str_app_assoc in Hlast.
Qed.

(** ** Retrieval *)

Lemma retrieve_asks (b : Backend) (w : World) (query : string) (limit : nat) (s : State) :
  exists asked,
    calls (retrieveRelevantDocuments b w query limit s).2 = calls s ++ asked
    /\ (asked = [] \/ asked = [CallEmbed query]
        \/ asked = [CallEmbed query; CallSearch limit]).
Proof.
  assert (forall out : Outcome (list Row) * State,
            (calls out.2 = calls s ++ []
             \/ calls out.2 = calls s ++ [CallEmbed query]
             \/ calls out.2 = calls s ++ [CallEmbed query; CallSearch limit]) ->
            exists asked,
              calls out.2 = calls s ++ asked
              /\ (asked = [] \/ asked = [CallEmbed query]
                  \/ asked = [CallEmbed query; CallSearch limit])) as Hcollect.
  { intros out [Hc|[Hc|Hc]]; eexists; (split; [exact Hc|]); auto. }
  destruct (handle (bot s)) eqn:Hhandle, (openai (bot s)) eqn:Hkey,
    (w_embed w query) as [v|] eqn:Hembed, (store s) as [rows|] eqn:Hstore;
    try destruct (w_search w rows v limit) as [found|] eqn:Hsearch;
    apply Hcollect;
    (destruct b as [|k]; [rewrite retrieve_memory_unfold | rewrite retrieve_remote_unfold]);
    cbv zeta; rewrite ?Hhandle, ?Hkey, ?Hembed, ?Hstore; simpl; rewrite ?Hsearch;
    unfold add_call; simpl; rewrite <- ?app_assoc, ?app_nil_r; simpl; auto.
Qed.

Lemma retrieve_hits (b : Backend) (w : World) (query : string) (limit : nat) (s : State)
    (hits : list Row) :
  (retrieveRelevantDocuments b w query limit s).1 = Returned hits ->
  hits <> [] ->
  handle (bot s) = true
  /\ exists v rows,
       w_embed w query = Some v /\ store s = Some rows
       /\ w_search w rows v limit = Some hits.
Proof.
  destruct (handle (bot s)) eqn:Hhandle, (openai (bot s)) eqn:Hkey,
    (w_embed w query) as [v|] eqn:Hembed, (store s) as [rows|] eqn:Hstore;
    try destruct (w_search w rows v limit) as [found|] eqn:Hsearch;
    (destruct b as [|k]; [rewrite retrieve_memory_unfold | rewrite retrieve_remote_unfold]);
    cbv zeta; rewrite ?Hhandle, ?Hkey, ?Hembed, ?Hstore; simpl; rewrite ?Hsearch;
    simpl; try done;
    intros [= <-] Hsome; try done; eauto 10.
Qed.

(** X5.  Retrieval only reads.  In all four scripts it leaves the chatbot
    and the store as they are and asks for no completion; what it asks for
    is nothing, or the embedding of the query alone, or that embedding
    followed by one search with the given limit.  Documents come back only
    as the answer of the service to the embedding of the query over the rows
    stored. *)
Theorem retrieval_only_reads (b : Backend) (w : World) (query : string) (limit : nat)
    (s : State) :
  bot (retrieveRelevantDocuments b w query limit s).2 = bot s
  /\ store (retrieveRelevantDocuments b w query limit s).2 = store s
  /\ (exists asked,
        calls (retrieveRelevantDocuments b w query limit s).2 = calls s ++ asked
        /\ (asked = [] \/ asked = [CallEmbed query]
            \/ asked = [CallEmbed query; CallSearch limit]))
  /\ (forall hits,
        (retrieveRelevantDocuments b w query limit s).1 = Returned hits ->
        hits <> [] ->
        handle (bot s) = true
        /\ exists v rows,
             w_embed w query = Some v /\ store s = Some rows
             /\ w_search w rows v limit = Some hits).
Proof.
  destruct (retrieve_frame b w query limit s) as (Hbot & Hstore & _).
  split; [exact Hbot|]. split; [exact Hstore|].
  split; [apply retrieve_asks|]. intros hits. apply retrieve_hits.
Qed.

(** ** Building the store *)

Lemma getEmbedding_outcome (w : World) (text : string) (s : State) :
  bot (getEmbedding w text s).2 = bot s /\ store (getEmbedding w text s).2 = store s
  /\ forall v, (getEmbedding w text s).1 = Returned v -> w_embed w text = Some v.
Proof.
  unfold getEmbedding. step. destruct (openai (bot s)); [|done]. step.
  destruct (w_embed w text); simpl; repeat split; congruence.
Qed.

Lemma embedQuery_outcome (w : World) (text : string) (s : State) :
  bot (embedQuery w text s).2 = bot s /\ store (embedQuery w text s).2 = store s
  /\ forall v, (embedQuery w text s).1 = Returned v -> w_embed w text = Some v.
Proof.
  unfold embedQuery. step.
  destruct (w_embed w text); simpl; repeat split; congruence.
Qed.

Lemma embed_rows_outcome (w : World) (embed : string -> M Embedding) (mk_id : nat -> string) :
  (forall text s,
     bot (embed text s).2 = bot s /\ store (embed text s).2 = store s
     /\ forall v, (embed text s).1 = Returned v -> w_embed w text = Some v) ->
  forall chunks i s out s',
    embed_rows embed mk_id i chunks s = (out, s') ->
    bot s' = bot s /\ store s' = store s
    /\ forall rows,
         out = Returned rows ->
         row_content <$> rows = contents mk_id i chunks
         /\ Forall (fun r => w_embed w (row_text r) = Some (row_vector r)) rows.
Proof.
  intros Hembed. induction chunks as [|chunk rest IH]; intros i s out s' Hrun.
  - injection Hrun as <- <-. split; [done|]. split; [done|]. by intros rows [= <-].
  - simpl in Hrun. unfold bind at 1 in Hrun.
    destruct (Hembed (pageContent chunk) s) as (Hb & Hs & Hv).
    destruct (embed (pageContent chunk) s) as [[v|err] s1]; simpl in Hb, Hs;
      [|by injection Hrun as <- <-].
    specialize (Hv v eq_refl). unfold bind at 1 in Hrun.
    destruct (embed_rows embed mk_id (S i) rest s1) as [[more|err] s2] eqn:Hrest;
      destruct (IH _ _ _ _ Hrest) as (Hb2 & Hs2 & Hrows); injection Hrun as <- <-;
      (split; [congruence|]); (split; [congruence|]); [|done].
    destruct (Hrows more eq_refl) as [Hcontent Hvectors].
    intros rows [= <-]. split.
    + rewrite fmap_cons, Hcontent. reflexivity.
    + by constructor.
Qed.

Lemma contents_app (mk_id : nat -> string) (l1 l2 : list Document) :
  forall i, contents mk_id i (l1 ++ l2)
            = contents mk_id i l1 ++ contents mk_id (i + length l1) l2.
Proof.
  induction l1 as [|x l1 IH]; intros i; simpl.
  - by replace (i + 0) with i by lia.
  - unfold contents in *. simpl. rewrite IH. do 3 f_equal. lia.
Qed.

Lemma contents_length (mk_id : nat -> string) (l : list Document) :
  forall i, length (contents mk_id i l) = length l.
Proof.
  induction l as [|x l IH]; intros i; [done|].
  unfold contents in *. simpl. by rewrite IH.
Qed.

Lemma contents_ids (mk_id : nat -> string) (rows : list Row) (l : list Document) :
  forall i, row_content <$> rows = contents mk_id i l ->
            row_id <$> rows = mk_id <$> seq i (length l).
Proof.
  revert rows. induction l as [|x l IH]; intros rows i Hrows.
  - by destruct rows.
  - destruct rows as [|r rows]; [done|].
    unfold contents in *. simpl in Hrows.
    injection Hrows as Hr Htext Htype Hsource Hrest.
    change (seq i (length (x :: l))) with (i :: seq (S i) (length l)).
    by rewrite !fmap_cons, (IH rows (S i) Hrest), Hr.
Qed.

Lemma write_batch_outcome (k : StoreKind) (w : World) (i : nat) (vectors : list Row)
    (s s' : State) (out : Outcome unit) :
  write_batch k w i vectors s = (out, s') ->
  bot s' = bot s
  /\ match out with
     | Returned _ =>
         handle (bot s) = true
         /\ exists rows,
              store s = Some rows
              /\ store s'
                 = Some (foldl (match k with Pinecone => upsert1 | _ => add1 end) rows vectors)
     | Thrown _ => store s' = store s
     end.
Proof.
  unfold write_batch. step. destruct (handle (bot s)); [|by intros [= <- <-]]. step.
  destruct (w_remote_ok w (OpWrite i)); [|by intros [= <- <-]]. step.
  destruct (store s) as [rows|] eqn:Hstore; intros [= <- <-]; simpl; [|done].
  split; [done|]. split; [done|]. by exists rows.
Qed.

(** One round of the batch loop, whatever its outcome: a round that returns
    has added the next hundred chunks, a round that throws has added
    nothing. *)
Lemma store_batch_outcome (k : StoreKind) (w : World) (chunks : list Document) (i : nat)
    (s s' : State) (out : Outcome unit) (rows : list Row) :
  store_batch k w chunks i s = (out, s') ->
  store s = Some rows ->
  i < length chunks ->
  holds (chunk_id k) w rows (take i chunks) ->
  bot s' = bot s
  /\ match out with
     | Returned _ =>
         handle (bot s) = true
         /\ exists rows',
              store s' = Some rows'
              /\ holds (chunk_id k) w rows' (take (i + batchSize) chunks)
     | Thrown _ => store s' = Some rows
     end.
Proof.
  unfold store_batch. cbv zeta. unfold bind at 1. intros Hrun Hstore Hi [Hc Hv].
  set (batch := JS.slice_range chunks i (i + batchSize)) in *.
  assert (take (i + batchSize) chunks = take i chunks ++ batch) as Hbatch.
  { unfold batch, JS.slice_range. rewrite take_take_drop.
    by replace (i + batchSize - i) with batchSize by lia. }
  assert (0 < length batch) as Hsome.
  { unfold batch, JS.slice_range. rewrite length_take, length_drop. unfold batchSize. lia. }
  destruct (embed_rows (getEmbedding w) (chunk_id k) i batch s) as [[vectors|err] s1] eqn:Hemb;
    destruct (embed_rows_outcome w _ _ (getEmbedding_outcome w) _ _ _ _ _ Hemb)
      as (Hb1 & Hs1 & Hrows);
    [|injection Hrun as <- <-; split; congruence].
  destruct (Hrows vectors eq_refl) as [Hvc Hvv].
  assert (length vectors = length batch) as Hvlen.
  { apply (f_equal length) in Hvc. by rewrite length_fmap, contents_length in Hvc. }
  assert (write_batch k w i vectors s1 = (out, s') ->
          bot s' = bot s
          /\ match out with
             | Returned _ =>
                 handle (bot s) = true
                 /\ exists rows',
                      store s' = Some rows'
                      /\ holds (chunk_id k) w rows' (take (i + batchSize) chunks)
             | Thrown _ => store s' = Some rows
             end) as Hwrite.
  { intros Hw. apply write_batch_outcome in Hw as [Hb2 Hout].
    split; [congruence|]. destruct out as [[]|err]; [|congruence].
    destruct Hout as (Hhandle & rows0 & Hst0 & Hst').
    rewrite Hs1, Hstore in Hst0. injection Hst0 as <-.
    split; [congruence|].
    pose proof (contents_ids _ _ _ _ Hc) as Hids.
    rewrite length_take, Nat.min_l in Hids by lia.
    pose proof (contents_ids _ _ _ _ Hvc) as Hvids.
    destruct (ids_fresh_append k rows vectors i (length batch) Hids Hvids) as [Hfold _].
    exists (rows ++ vectors). split; [by rewrite Hst', Hfold|].
    split.
    - rewrite fmap_app, Hc, Hvc, Hbatch, contents_app.
      rewrite length_take, Nat.min_l by lia. done.
    - by apply Forall_app. }
  destruct k; [|by apply Hwrite|by apply Hwrite].
  assert ((0 <? length vectors) = true) as Hpos by (apply Nat.ltb_lt; lia).
  rewrite Hpos in Hrun. by apply Hwrite.
Qed.

(** The batch loop, whatever its outcome: when it returns every round has
    added its hundred; when it throws the rounds before the failing one
    have, and the failing one has added nothing. *)
Lemma batch_loop_outcome (k : StoreKind) (w : World) (chunks : list Document) (c : nat) :
  forall (a : nat) (s s' : State) (out : Outcome unit) (rows : list Row),
    for_each (map (fun j => j * batchSize) (seq a c)) (store_batch k w chunks) s = (out, s') ->
    store s = Some rows ->
    holds (chunk_id k) w rows (take (a * batchSize) chunks) ->
    (a + c) * batchSize < length chunks + batchSize ->
    bot s' = bot s
    /\ match out with
       | Returned _ =>
           (0 < c -> handle (bot s) = true)
           /\ exists rows',
                store s' = Some rows'
                /\ holds (chunk_id k) w rows' (take ((a + c) * batchSize) chunks)
       | Thrown _ =>
           exists m rows',
             a <= m < a + c
             /\ store s' = Some rows'
             /\ holds (chunk_id k) w rows' (take (m * batchSize) chunks)
       end.
Proof.
  induction c as [|c IH]; intros a s s' out rows Hrun Hstore Hholds Hbound.
  - injection Hrun as <- <-. split; [done|]. split; [lia|].
    exists rows. split; [done|]. by replace (a + 0) with a by lia.
  - change (seq a (S c)) with (a :: seq (S a) c) in Hrun.
    rewrite map_cons in Hrun.
    change (for_each (?x :: ?l) ?body) with (body x;; for_each l body) in Hrun.
    unfold bind at 1 in Hrun.
    assert (a * batchSize < length chunks) as Ha by (unfold batchSize in *; lia).
    destruct (store_batch k w chunks (a * batchSize) s) as [[[]|err] s1] eqn:Hround;
      destruct (store_batch_outcome _ _ _ _ _ _ _ _ Hround Hstore Ha Hholds) as [Hb1 Hout].
    + destruct Hout as (Hhandle & rows1 & Hstore1 & Hholds1).
      replace (a * batchSize + batchSize) with (S a * batchSize) in Hholds1 by lia.
      assert ((S a + c) * batchSize < length chunks + batchSize) as Hbound1
        by (unfold batchSize in *; lia).
      destruct (IH (S a) s1 s' out rows1 Hrun Hstore1 Hholds1 Hbound1) as [Hb2 Hrest].
      split; [congruence|]. destruct out as [[]|err].
      * destruct Hrest as (_ & rows' & Hstore' & Hholds').
        split; [done|]. exists rows'. split; [done|].
        by replace (a + S c) with (S a + c) by lia.
      * destruct Hrest as (m & rows' & Hm & Hstore' & Hholds').
        exists m, rows'. split; [lia|done].
    + injection Hrun as <- <-. split; [done|].
      exists a, rows. split; [lia|]. split; [congruence|done].
Qed.

Lemma batch_count (n : nat) :
  0 < n ->
  (n + batchSize - 1) / batchSize * batchSize < n + batchSize
  /\ n <= (n + batchSize - 1) / batchSize * batchSize.
Proof.
  intros Hn. unfold batchSize.
  pose proof (Nat.div_mod_eq (n + 100 - 1) 100).
  pose proof (Nat.mod_upper_bound (n + 100 - 1) 100). lia.
Qed.

Lemma holds_nil (mk_id : nat -> string) (w : World) (chunks : list Document) :
  holds mk_id w [] (take 0 chunks).
Proof. split; [by rewrite take_0|constructor]. Qed.

(** What a build given some chunks leaves behind, whatever its outcome. *)
Lemma createVectorStore_outcome (k : StoreKind) (w : World) (chunks : list Document)
    (s s' : State) (out : Outcome unit) :
  createVectorStore k w chunks s = (out, s') ->
  store s = empty_store k ->
  chunks <> [] ->
  match out with
  | Returned _ =>
      (exists rows, store s' = Some rows /\ holds (chunk_id k) w rows chunks)
      /\ documentCount (bot s') = length chunks
      /\ handle (bot s') = true
  | Thrown _ =>
      bot s' = bot s
      /\ match k with
         | LanceDB => store s' = None
         | _ =>
             exists m rows,
               m * batchSize < length chunks
               /\ store s' = Some rows
               /\ holds (chunk_id k) w rows (take (m * batchSize) chunks)
         end
  end.
Proof.
  unfold createVectorStore.
  destruct chunks as [|chunk rest]; [done|].
  set (chunks := chunk :: rest). change (length chunks =? 0) with false. cbv iota.
  intros Hrun Hempty _.
  assert (0 < length chunks) as Hn by (simpl; lia).
  destruct (batch_count (length chunks) Hn) as [Hupper Hlower].
  assert (forall k0,
            k0 <> LanceDB -> store s = Some [] ->
            (for_each (batch_starts (length chunks)) (store_batch k0 w chunks);;
             set_bot (with_documentCount (length chunks))) s = (out, s') ->
            match out with
            | Returned _ =>
                (exists rows, store s' = Some rows /\ holds (chunk_id k0) w rows chunks)
                /\ documentCount (bot s') = length chunks
                /\ handle (bot s') = true
            | Thrown _ =>
                bot s' = bot s
                /\ exists m rows,
                     m * batchSize < length chunks
                     /\ store s' = Some rows
                     /\ holds (chunk_id k0) w rows (take (m * batchSize) chunks)
            end) as Hloop.
  { intros k0 _ Hstore. unfold bind at 1, batch_starts.
    destruct (for_each _ _ s) as [[[]|err] s1] eqn:Hfor.
    - destruct (batch_loop_outcome k0 w chunks _ 0 s s1 _ [] Hfor Hstore
                  (holds_nil _ _ _) Hupper) as (Hb & Hhandle & rows & Hstore1 & Hholds).
      rewrite take_ge in Hholds by (unfold batchSize in *; lia).
      intros [= <- <-]. simpl. split; [by exists rows|]. split; [done|].
      rewrite Hb. apply Hhandle. apply Nat.div_str_pos. unfold batchSize. lia.
    - destruct (batch_loop_outcome k0 w chunks _ 0 s s1 _ [] Hfor Hstore
                  (holds_nil _ _ _) Hupper) as (Hb & m & rows & Hm & Hstore1 & Hholds).
      intros [= <- <-]. split; [done|]. exists m, rows. split; [|done].
      unfold batchSize in *. lia. }
  destruct k; [by apply Hloop..|].
  simpl in Hempty. revert Hrun. unfold bind at 1.
  destruct (embed_rows (getEmbedding w) (chunk_id LanceDB) 0 chunks s)
    as [[data|err] s1] eqn:Hemb;
    destruct (embed_rows_outcome w _ _ (getEmbedding_outcome w) _ _ _ _ _ Hemb)
      as (Hb1 & Hs1 & Hrows);
    [|intros [= <- <-]; split; congruence].
  destruct (Hrows data eq_refl) as [Hcontent Hvectors].
  unfold createTable. step.
  destruct (client (bot s1)); [|intros [= <- <-]; split; congruence]. step.
  destruct (w_remote_ok w OpCreate); [|intros [= <- <-]; split; congruence]. step.
  rewrite Hs1, Hempty.
  intros [= <- <-]. simpl. split; [by exists data|]. split; [|done].
  apply (f_equal length) in Hcontent. by rewrite length_fmap, contents_length in Hcontent.
Qed.

(** X6.  A build that returns has stored the chunks it was given, on top of
    an empty index or collection or in a new table: one row per chunk, in
    the order of the chunks, the row of the chunk at position [i] carrying
    the identifier made from [i], the text and the two labels of the chunk,
    and the embedding of that text.  The cached count is the number of
    chunks and the handle is set.  Given no chunks, the build changes
    nothing. *)
Theorem build_stores_every_chunk (k : StoreKind) (w : World) (chunks : list Document)
    (s s' : State) :
  createVectorStore k w chunks s = (Returned tt, s') ->
  store s = empty_store k ->
  (chunks = [] /\ s' = s)
  \/ (chunks <> []
      /\ (exists rows, store s' = Some rows /\ holds (chunk_id k) w rows chunks)
      /\ documentCount (bot s') = length chunks
      /\ handle (bot s') = true).
Proof.
  intros Hrun Hempty. destruct chunks as [|chunk rest].
  - left. split; [done|]. by injection Hrun as <-.
  - right. split; [done|].
    by apply (createVectorStore_outcome k w (chunk :: rest) s s' (Returned tt)).
Qed.

Lemma build_stores_every_chunk_witness :
  exists rows,
    store (createVectorStore Chroma Sample.sky_world
             [ {| pageContent := "The sky is blue."; doc_type := "facts";
                  source := "facts/sky.md" |} ] Cases.emptied).2 = Some rows
    /\ holds (chunk_id Chroma) Sample.sky_world rows
         [ {| pageContent := "The sky is blue."; doc_type := "facts";
              source := "facts/sky.md" |} ].
Proof.
  destruct (build_stores_every_chunk Chroma Sample.sky_world
              [ {| pageContent := "The sky is blue."; doc_type := "facts";
                   source := "facts/sky.md" |} ]
              Cases.emptied
              (createVectorStore Chroma Sample.sky_world
                 [ {| pageContent := "The sky is blue."; doc_type := "facts";
                      source := "facts/sky.md" |} ] Cases.emptied).2)
    as [[Hnone _]|(_ & Hrows & _)].
  - vm_compute. reflexivity.
  - reflexivity.
  - discriminate Hnone.
  - exact Hrows.
Defined.

(** X7.  A build that throws never leaves part of a batch behind and never
    touches the chatbot, so the cached count and the handle stay as they
    were.  In the Pinecone and Chroma scripts the store then holds the
    chunks of the batches before the failing one, a whole number of
    hundreds short of all the chunks, in order; in the LanceDB script there
    is still no table. *)
Theorem failed_build_keeps_whole_batches (k : StoreKind) (w : World)
    (chunks : list Document) (s s' : State) (e : string) :
  createVectorStore k w chunks s = (Thrown e, s') ->
  store s = empty_store k ->
  bot s' = bot s
  /\ match k with
     | LanceDB => store s' = None
     | _ =>
         exists m rows,
           m * batchSize < length chunks
           /\ store s' = Some rows
           /\ holds (chunk_id k) w rows (take (m * batchSize) chunks)
     end.
Proof.
  intros Hrun Hempty. destruct chunks as [|chunk rest]; [done|].
  by apply (createVectorStore_outcome k w (chunk :: rest) s s' (Thrown e)).
Qed.

Lemma failed_build_keeps_whole_batches_witness :
  bot (createVectorStore Chroma Cases.second_fails
         [ {| pageContent := "one"; doc_type := "facts"; source := "facts/1.md" |};
           {| pageContent := "two"; doc_type := "facts"; source := "facts/2.md" |} ]
         Cases.emptied).2
  = bot Cases.emptied.
Proof.
  refine (proj1 (failed_build_keeps_whole_batches Chroma Cases.second_fails
                   [ {| pageContent := "one"; doc_type := "facts"; source := "facts/1.md" |};
                     {| pageContent := "two"; doc_type := "facts"; source := "facts/2.md" |} ]
                   Cases.emptied _ "embedding request failed" _ _)).
  - vm_compute. reflexivity.
  - reflexivity.
Defined.

Lemma slices_concat {A : Type} (l : list A) (c : nat) :
  forall a,
    concat (map (fun i => JS.slice_range l i (i + batchSize))
              (map (fun j => j * batchSize) (seq a c)))
    = take (c * batchSize) (drop (a * batchSize) l).
Proof.
  induction c as [|c IH]; intros a; [done|].
  change (seq a (S c)) with (a :: seq (S a) c).
  rewrite !map_cons. change (concat (?x :: ?xs)) with (x ++ concat xs).
  rewrite IH. unfold JS.slice_range.
  replace (a * batchSize + batchSize - a * batchSize) with batchSize by lia.
  replace (S c * batchSize) with (batchSize + c * batchSize) by lia.
  replace (S a * batchSize) with (a * batchSize + batchSize) by lia.
  by rewrite <- drop_drop, take_take_drop.
Qed.

(** X8.  The batch loop of the Pinecone and Chroma scripts cuts the chunks
    into consecutive slices that together are the chunks, each once and in
    order; no slice is empty and none has more than a hundred chunks. *)
Theorem batches_partition_chunks {A : Type} (chunks : list A) :
  concat (map (fun i => JS.slice_range chunks i (i + batchSize))
            (batch_starts (length chunks))) = chunks
  /\ Forall (fun i => 0 < length (JS.slice_range chunks i (i + batchSize)) <= batchSize)
       (batch_starts (length chunks)).
Proof.
  split.
  - unfold batch_starts. rewrite slices_concat.
    change (0 * batchSize) with 0. rewrite drop_0. apply take_ge.
    unfold batchSize.
    pose proof (Nat.div_mod_eq (length chunks + 100 - 1) 100).
    pose proof (Nat.mod_upper_bound (length chunks + 100 - 1) 100). lia.
  - unfold batch_starts. apply List.Forall_forall. intros i Hi.
    apply in_map_iff in Hi as (j & <- & Hj).
    apply in_seq in Hj. unfold JS.slice_range.
    rewrite length_take, length_drop. unfold batchSize in *.
    pose proof (Nat.div_mod_eq (length chunks + 100 - 1) 100).
    pose proof (Nat.mod_upper_bound (length chunks + 100 - 1) 100). lia.
Qed.

(** ** Loading the documents *)

Lemma load_folders_bind (folders : list Folder) :
  load_folders folders
  = folders ≫= (fun folder => tag (folder_name folder) <$> default [] (folder_docs folder)).
Proof.
  induction folders as [|folder rest IH]; [done|].
  rewrite bind_cons, <- IH. simpl. by destruct (folder_docs folder).
Qed.

(** X9.  Loading in the three store scripts is tolerant.  It leaves the
    chatbot, the store and the requests made as they are, and it throws in
    one case only: the file system refuses what the script asks of it, the
    listing of the directory or, when the directory is missing, the writing
    of the example folder.  What it returns otherwise are the documents of
    the folders that could be loaded, folder after folder, each document
    labelled with the name of its folder; a folder whose loader throws
    contributes nothing, and a missing directory gives no documents.  The
    one thing it writes is that example: loading again, in the directory as
    this load left it, returns the same documents when the directory was
    there, and the example document, labelled [example], when it was not. *)
Theorem remote_load_skips_failed_folders (k : StoreKind) (w : World) (s : State) :
  (loadDocuments (Remote k) w s).2 = s
  /\ ((exists e, (loadDocuments (Remote k) w s).1 = Thrown e) <-> w_glob_ok w = false)
  /\ (forall documents,
        (loadDocuments (Remote k) w s).1 = Returned documents ->
        documents
        = default [] (w_kb w)
            ≫= (fun folder => tag (folder_name folder) <$> default [] (folder_docs folder)))
  /\ (forall documents w' s',
        (loadDocuments (Remote k) w s).1 = Returned documents ->
        w_kb w' = kb_after w ->
        w_glob_ok w' = true ->
        loadDocuments (Remote k) w' s'
        = (Returned (match w_kb w with
                     | None => [ {| pageContent := exampleContent; doc_type := "example";
                                    source := "example/example.md" |} ]
                     | Some _ => documents
                     end), s')).
Proof.
  split; [apply loadDocuments_pure|].
  unfold loadDocuments, kb_after, createExampleKnowledgeBase.
  destruct (w_kb w) as [folders|]; simpl.
  - destruct (w_glob_ok w); simpl.
    + split; [|split].
      * split; [|done]. intros [e He]. by destruct (length folders =? 0).
      * intros documents. destruct folders as [|folder rest]; [by intros [= <-]|].
        intros [= <-]. exact (load_folders_bind (folder :: rest)).
      * intros documents w' s' Hrun -> ->. simpl.
        destruct folders as [|folder rest]; by injection Hrun as <-.
    + split; [|split]; [|done..]. split; [done|]. by exists "glob failed".
  - destruct (w_glob_ok w); step.
    + split; [|split]; [|by intros documents [= <-]|].
      * split; [by intros [e He]|done].
      * intros documents w' s' _ -> ->. reflexivity.
    + split; [|split]; [|done..]. split; [done|]. by eexists.
Qed.

Lemma load_folders_strict_outcome (folders : list Folder) (s : State) :
  load_folders_strict folders s
  = if forallb (fun folder => bool_decide (is_Some (folder_docs folder))) folders
    then (Returned (load_folders folders), s)
    else (Thrown "loader failed", s).
Proof.
  induction folders as [|folder rest IH]; [done|].
  simpl. destruct (folder_docs folder) as [docs|]; [|done].
  unfold bind. rewrite IH. simpl.
  by destruct (forallb _ rest).
Qed.

Lemma embedQuery_unfold (w : World) (text : string) (s : State) :
  embedQuery w text s
  = match w_embed w text with
    | Some v => (Returned v, add_call (CallEmbed text) s)
    | None => (Thrown "embedding request failed", add_call (CallEmbed text) s)
    end.
Proof. unfold embedQuery. step. by destruct (w_embed w text). Qed.

Lemma embed_rows_memory_returns (w : World) (mk_id : nat -> string) (chunks : list Document) :
  forall i s,
    (exists rows s', embed_rows (embedQuery w) mk_id i chunks s = (Returned rows, s'))
    <-> Forall (fun chunk => is_Some (w_embed w (pageContent chunk))) chunks.
Proof.
  induction chunks as [|chunk rest IH]; intros i s.
  - split; [constructor|]. intros _. by eexists _, _.
  - simpl. unfold bind at 1. rewrite embedQuery_unfold.
    destruct (w_embed w (pageContent chunk)) as [v|] eqn:Hv.
    + unfold bind at 1. split.
      * intros (rows & s' & Hrun). constructor; [by rewrite Hv|].
        apply (IH (S i) (add_call (CallEmbed (pageContent chunk)) s)).
        destruct (embed_rows _ _ _ rest _) as [[more|err] s2]; [|done]. by eexists _, _.
      * intros Hall. apply Forall_cons in Hall as [_ Hrest].
        apply (IH (S i) (add_call (CallEmbed (pageContent chunk)) s)) in Hrest
          as (more & s2 & ->).
        by eexists _, _.
    + split.
      * by intros (rows & s' & Hrun).
      * intros Hall. apply Forall_cons in Hall as [[v' Hsome] _]. congruence.
Qed.

(** X10.  The in-memory script starts all or nothing.  Start-up returns
    exactly when the key is set and not empty, the directory can be listed,
    every folder loads and every chunk of the split documents gets its
    embedding.  It then holds one row per chunk, in order and with the
    embedding of its text, with the handle set and the conversation
    untouched.  When start-up throws, the store is as it was before; with
    an empty key that is after the documents were loaded and split, when the
    embeddings client is built. *)
Theorem memory_start_is_all_or_nothing (env : Env) (w : World) (s : State) :
  ((exists s', initialize InMemory env w s = (Returned tt, s'))
   <-> JS.falsy (env !! "OPENAI_API_KEY") = false
       /\ w_glob_ok w = true
       /\ Forall (fun folder => is_Some (folder_docs folder)) (default [] (w_kb w))
       /\ Forall (fun chunk => is_Some (w_embed w (pageContent chunk)))
            (w_split w (load_folders (default [] (w_kb w)))))
  /\ (forall s',
        initialize InMemory env w s = (Returned tt, s') ->
        handle (bot s') = true
        /\ chatHistory (bot s') = chatHistory (bot s)
        /\ exists rows,
             store s' = Some rows
             /\ holds (fun _ => "") w rows (w_split w (load_folders (default [] (w_kb w)))))
  /\ (forall e s',
        initialize InMemory env w s = (Thrown e, s') ->
        store s' = store s /\ handle (bot s') = handle (bot s)).
Proof.
  destruct (initialize InMemory env w s) as [out s1] eqn:Hinit. revert Hinit.
  unfold initialize, new_OpenAI, createVectorStore_memory, new_OpenAIEmbeddings,
    OPENAI_API_KEY, loadDocuments.
  destruct (env !! "OPENAI_API_KEY") as [key|].
  2:{ intros [= <- <-]. split; [|split]; [|done|by intros e s' [= _ <-]].
      split; [by intros [s' Hrun]|]. by intros (Hkey & _). }
  unfold bind at 1, set_bot at 1. cbv beta iota.
  set (s0 := {| bot := with_openai (Some key) (bot s); store := store s; calls := calls s |}).
  destruct (w_glob_ok w).
  2:{ intros [= <- <-]. split; [|split]; [|done|by intros e s' [= _ <-]].
      split; [by intros [s' Hrun]|]. by intros (_ & Hglob & _). }
  unfold bind at 1. rewrite load_folders_strict_outcome.
  destruct (forallb _ (default [] (w_kb w))) eqn:Hload.
  2:{ intros [= <- <-]. split; [|split]; [|done|by intros e s' [= _ <-]].
      split; [by intros [s' Hrun]|]. intros (_ & _ & Hall & _).
      apply not_true_iff_false in Hload. contradict Hload.
      apply forallb_forall. intros folder Hin.
      apply bool_decide_eq_true. rewrite List.Forall_forall in Hall. by apply Hall. }
  assert (Forall (fun folder => is_Some (folder_docs folder)) (default [] (w_kb w))) as Hfolders.
  { apply List.Forall_forall. intros folder Hin.
    rewrite forallb_forall in Hload. apply Hload in Hin.
    by apply bool_decide_eq_true in Hin. }
  cbv zeta.
  set (chunks := w_split w (load_folders (default [] (w_kb w)))).
  unfold bind at 1.
  destruct (JS.falsy (Some key)) eqn:Hfalsy.
  { step. intros [= <- <-]. split; [|split]; [|done|by intros e s' [= _ <-]].
    split; [by intros [s' Hrun]|]. by intros (Hkey & _). }
  unfold ret at 1. cbv beta iota. unfold bind at 1.
  pose proof (embed_rows_memory_returns w (fun _ => "") chunks 0 s0) as Hreturns.
  destruct (embed_rows (embedQuery w) (fun _ => "") 0 chunks s0) as [[rows|err] s2] eqn:Hemb;
    destruct (embed_rows_outcome w _ _ (embedQuery_outcome w) _ _ _ _ _ Hemb)
      as (Hb1 & Hs1 & Hrows).
  - step. intros [= <- <-]. split; [|split]; [| |done].
    + split; [|by eexists]. intros _. repeat split; try done.
      apply Hreturns. by eexists _, _.
    + intros s' [= <-]. simpl. split; [done|]. split; [by rewrite Hb1|].
      exists rows. split; [done|]. by apply Hrows.
  - intros [= <- <-]. split; [|split]; [|done|].
    + split; [by intros [s' Hrun]|]. intros (_ & _ & _ & Hall).
      apply Hreturns in Hall as (rows & s' & Hrun). done.
    + intros e s' [= _ <-]. by rewrite Hs1, Hb1.
Qed.

Lemma memory_start_is_all_or_nothing_witness :
  store (initialize InMemory {[ "OPENAI_API_KEY" := "" ]} Sample.sky_world (boot None)).2
  = store (boot None).
Proof.
  destruct (memory_start_is_all_or_nothing {[ "OPENAI_API_KEY" := "" ]} Sample.sky_world
              (boot None)) as (_ & _ & Hthrown).
  refine (proj1 (Hthrown "OpenAI or Azure OpenAI API key not found" _ _)).
  vm_compute. reflexivity.
Defined.

Lemma next_prompt_recalls_exchange_witness :
  Contains
    (systemPrompt
       (chatHistory
          (bot (chat_question InMemory Sample.sky_world Sample.question (Sample.ready [])).2))
       (formatContext InMemory []))
    ("Human: " +:+ Sample.question +:+ LF +:+ "Assistant: " +:+ "Blue.").
Proof.
  refine (proj2 (next_prompt_recalls_exchange InMemory Sample.sky_world Sample.question "Blue."
                   (Sample.ready []) _ [] _)).
  vm_compute. reflexivity.
Defined.

(** ** Starting against a store that is already there *)



(** X12.  The Pinecone and Chroma scripts cannot start against an index
    or collection that exists while the service fails to list what it
    holds: the failed listing is taken for an absent store, the creation of
    the name that is taken is refused, and [main] exits with code 1.  The
    store is left as it was. *)
Theorem unlisted_store_blocks_start (k : StoreKind) (env : Env) (w : World)
    (rows : list Row) (inputs : list (World * string)) :
  k <> LanceDB ->
  w_remote_ok w OpList = false ->
  (exists e s',
     initialize (Remote k) env w (boot (Some rows)) = (Thrown e, s')
     /\ store s' = Some rows)
  /\ (main (Remote k) env w inputs (boot (Some rows))).1 = Exited 1.
Proof.
  intros Hk Hlist.
  assert (exists e s',
            initialize (Remote k) env w (boot (Some rows)) = (Thrown e, s')
            /\ store s' = Some rows) as (e & s' & Hinit & Hstore).
  { unfold initialize, check_openai_key, new_OpenAI, connect, checkExists, loadExisting,
      createEmpty, remote_count.
    destruct k; [| |done]; step.
    - repeat branch; by eexists _, _.
    - destruct (env !! "OPENAI_API_KEYY") as [key|]; [|by eexists _, _]. step.
      repeat branch; by eexists _, _. }
  split; [by exists e, s'|].
  destruct (load_module_cases (Remote k) env (boot (Some rows)))
    as [(_ & _ & Hload)|[_ Hload]].
  - unfold main. unfold bind at 1. by rewrite Hload.
  - by rewrite (main_after_load _ _ _ _ _ Hload), Hinit.
Qed.

Lemma unlisted_store_blocks_start_witness :
  (main (Remote Pinecone) Sample.full_env Cases.no_listing [] (boot (Some [Sample.sky_row]))).1
  = Exited 1.
Proof.
  refine (proj2 (unlisted_store_blocks_start Pinecone Sample.full_env Cases.no_listing
                   [Sample.sky_row] [] _ _)).
  - discriminate.
  - reflexivity.
Defined.

(** ** Building and rebuilding without documents, or without embeddings *)

Lemma loadDocuments_returns (k : StoreKind) (w : World) (s : State) :
  w_glob_ok w = true ->
  loadDocuments (Remote k) w s = (Returned (load_folders (default [] (w_kb w))), s).
Proof.
  intros Hglob. unfold loadDocuments, createExampleKnowledgeBase. rewrite Hglob.
  destruct (w_kb w) as [folders|]; [|done]. simpl. by destruct folders.
Qed.

(** X13.  With no document to load, because the directory is missing or
    because no folder in it gives a document, the build of the three store
    scripts returns and leaves the chatbot, the store and the requests made
    as they are: it asks for no embedding and writes nothing to the store,
    and the splitter is not consulted.  What it does write, when the
    directory is missing, is the example folder, so that a build that
    follows in the directory as left splits and stores the example
    document; and when the file system refuses, the build throws, likewise
    without a change to chatbot or store. *)
Theorem no_documents_build_nothing (k : StoreKind) (w : World) (s : State) :
  load_folders (default [] (w_kb w)) = [] ->
  (w_glob_ok w = true ->
   createKnowledgeBase k w s = (Returned tt, s)
   /\ (w_kb w = None ->
       forall w' s',
         w_kb w' = kb_after w ->
         w_glob_ok w' = true ->
         createKnowledgeBase k w' s'
         = createVectorStore k w'
             (w_split w' [ {| pageContent := exampleContent; doc_type := "example";
                              source := "example/example.md" |} ]) s'))
  /\ (w_glob_ok w = false ->
      exists e, createKnowledgeBase k w s = (Thrown e, s)).
Proof.
  intros Hnone. split.
  - intros Hglob. split.
    + unfold createKnowledgeBase, bind.
      by rewrite (loadDocuments_returns _ _ _ Hglob), Hnone.
    + intros Hkb w' s' Hafter Hglob'. unfold createKnowledgeBase, bind.
      rewrite (loadDocuments_returns _ _ _ Hglob'), Hafter.
      unfold kb_after. by rewrite Hkb.
  - intros Hglob. unfold createKnowledgeBase, bind, loadDocuments, createExampleKnowledgeBase.
    rewrite Hglob. destruct (w_kb w); by eexists.
Qed.

Lemma no_documents_build_nothing_witness :
  createKnowledgeBase LanceDB Cases.bare_world Cases.untabled = (Returned tt, Cases.untabled).
Proof.
  destruct (no_documents_build_nothing LanceDB Cases.bare_world Cases.untabled) as [Hbuilt _].
  - reflexivity.
  - apply Hbuilt. reflexivity.
Defined.

(** Before it builds, a rebuild on a started chatbot empties the store:
    with the service answering, the build runs on an empty index or
    collection, or without a table, and on the chatbot as it was. *)
Lemma rebuild_clears (k : StoreKind) (w : World) (s : State) :
  (forall op, w_remote_ok w op = true) ->
  started s ->
  rebuildKnowledgeBase k w s
  = createKnowledgeBase k w {| bot := bot s; store := empty_store k; calls := calls s |}.
Proof.
  intros Hok (Hclient & Hhandle & _ & [rows Hrows]).
  destruct s as [[cl hd key h ini cnt] st cs]. simpl in *. subst.
  destruct k; unfold rebuildKnowledgeBase, remote_delete, createEmpty; step;
    rewrite ?Hok; step; rewrite ?Hok; step; done.
Qed.

Lemma holds_embeds (mk_id : nat -> string) (w : World) (chunks : list Document) :
  forall rows i,
    row_content <$> rows = contents mk_id i chunks ->
    Forall (fun r => w_embed w (row_text r) = Some (row_vector r)) rows ->
    Forall (fun chunk => is_Some (w_embed w (pageContent chunk))) chunks.
Proof.
  induction chunks as [|chunk rest IH]; intros rows i Hrows Hvectors; [constructor|].
  destruct rows as [|r rows]; [done|].
  unfold contents in *. simpl in Hrows.
  injection Hrows as _ Htext _ _ Hrest.
  apply Forall_cons in Hvectors as [Hr Hvectors].
  constructor; [|by apply (IH rows (S i))].
  rewrite <- Htext. by eexists.
Qed.

Lemma chat_rebuild (k : StoreKind) (w : World) (message : string) (s : State) :
  same_ignoring_case message "rebuild" ->
  chat (Remote k) w message s
  = match rebuildKnowledgeBase k w s with
    | (Returned _, s') => (Returned "Knowledge base rebuilt successfully!", s')
    | (Thrown _, s') => (Returned apology, s')
    end.
Proof.
  intros Hcmd. apply same_ignoring_case_lower in Hcmd. simpl in Hcmd.
  unfold chat. rewrite Hcmd. step.
  by destruct (rebuildKnowledgeBase k w s) as [[[]|err] s'].
Qed.

Lemma Contains_head2 (a b rest : string) : Contains (a +:+ b +:+ rest) (a +:+ b).
Proof. exists "", rest. by rewrite !str_app_assoc. Qed.

Lemma Contains_head3 (a b c rest : string) :
  Contains (a +:+ b +:+ c +:+ rest) (a +:+ b +:+ c).
Proof. exists "", rest. by rewrite !str_app_assoc. Qed.

(** X14.  A rebuild in the LanceDB script that finds no document reports
    success and leaves the chatbot without a table, while the handle stays
    set and the cached count keeps the number of rows of the table that was
    dropped; the status report goes on showing both.  When the directory is
    missing and the example folder cannot be written, all of this holds but
    for the answer, which is the apology. *)
Theorem lancedb_rebuild_without_documents (w : World) (message : string) (s : State) :
  (forall op, w_remote_ok w op = true) ->
  started s ->
  same_ignoring_case message "rebuild" ->
  w_kb w = None \/ (w_glob_ok w = true /\ load_folders (default [] (w_kb w)) = []) ->
  exists s',
    chat (Remote LanceDB) w message s
    = (Returned (if w_glob_ok w then "Knowledge base rebuilt successfully!" else apology), s')
    /\ store s' = None
    /\ bot s' = bot s
    /\ exists report,
         getStatus LanceDB w s' = (Returned report, s')
         /\ Contains report ("- Table: " +:+ available true)
         /\ Contains report ("- Documents: " +:+ pretty (documentCount (bot s)) +:+ " chunks").
Proof.
  intros Hok Hstarted Hcmd Hnone.
  pose proof Hstarted as (_ & Hhandle & _).
  rewrite (chat_rebuild _ _ _ _ Hcmd), (rebuild_clears _ _ _ Hok Hstarted).
  set (s1 := {| bot := bot s; store := empty_store LanceDB; calls := calls s |}).
  assert (createKnowledgeBase LanceDB w s1
          = (if w_glob_ok w then Returned tt else Thrown "EACCES: permission denied, mkdir 'knowledge-base/example'", s1))
    as ->.
  { unfold createKnowledgeBase, bind.
    destruct Hnone as [Hkb|[Hglob Hdocs]].
    - unfold loadDocuments, createExampleKnowledgeBase. rewrite Hkb.
      by destruct (w_glob_ok w).
    - by rewrite loadDocuments_returns, Hdocs, Hglob. }
  exists s1. split; [by destruct (w_glob_ok w)|]. simpl. split; [done|]. split; [done|].
  unfold getStatus. step. eexists. split; [done|]. rewrite Hhandle.
  split; repeat first [apply Contains_head2 | apply Contains_head3 | apply Contains_app_r].
Qed.

Lemma lancedb_rebuild_without_documents_witness :
  exists s',
    chat (Remote LanceDB) Cases.bare_world "rebuild" (Sample.ready [])
    = (Returned "Knowledge base rebuilt successfully!", s')
    /\ store s' = None
    /\ bot s' = bot (Sample.ready []).
Proof.
  destruct (lancedb_rebuild_without_documents Cases.bare_world "rebuild" (Sample.ready []))
    as (s' & Hchat & Hstore & Hbot & _).
  - reflexivity.
  - repeat split; by eexists.
  - repeat constructor.
  - left. reflexivity.
  - by exists s'.
Defined.

(** X15.  A rebuild is not undone when it fails.  On a started chatbot
    whose store service answers, a rebuild during which the embedding of
    some chunk is refused is answered with the apology; the rows stored
    before are gone all the same.  The store is left with the chunks of the
    batches before the failing one (Pinecone, Chroma) or without a table
    (LanceDB), and the chatbot, its cached count included, is as before. *)
Theorem failed_rebuild_loses_old_rows (k : StoreKind) (w : World) (message : string)
    (s : State) :
  (forall op, w_remote_ok w op = true) ->
  w_glob_ok w = true ->
  started s ->
  same_ignoring_case message "rebuild" ->
  Exists (fun chunk => w_embed w (pageContent chunk) = None)
    (createTextChunks w (load_folders (default [] (w_kb w)))) ->
  exists s',
    chat (Remote k) w message s = (Returned apology, s')
    /\ bot s' = bot s
    /\ match k with
       | LanceDB => store s' = None
       | _ =>
           exists m rows,
             m * batchSize < length (createTextChunks w (load_folders (default [] (w_kb w))))
             /\ store s' = Some rows
             /\ holds (chunk_id k) w rows
                  (take (m * batchSize) (createTextChunks w (load_folders (default [] (w_kb w)))))
       end.
Proof.
  intros Hok Hglob Hstarted Hcmd Hrefused.
  rewrite (chat_rebuild _ _ _ _ Hcmd), (rebuild_clears _ _ _ Hok Hstarted).
  unfold createKnowledgeBase, bind. rewrite (loadDocuments_returns _ _ _ Hglob).
  set (chunks := createTextChunks w (load_folders (default [] (w_kb w)))) in *.
  set (s1 := {| bot := bot s; store := empty_store k; calls := calls s |}).
  assert (chunks <> []) as Hsome by (intros Hnil; rewrite Hnil in Hrefused; inversion Hrefused).
  destruct (createVectorStore k w chunks s1) as [[[]|e] s'] eqn:Hbuild;
    apply createVectorStore_outcome in Hbuild; try done.
  - destruct Hbuild as ((rows & _ & Hrows & Hvectors) & _).
    pose proof (holds_embeds _ _ _ _ _ Hrows Hvectors) as Hall.
    apply Exists_exists in Hrefused as (chunk & Hin & Hnone).
    rewrite Forall_forall in Hall. destruct (Hall chunk Hin) as [v Hv]. congruence.
  - exists s'. split; [done|]. exact Hbuild.
Qed.

Lemma failed_rebuild_loses_old_rows_witness :
  exists s',
    chat (Remote Pinecone) Cases.second_fails "rebuild" Sample.populated = (Returned apology, s')
    /\ bot s' = bot Sample.populated.
Proof.
  destruct (failed_rebuild_loses_old_rows Pinecone Cases.second_fails "rebuild" Sample.populated)
    as (s' & Hchat & Hbot & _).
  - reflexivity.
  - reflexivity.
  - repeat split; by eexists.
  - repeat constructor.
  - apply Exists_cons_tl, Exists_cons_hd. reflexivity.
  - by exists s'.
Defined.

(** ** The stand-alone example *)

Lemma ensure_collection_outcome (v : RAGSystem.Services) (s s' : State) (out : Outcome unit) :
  RAGSystem.ensure_collection v s = (out, s') ->
  default [] (store s') = default [] (store s)
  /\ calls s' = calls s
  /\ chatHistory (bot s') = chatHistory (bot s)
  /\ (forall u, out = Returned u ->
        handle (bot s') = true /\ (handle (bot s) = false -> is_Some (store s'))).
Proof.
  unfold RAGSystem.ensure_collection, RAGSystem.initializeCollection. step.
  destruct (handle (bot s)) eqn:Hhandle.
  - intros [= <- <-]. repeat split; try done.
  - step. destruct (w_remote_ok (RAGSystem.base v) OpCreate); step; intros [= <- <-];
      simpl; repeat split; try done; by eexists.
Qed.

Lemma embed_entries_outcome (v : RAGSystem.Services) (documents : list RAGSystem.Entry) :
  forall i s out s',
    RAGSystem.embed_entries v i documents s = (out, s') ->
    bot s' = bot s /\ store s' = store s
    /\ forall rows,
         out = Returned rows ->
         length rows = length documents
         /\ forall j doc,
              documents !! j = Some doc ->
              exists r,
                rows !! j = Some r
                /\ row_id r = RAGSystem.entry_id v doc (i + j)
                /\ row_text r = RAGSystem.doc_content doc
                /\ w_embed (RAGSystem.base v) (RAGSystem.doc_content doc) = Some (row_vector r).
Proof.
  induction documents as [|doc rest IH]; intros i s out s' Hrun.
  - injection Hrun as <- <-. split; [done|]. split; [done|]. by intros rows [= <-].
  - simpl in Hrun. unfold bind at 1, RAGSystem.generateEmbedding in Hrun.
    destruct (embedQuery_outcome (RAGSystem.base v) (RAGSystem.doc_content doc) s)
      as (Hb & Hs & Hv).
    destruct (embedQuery _ _ s) as [[e|err] s1]; simpl in Hb, Hs;
      [|by injection Hrun as <- <-].
    specialize (Hv e eq_refl). unfold bind at 1 in Hrun.
    destruct (RAGSystem.embed_entries v (S i) rest s1) as [[more|err] s2] eqn:Hrest;
      destruct (IH _ _ _ _ Hrest) as (Hb2 & Hs2 & Hrows); injection Hrun as <- <-;
      (split; [congruence|]); (split; [congruence|]); [|done].
    destruct (Hrows more eq_refl) as [Hlen Hmore].
    intros rows [= <-]. split; [simpl; by rewrite Hlen|].
    intros [|j] d Hd; simpl in Hd.
    + injection Hd as <-. eexists. split; [reflexivity|]. simpl.
      by replace (i + 0) with i by lia.
    + destruct (Hmore j d Hd) as (r & Hr & Hid & Htext & Hvec).
      exists r. split; [done|]. split; [|done].
      by replace (i + S j) with (S i + j) by lia.
Qed.

(** X16.  [addDocuments] of the stand-alone example writes once, after
    every document is embedded.  When it throws, the collection holds the
    records it held before.  When it returns, one row per document, in
    order, was handed to a single [add]: each with the document's id, or
    one made from the clock and the position when the id is missing or
    empty, with the document's text and with the embedding of that text. *)
Theorem example_adds_in_one_write (v : RAGSystem.Services) (documents : list RAGSystem.Entry)
    (s s' : State) (out : Outcome unit) :
  RAGSystem.addDocuments v documents s = (out, s') ->
  match out with
  | Thrown _ => default [] (store s') = default [] (store s)
  | Returned _ =>
      handle (bot s') = true
      /\ exists rows,
           store s' = Some (foldl add1 (default [] (store s)) rows)
           /\ length rows = length documents
           /\ forall j doc,
                documents !! j = Some doc ->
                exists r,
                  rows !! j = Some r
                  /\ row_id r = RAGSystem.entry_id v doc j
                  /\ row_text r = RAGSystem.doc_content doc
                  /\ w_embed (RAGSystem.base v) (RAGSystem.doc_content doc)
                     = Some (row_vector r)
  end.
Proof.
  unfold RAGSystem.addDocuments. unfold bind at 1.
  destruct (RAGSystem.ensure_collection v s) as [[[]|err] s1] eqn:Hensure;
    destruct (ensure_collection_outcome _ _ _ _ Hensure) as (Hstore1 & _ & _ & Hready);
    [|by intros [= <- <-]].
  destruct (Hready tt eq_refl) as [Hhandle _].
  unfold bind at 1.
  destruct (RAGSystem.embed_entries v 0 documents s1) as [[rows|err] s2] eqn:Hembed;
    destruct (embed_entries_outcome _ _ _ _ _ _ Hembed) as (Hb2 & Hs2 & Hrows);
    [|intros [= <- <-]; by rewrite Hs2].
  destruct (Hrows rows eq_refl) as [Hlen Heach].
  intros Hwrite. apply write_batch_outcome in Hwrite as [Hb3 Hout].
  destruct out as [[]|err]; [|by rewrite Hout, Hs2].
  destruct Hout as (_ & old & Hold & Hnew).
  split; [congruence|]. exists rows.
  rewrite Hs2 in Hold. rewrite <- Hstore1, Hold. simpl. done.
Qed.

Lemma example_adds_in_one_write_witness :
  handle (bot (RAGSystem.addDocuments Cases.example_services RAGSystem.documents
                 (boot None)).2) = true.
Proof.
  refine (proj1 (example_adds_in_one_write Cases.example_services RAGSystem.documents
                   (boot None) _ (Returned tt) _)).
  vm_compute. reflexivity.
Defined.

Lemma store_query_outcome (w : World) (v : Embedding) (limit : nat) (s s' : State)
    (out : Outcome (list Row)) :
  store_query w v limit s = (out, s') ->
  bot s' = bot s /\ store s' = store s /\ calls s' = calls s ++ [CallSearch limit]
  /\ forall hits,
       out = Returned hits ->
       exists rows, store s = Some rows /\ w_search w rows v limit = Some hits.
Proof.
  unfold store_query. step. destruct (store s) as [rows|] eqn:Hstore.
  - destruct (w_search w rows v limit) as [hits|] eqn:Hsearch; intros [= <- <-];
      simpl; repeat split; try done.
    intros hits' [= <-]. by exists rows.
  - intros [= <- <-]. simpl. repeat split; done.
Qed.

(** X17.  An answer of the stand-alone example is grounded in what was
    retrieved.  When [generateResponse] returns, its sources are the texts
    of the five-record search made with the embedding of the query over the
    collection; the last request made is the completion request, whose user
    message contains each of these texts, the query and the instruction to
    say so when the context has no answer; and the answer is the reply to
    that request. *)
Theorem example_answer_is_grounded (v : RAGSystem.Services) (query : string)
    (maxTokens : nat) (s s' : State) (r : RAGSystem.Response) :
  RAGSystem.generateResponse v query maxTokens s = (Returned r, s') ->
  exists hits,
    RAGSystem.sources r = map row_text hits
    /\ (exists embedding rows,
          w_embed (RAGSystem.base v) query = Some embedding
          /\ store s' = Some rows
          /\ w_search (RAGSystem.base v) rows embedding 5 = Some hits)
    /\ last (calls s') = Some (CallComplete "gpt-4" (RAGSystem.messages_for query hits))
    /\ RAGSystem.reply v "gpt-4" (RAGSystem.messages_for query hits) maxTokens
       = Some (RAGSystem.answer r)
    /\ RAGSystem.messages_for query hits !! 1
       = Some (user_turn (RAGSystem.prompt_for query hits))
    /\ (forall text, In text (RAGSystem.sources r) ->
          Contains (RAGSystem.prompt_for query hits) text)
    /\ Contains (RAGSystem.prompt_for query hits) query
    /\ Contains (RAGSystem.prompt_for query hits)
         "If the answer cannot be found in the context, please say so.".
Proof.
  unfold RAGSystem.generateResponse, RAGSystem.searchSimilar. unfold bind at 1. unfold bind at 1.
  destruct (RAGSystem.ensure_collection v s) as [[[]|err] s1] eqn:Hensure; [|done].
  unfold bind at 1, RAGSystem.generateEmbedding.
  destruct (embedQuery_outcome (RAGSystem.base v) query s1) as (Hb2 & Hs2 & Hv).
  destruct (embedQuery (RAGSystem.base v) query s1) as [[embedding|err] s2]; [|done].
  simpl in Hb2, Hs2. specialize (Hv embedding eq_refl).
  destruct (store_query (RAGSystem.base v) embedding 5 s2) as [[hits|err] s3] eqn:Hquery;
    [|done].
  apply store_query_outcome in Hquery as (Hb3 & Hs3 & Hc3 & Hhits).
  destruct (Hhits hits eq_refl) as (rows & Hrows & Hsearch).
  step.
  destruct (RAGSystem.reply v "gpt-4" (RAGSystem.messages_for query hits) maxTokens)
    as [replied|] eqn:Hreply; [|done].
  intros [= <- <-]. simpl. exists hits. split; [done|].
  split; [exists embedding, rows; by rewrite Hs3|].
  split; [by rewrite last_snoc|]. split; [done|]. split; [done|].
  unfold RAGSystem.prompt_for. split; [|split].
  - intros text Hin. apply Contains_app_r, Contains_app_r, Contains_app_l.
    by apply Contains_join.
  - find_piece.
  - find_piece.
Qed.

Lemma example_answer_is_grounded_witness :
  exists hits,
    RAGSystem.sources
      {| RAGSystem.answer := "A subset of AI."; RAGSystem.sources := ["The sky is blue."] |}
    = map row_text hits.
Proof.
  destruct (example_answer_is_grounded Cases.example_services "What is machine learning?" 1000
              (Sample.ready [])
              (RAGSystem.generateResponse Cases.example_services "What is machine learning?"
                 1000 (Sample.ready [])).2
              {| RAGSystem.answer := "A subset of AI.";
                 RAGSystem.sources := ["The sky is blue."] |})
    as (hits & Hsources & _).
  - vm_compute. reflexivity.
  - by exists hits.
Defined.

(** ** What a question costs *)

(** X18.  A question never writes to the store, and it makes at most three
    requests, in this order: the embedding of the question, one search for
    four documents, one completion.  The completion request carries the
    system prompt made from the history as it was before the question and,
    as the user message, the question as typed.  A turn that returns an
    answer has made its completion request. *)
Theorem question_costs_three_requests (b : Backend) (w : World) (message : string)
    (s : State) :
  store (chat_question b w message s).2 = store s
  /\ exists lookups asks,
       calls (chat_question b w message s).2 = calls s ++ lookups ++ asks
       /\ (lookups = [] \/ lookups = [CallEmbed message]
           \/ lookups = [CallEmbed message; CallSearch 4])
       /\ (asks = []
           \/ exists hits,
                asks = [CallComplete (MODEL b)
                          (messages_for b (chatHistory (bot s)) hits message)])
       /\ (forall response,
             (chat_question b w message s).1 = Returned response -> asks <> []).
Proof.
  rewrite chat_question_unfold.
  destruct (retrieve_frame b w message 4 s) as (Hbot & Hstore & _).
  destruct (retrieve_asks b w message 4 s) as (lookups & Hcalls & Hlookups).
  destruct (retrieveRelevantDocuments b w message 4 s) as [[hits|e] s1];
    simpl in Hbot, Hstore, Hcalls.
  2:{ split; [done|]. exists lookups, []. rewrite app_nil_r. simpl.
      split; [done|]. split; [done|]. split; [by left|done]. }
  cbv zeta. rewrite Hbot.
  destruct (openai (bot s)).
  2:{ split; [done|]. exists lookups, []. rewrite app_nil_r. simpl.
      split; [done|]. split; [done|]. split; [by left|done]. }
  assert (forall (out : Outcome string) (h : list Msg),
            store (out, set_history h
                          (add_call (CallComplete (MODEL b)
                                       (messages_for b (chatHistory (bot s)) hits message))
                             (set_history (chatHistory (bot s) ++ [user_turn message]) s1))).2
            = store s
            /\ exists lookups0 asks,
                 calls (out, set_history h
                               (add_call (CallComplete (MODEL b)
                                            (messages_for b (chatHistory (bot s)) hits message))
                                  (set_history (chatHistory (bot s) ++ [user_turn message])
                                     s1))).2
                 = calls s ++ lookups0 ++ asks
                 /\ (lookups0 = [] \/ lookups0 = [CallEmbed message]
                     \/ lookups0 = [CallEmbed message; CallSearch 4])
                 /\ (asks = []
                     \/ exists hits0,
                          asks = [CallComplete (MODEL b)
                                    (messages_for b (chatHistory (bot s)) hits0 message)])
                 /\ (forall response, (out, s).1 = Returned response -> asks <> [])) as Hasked.
  { intros out h. simpl. split; [done|].
    exists lookups, [CallComplete (MODEL b) (messages_for b (chatHistory (bot s)) hits message)].
    split; [by rewrite Hcalls, app_assoc|]. split; [done|]. split; [right; by exists hits|done]. }
  destruct (w_complete w (MODEL b) _) as [stream|].
  - destruct (broken stream).
    + apply (Hasked (Thrown "stream interrupted")
               (chatHistory (bot s) ++ [user_turn message])).
    + apply (Hasked (Returned (foldl add_delta "" (deltas stream)))).
  - apply (Hasked (Thrown "completion request failed")
             (chatHistory (bot s) ++ [user_turn message])).
Qed.

(** ** What a rebuild leaves in the store *)

(** X19.  With every service answering, the rebuild command on a started
    chatbot replaces whatever the store held by the knowledge base as it is
    now: the store then holds the chunks of the documents loaded, one row
    per chunk, in order, each with its identifier, text, labels and the
    embedding of its text, and the cached count is their number.  With no
    chunk to store, the store is left empty (no table in the LanceDB script)
    and the chatbot as it was. *)
Theorem rebuild_replaces_the_store (k : StoreKind) (w : World) (message : string) (s : State) :
  healthy w ->
  started s ->
  same_ignoring_case message "rebuild" ->
  exists s',
    chat (Remote k) w message s = (Returned "Knowledge base rebuilt successfully!", s')
    /\ match createTextChunks w (load_folders (default [] (w_kb w))) with
       | [] => store s' = empty_store k /\ bot s' = bot s
       | chunk :: rest =>
           (exists rows,
              store s' = Some rows
              /\ holds (chunk_id k) w rows (chunk :: rest))
           /\ documentCount (bot s') = length (chunk :: rest)
           /\ chatHistory (bot s') = chatHistory (bot s)
       end.
Proof.
  intros Hw Hstarted Hcmd.
  pose proof Hw as (Hok & _ & Hglob).
  pose proof Hstarted as (Hclient & Hhandle & Hkey & _).
  rewrite (chat_rebuild _ _ _ _ Hcmd), (rebuild_clears _ _ _ Hok Hstarted).
  unfold createKnowledgeBase, bind. rewrite (loadDocuments_returns _ _ _ Hglob).
  set (s1 := {| bot := bot s; store := empty_store k; calls := calls s |}).
  destruct (createTextChunks w (load_folders (default [] (w_kb w)))) as [|chunk rest].
  - exists s1. by split.
  - destruct (createVectorStore_succeeds k w (chunk :: rest) s1 Hw Hclient Hhandle Hkey eq_refl)
      as (s' & Hbuild).
    rewrite Hbuild. exists s'. split; [done|].
    assert (chatHistory (bot s') = chatHistory (bot s1)) as Hhistory.
    { pose proof (keeps_createVectorStore k w (chunk :: rest) s1) as Hkeep.
      by rewrite Hbuild in Hkeep. }
    apply createVectorStore_outcome in Hbuild as (Hrows & Hcount & _); done.
Qed.

Lemma rebuild_replaces_the_store_witness :
  exists s',
    chat (Remote Chroma) Sample.sky_world "rebuild" Sample.populated
    = (Returned "Knowledge base rebuilt successfully!", s')
    /\ documentCount (bot s') = 1.
Proof.
  destruct (rebuild_replaces_the_store Chroma Sample.sky_world "rebuild" Sample.populated)
    as (s' & Hchat & _ & Hcount & _).
  - repeat split; by eexists.
  - repeat split; by eexists.
  - repeat constructor.
  - by exists s'.
Defined.

(** ** Credentials, once more *)

(** X20.  A start that lacks a key the script insists on ends with exit
    code 1 before anything is asked of a service: no request is made and the
    store is not touched.  The keys insisted on are the Pinecone key of the
    Pinecone script, the key the Chroma script reads from [OPENAI_API_KEYY],
    neither of which may be missing, empty or the placeholder, and the
    OpenAI key of [src/index.js], which may not be missing. *)
Theorem missing_key_stops_before_any_request (b : Backend) (env : Env) (w : World)
    (inputs : list (World * string)) (s : State) :
  match b with
  | InMemory => env !! "OPENAI_API_KEY" = None
  | Remote Pinecone =>
      JS.falsy (env !! "PINECONE_API_KEY") = true
      \/ env !! "PINECONE_API_KEY" = Some "your-pinecone-api-key"
  | Remote Chroma =>
      JS.falsy (env !! "OPENAI_API_KEYY") = true
      \/ env !! "OPENAI_API_KEYY" = Some "your-openai-api-key"
  | Remote LanceDB => False
  end ->
  (main b env w inputs s).1 = Exited 1
  /\ store (main b env w inputs s).2 = store s
  /\ calls (main b env w inputs s).2 = calls s.
Proof.
  destruct b as [|[]]; intros Hkey; [| | |done].
  - unfold main, initialize, new_OpenAI. step. by rewrite Hkey.
  - assert (PINECONE_API_KEY env = "your-pinecone-api-key") as Hplace.
    { unfold PINECONE_API_KEY, JS.or_default.
      destruct Hkey as [Hf| ->]; [|done].
      destruct (env !! "PINECONE_API_KEY") as [v|]; [|done]. simpl in Hf. by rewrite Hf. }
    unfold main, initialize, check_openai_key, new_OpenAI, connect. step.
    rewrite Hplace. simpl. by repeat branch.
  - unfold main, load_module, initialize, check_openai_key. step.
    destruct (JS.falsy (env !! "OPENAI_API_KEY")); step; [done|].
    destruct Hkey as [Hf| ->]; [by rewrite Hf|].
    by rewrite orb_true_r.
Qed.

Lemma missing_key_stops_before_any_request_witness :
  (main (Remote Chroma) ∅ Sample.sky_world [] (boot None)).1 = Exited 1.
Proof.
  refine (proj1 (missing_key_stops_before_any_request (Remote Chroma) ∅ Sample.sky_world []
                   (boot None) _)).
  left. reflexivity.
Defined.

(** ** The lines of the prompt, one by one *)





